(** * Stave backend: the pack transcoder of [stave_backend/lib/utils.py]

    A shallow embedding of [transform_pack], [add_entry_to_doc],
    [edit_entry_in_doc], [delete_entry_from_doc], the class
    [OntoDefinitions] and the access helpers ([check_perm_project],
    [fetch_doc_check_perm], [fetch_project_check_perm]), followed by the
    properties of the specification that were checked against them.

    Conventions of the embedding:
    - a JSON text is represented by its parse tree ([json]); [json.loads] and
      [json.dumps] are the identity on trees.  Numbers are integers (floats are
      outside the model);
    - a Python [dict] is an association list in insertion order with the
      lookup taking the first binding; [dict_set] updates in place or appends,
      as the assignment [d[k] = v] does;
    - a Python exception is a value of [exn]; a computation that may raise has
      type [result A].  [Unmodelled] marks Python behaviour that the model
      does not cover (indexing into a string, [str] of a container, dictionary
      keys that are not strings);
    - a string is a sequence of code points below 256; [packaging.version] is
      modelled in full on them ([InvalidVersion] is the library's exception,
      a subclass of [ValueError]);
    - the iteration order of a Python [set] is a parameter ([set_order]);
    - the depth of recursion that the interpreter still allows is a parameter
      ([depth]); running out of it is [RecursionError]. *)

From Stdlib Require Import ZArith NArith String Ascii List Lia Bool.
From stdpp Require Import base list strings pretty.
Import ListNotations.
Open Scope string_scope.
Open Scope Z_scope.
Open Scope list_scope.

(** ** JSON trees and Python exceptions *)

#[local] Set Warnings "-register-all".

Inductive json : Type :=
| JNull
| JBool (b : bool)
| JInt (z : Z)
| JStr (s : string)
| JArr (items : list json)
| JObj (fields : list (string * json)).

Inductive exn : Type :=
| KeyError
| IndexError
| TypeError
| AttributeError
| ValueError
| RecursionError
| InvalidVersion
| Unmodelled.

Inductive result (A : Type) : Type :=
| Ok (a : A)
| Raise (e : exn).
Arguments Ok {A} a.
Arguments Raise {A} e.

Definition bind {A B} (m : result A) (k : A -> result B) : result B :=
  match m with
  | Ok a => k a
  | Raise e => Raise e
  end.

Notation "x <- m ;; k" := (bind m (fun x => k))
  (at level 100, m at next level, right associativity).

(** [for x in l: acc = f(acc, x)], stopping at the first exception. *)
Fixpoint foldM {A B} (f : A -> B -> result A) (l : list B) (acc : A) : result A :=
  match l with
  | [] => Ok acc
  | x :: l' => acc' <- f acc x ;; foldM f l' acc'
  end.

(** [[f(x) for x in l]], stopping at the first exception. *)
Fixpoint mapM {A B} (f : A -> result B) (l : list A) : result (list B) :=
  match l with
  | [] => Ok []
  | x :: l' => y <- f x ;; ys <- mapM f l' ;; Ok (y :: ys)
  end.

(** ** Python primitives on JSON trees *)

Module Py.

(** [d.get(k)] on the bindings of a dict: the first binding of [k]. *)
Fixpoint assoc (k : string) (d : list (string * json)) : option json :=
  match d with
  | [] => None
  | (k', v) :: d' => if String.eqb k k' then Some v else assoc k d'
  end.

(** [d[k] = v] on the bindings of a dict: an existing key keeps its place,
    a new key goes last. *)
Fixpoint dict_set (k : string) (v : json) (d : list (string * json))
  : list (string * json) :=
  match d with
  | [] => [(k, v)]
  | (k', v') :: d' =>
      if String.eqb k k' then (k', v) :: d' else (k', v') :: dict_set k v d'
  end.

(** Truth value of an object ([bool(x)]). *)
Definition truthy (x : json) : bool :=
  match x with
  | JNull => false
  | JBool b => b
  | JInt z => negb (z =? 0)
  | JStr s => negb (String.eqb s "")
  | JArr l => match l with [] => false | _ => true end
  | JObj d => match d with [] => false | _ => true end
  end.

(** [str(x)] for the scalars. *)
Definition str (x : json) : result string :=
  match x with
  | JNull => Ok "None"
  | JBool true => Ok "True"
  | JBool false => Ok "False"
  | JInt z => Ok (pretty z)
  | JStr s => Ok s
  | JArr _ | JObj _ => Raise Unmodelled
  end.

(** An object used as an integer index: [int], or [bool] as 0 and 1. *)
Definition as_index (i : json) : option Z :=
  match i with
  | JInt z => Some z
  | JBool b => Some (if b then 1 else 0)
  | _ => None
  end.

(** The position that index [z] denotes in a list of length [len]
    (negative indices count from the end), if it is in range. *)
Definition position (len : nat) (z : Z) : option nat :=
  if 0 <=? z then
    if z <? Z.of_nat len then Some (Z.to_nat z) else None
  else
    if 0 <=? z + Z.of_nat len then Some (Z.to_nat (z + Z.of_nat len)) else None.

(** [x[i]] *)
Definition getitem (x i : json) : result json :=
  match x with
  | JObj d =>
      match i with
      | JStr k => match assoc k d with Some v => Ok v | None => Raise KeyError end
      | JArr _ | JObj _ => Raise TypeError
      | _ => Raise KeyError
      end
  | JArr l =>
      match as_index i with
      | Some z =>
          match position (length l) z with
          | Some n => match l !! n with Some v => Ok v | None => Raise IndexError end
          | None => Raise IndexError
          end
      | None => Raise TypeError
      end
  | JStr _ =>
      match as_index i with
      | Some _ => Raise Unmodelled
      | None => Raise TypeError
      end
  | _ => Raise TypeError
  end.

(** [x.get(k, default)] with [k] a string. *)
Definition get (x : json) (k : string) (default : json) : result json :=
  match x with
  | JObj d => Ok (match assoc k d with Some v => v | None => default end)
  | _ => Raise AttributeError
  end.

(** [k in x] with [k] a string. *)
Definition contains (x : json) (k : string) : result bool :=
  match x with
  | JObj d => Ok (match assoc k d with Some _ => true | None => false end)
  | JArr l =>
      Ok (existsb (fun y => match y with JStr s => String.eqb s k | _ => false end) l)
  | JStr _ => Raise Unmodelled
  | _ => Raise TypeError
  end.

(** [x[k] = v] with [k] a string. *)
Definition setitem (x : json) (k : string) (v : json) : result json :=
  match x with
  | JObj d => Ok (JObj (dict_set k v d))
  | _ => Raise TypeError
  end.

(** [x[i] = v] with [x] a list. *)
Definition list_setitem (l : list json) (i v : json) : result (list json) :=
  match as_index i with
  | Some z =>
      match position (length l) z with
      | Some n => Ok (<[n := v]> l)
      | None => Raise IndexError
      end
  | None => Raise TypeError
  end.

(** [del l[z]] with [l] a list. *)
Definition list_delitem (l : list json) (z : Z) : result (list json) :=
  match position (length l) z with
  | Some n => Ok (delete n l)
  | None => Raise IndexError
  end.

(** The elements that [for y in x] visits. *)
Definition iter (x : json) : result (list json) :=
  match x with
  | JArr l => Ok l
  | JObj d => Ok (map (fun kv => JStr (fst kv)) d)
  | JStr s => if String.eqb s "" then Ok [] else Raise Unmodelled
  | _ => Raise TypeError
  end.

(** [x.items()] *)
Definition items (x : json) : result (list (string * json)) :=
  match x with
  | JObj d => Ok d
  | _ => Raise AttributeError
  end.

(** [len(x)] *)
Definition len (x : json) : result nat :=
  match x with
  | JArr l => Ok (length l)
  | JObj d => Ok (length d)
  | JStr s => if String.eqb s "" then Ok 0%nat else Raise Unmodelled
  | _ => Raise TypeError
  end.

(** [x.append(v)] *)
Definition append (x v : json) : result json :=
  match x with
  | JArr l => Ok (JArr (l ++ [v]))
  | _ => Raise AttributeError
  end.

(** An object used as a key of a dict whose keys are strings. *)
Definition as_key (x : json) : result string :=
  match x with
  | JStr s => Ok s
  | JArr _ | JObj _ => Raise TypeError
  | _ => Raise Unmodelled
  end.

End Py.

Notation "x @[ k ]" := (Py.getitem x (JStr k)) (at level 1, format "x @[ k ]").
Notation "x #[ n ]" := (Py.getitem x (JInt n)) (at level 1, format "x #[ n ]").

(** [x[k1][k2]...[kn]] *)
Fixpoint path (x : json) (ks : list string) : result json :=
  match ks with
  | [] => Ok x
  | k :: ks' => y <- x@[k] ;; path y ks'
  end.

(** The tree after the object at [x[k1]...[kn]] has been mutated in place
    into [v]: every dict on the way keeps its keys and their order. *)
Fixpoint set_path (x : json) (ks : list string) (v : json) : result json :=
  match ks with
  | [] => Ok v
  | k :: ks' =>
      child <- x@[k] ;;
      child' <- set_path child ks' v ;;
      Py.setitem x k child'
  end.

(** ** [packaging.version]

    [Version(text)] and the order that [<] is on versions, as the library
    defines them.  The text is matched against the pattern of PEP 440
    ([VERSION_PATTERN] between [^\s*] and [\s*$], whatever the case of the
    letters), the groups of the match are read into the fields of the
    version, and two versions are compared by their keys ([_cmpkey]).  The
    pattern is matched the way a backtracking matcher does it: a matcher
    gives the ways in which it can read the head of a text, the way it
    prefers first, and the match is the first way that arrives at the end
    of the text.  A character is a code point below 256. *)

Module Packaging.

(** *** Matching a pattern *)

(** The ways in which a pattern matches at the head of a text, the
    preferred way first: what was read, and the text that is left. *)
Definition matcher (A : Type) : Type := string -> list (A * string).

Definition found {A} (a : A) : matcher A := fun s => [(a, s)].

(** [p] and, after it, what [k] says. *)
Definition then_ {A B} (p : matcher A) (k : A -> matcher B) : matcher B :=
  fun s => flat_map (fun r => k (fst r) (snd r)) (p s).

(** [p|q] *)
Definition or_ {A} (p q : matcher A) : matcher A := fun s => p s ++ q s.

(** [p?] *)
Definition optional {A} (p : matcher A) : matcher (option A) :=
  or_ (then_ p (fun a => found (Some a))) (found None).

(** [p*] for a [p] that reads at least one character; [n] bounds the number
    of rounds. *)
Fixpoint star {A} (n : nat) (p : matcher A) : matcher (list A) :=
  match n with
  | O => found []
  | S n' => or_ (then_ p (fun a => then_ (star n' p) (fun l => found (a :: l))))
                (found [])
  end.

(** One character of the class [f]. *)
Definition one (f : ascii -> bool) : matcher ascii := fun s =>
  match s with
  | String c s' => if f c then [(c, s')] else []
  | EmptyString => []
  end.

(** [[...]*]: the runs of characters of the class [f], the longest first. *)
Fixpoint many (f : ascii -> bool) (s : string) : list (string * string) :=
  match s with
  | String c s' =>
      if f c
      then map (fun r => (String c (fst r), snd r)) (many f s') ++ [(EmptyString, s)]
      else [(EmptyString, s)]
  | EmptyString => [(EmptyString, s)]
  end.

(** [[...]+] *)
Definition some (f : ascii -> bool) : matcher string :=
  then_ (one f) (fun c => then_ (many f) (fun r => found (String c r))).

(** *** Characters *)

Definition code (c : ascii) : N := N_of_ascii c.

Definition is_digit (c : ascii) : bool := ((48 <=? code c) && (code c <=? 57))%N.

Definition is_letter (c : ascii) : bool :=
  (((65 <=? code c) && (code c <=? 90)) || ((97 <=? code c) && (code c <=? 122)))%N.

(** [c.lower()] *)
Definition lower (c : ascii) : ascii :=
  if ((65 <=? code c) && (code c <=? 90))%N then ascii_of_N (code c + 32) else c.

(** [\s] *)
Definition is_space (c : ascii) : bool :=
  (((9 <=? code c) && (code c <=? 13)) || ((28 <=? code c) && (code c <=? 32))
   || (code c =? 133) || (code c =? 160))%N.

(** [[-_\.]] *)
Definition is_separator (c : ascii) : bool :=
  Ascii.eqb c "-" || Ascii.eqb c "_" || Ascii.eqb c ".".

(** A word of the pattern, in whatever case: the word as the text has it. *)
Fixpoint word (w : string) : matcher string :=
  match w with
  | EmptyString => found EmptyString
  | String a w' =>
      then_ (one (fun c => Ascii.eqb (lower c) a))
        (fun c => then_ (word w') (fun r => found (String c r)))
  end.

(** [(w1|w2|...)] *)
Fixpoint words (ws : list string) : matcher string :=
  match ws with
  | [] => fun _ => []
  | w :: ws' => or_ (word w) (words ws')
  end.

Definition digit (c : ascii) : option N :=
  let n := N_of_ascii c in
  if ((48 <=? n) && (n <=? 57))%N then Some (n - 48)%N else None.

(** [int(digits)] *)
Fixpoint int_from (acc : N) (digits : string) : N :=
  match digits with
  | EmptyString => acc
  | String c digits' =>
      int_from (10 * acc + match digit c with Some d => d | None => 0 end)%N digits'
  end.

Definition int (digits : string) : N := int_from 0 digits.

Fixpoint lower_all (s : string) : string :=
  match s with
  | EmptyString => EmptyString
  | String c s' => String (lower c) (lower_all s')
  end.

(** *** The groups of [VERSION_PATTERN] *)

(** [[-_\.]?(letters)[-_\.]?([0-9]+)?]: the letters and the digits. *)
Definition lettered (letters : list string) : matcher (string * option string) :=
  then_ (optional (one is_separator)) (fun _ =>
  then_ (words letters) (fun l =>
  then_ (optional (one is_separator)) (fun _ =>
  then_ (optional (some is_digit)) (fun n =>
  found (l, n))))).

(** [(?:(?P<epoch>[0-9]+)!)?] *)
Definition epoch_group : matcher (option string) :=
  optional (then_ (some is_digit) (fun e => then_ (word "!") (fun _ => found e))).

(** The group [release]: digits, then any number of times a dot and
    digits; split at the dots. *)
Definition release_group (rounds : nat) : matcher (list string) :=
  then_ (some is_digit) (fun n =>
  then_ (star rounds (then_ (word ".") (fun _ => some is_digit))) (fun ns =>
  found (n :: ns))).

Definition pre_group : matcher (option (string * option string)) :=
  optional (lettered ["a"; "b"; "c"; "rc"; "alpha"; "beta"; "pre"; "preview"]).

(** The letters, if any, and the digits, if any, of the post-release. *)
Definition post_group : matcher (option (option string * option string)) :=
  optional
    (or_ (then_ (word "-") (fun _ => then_ (some is_digit) (fun n =>
          found (None, Some n))))
         (then_ (lettered ["post"; "rev"; "r"]) (fun r =>
          found (Some (fst r), snd r)))).

Definition dev_group : matcher (option (string * option string)) :=
  optional (lettered ["dev"]).

(** The group [local], after a [+]: letters and digits, then any number of
    times a separator and letters and digits; split at the separators. *)
Definition local_group (rounds : nat) : matcher (option (list string)) :=
  let alnum c := is_digit c || is_letter c in
  optional
    (then_ (word "+") (fun _ =>
     then_ (some alnum) (fun p =>
     then_ (star rounds (then_ (one is_separator) (fun _ => some alnum))) (fun ps =>
     found (p :: ps))))).

(** [$]: the end of the text, or the newline that ends it. *)
Definition at_end : matcher unit := fun s =>
  if String.eqb s "" || String.eqb s (String (ascii_of_N 10) "") then [(tt, s)] else [].

Record groups : Type := {
  epoch_text : option string;
  release_text : list string;
  pre_text : option (string * option string);
  post_text : option (option string * option string);
  dev_text : option (string * option string);
  local_text : option (list string) }.

(** [^\s*v?(...)\s*$] *)
Definition pattern (rounds : nat) : matcher groups :=
  then_ (many is_space) (fun _ =>
  then_ (optional (word "v")) (fun _ =>
  then_ epoch_group (fun e =>
  then_ (release_group rounds) (fun r =>
  then_ pre_group (fun pre =>
  then_ post_group (fun post =>
  then_ dev_group (fun dev =>
  then_ (local_group rounds) (fun loc =>
  then_ (many is_space) (fun _ =>
  then_ at_end (fun _ =>
  found {| epoch_text := e; release_text := r; pre_text := pre;
           post_text := post; dev_text := dev; local_text := loc |})))))))))).

(** [_regex.search(text)] *)
Definition search (text : string) : option groups :=
  match pattern (String.length text) text with
  | r :: _ => Some (fst r)
  | [] => None
  end.

(** *** Versions *)

(** A part of a local version: a number or a word. *)
Inductive part : Type :=
| Number (n : N)
| Word (w : string).

Record version : Type := {
  epoch : N;
  release : list N;
  pre : option (string * N);
  post : option (string * N);
  dev : option (string * N);
  local_ : option (list part) }.

Definition normal_letter (letter : string) : string :=
  let l := lower_all letter in
  if String.eqb l "alpha" then "a"
  else if String.eqb l "beta" then "b"
  else if String.eqb l "c" || String.eqb l "pre" || String.eqb l "preview" then "rc"
  else if String.eqb l "rev" || String.eqb l "r" then "post"
  else l.

(** [_parse_letter_version(letter, number)] *)
Definition _parse_letter_version (letter number : option string)
  : option (string * N) :=
  match letter, number with
  | Some l, Some n => Some (normal_letter l, int n)
  | Some l, None => Some (normal_letter l, 0%N)
  | None, Some n => Some ("post", int n)
  | None, None => None
  end.

Fixpoint all_digits (s : string) : bool :=
  match s with
  | EmptyString => true
  | String c s' => is_digit c && all_digits s'
  end.

(** [_parse_local_version(local)] *)
Definition _parse_local_version (parts : list string) : list part :=
  map (fun p => if all_digits p then Number (int p) else Word (lower_all p)) parts.

(** [Version(text)] for a text that matches. *)
Definition of_groups (g : groups) : version :=
  {| epoch := match epoch_text g with Some e => int e | None => 0%N end;
     release := map int (release_text g);
     pre := match pre_text g with
            | Some (l, n) => _parse_letter_version (Some l) n
            | None => None
            end;
     post := match post_text g with
             | Some (l, n) => _parse_letter_version l n
             | None => None
             end;
     dev := match dev_text g with
            | Some (l, n) => _parse_letter_version (Some l) n
            | None => None
            end;
     local_ := option_map _parse_local_version (local_text g) |}.

(** *** The order of versions *)

(** A value, or one of the library's [Infinity] and [NegativeInfinity]. *)
Inductive bound (A : Type) : Type :=
| NegativeInfinity
| Finite (a : A)
| Infinity.
Arguments NegativeInfinity {A}.
Arguments Finite {A} a.
Arguments Infinity {A}.

Definition compare_bound {A} (cmp : A -> A -> comparison) (x y : bound A) : comparison :=
  match x, y with
  | NegativeInfinity, NegativeInfinity => Eq
  | NegativeInfinity, _ => Lt
  | _, NegativeInfinity => Gt
  | Infinity, Infinity => Eq
  | Infinity, _ => Gt
  | _, Infinity => Lt
  | Finite a, Finite b => cmp a b
  end.

(** The order of tuples: the first place that differs decides. *)
Definition compare_pair {A B} (cmp_a : A -> A -> comparison)
    (cmp_b : B -> B -> comparison) (x y : A * B) : comparison :=
  match cmp_a (fst x) (fst y) with
  | Eq => cmp_b (snd x) (snd y)
  | c => c
  end.

Fixpoint compare_tuple {A} (cmp : A -> A -> comparison) (x y : list A) : comparison :=
  match x, y with
  | [], [] => Eq
  | [], _ :: _ => Lt
  | _ :: _, [] => Gt
  | a :: x', b :: y' =>
      match cmp a b with
      | Eq => compare_tuple cmp x' y'
      | c => c
      end
  end.

Fixpoint drop_zeros (r : list N) : list N :=
  match r with
  | 0%N :: r' => drop_zeros r'
  | _ => r
  end.

Definition key : Type :=
  N * list N * bound (string * N) * bound (string * N) * bound (string * N)
  * bound (list (bound N * string)).

(** [_cmpkey(epoch, release, pre, post, dev, local)] *)
Definition _cmpkey (v : version) : key :=
  let _release := rev (drop_zeros (rev (release v))) in
  let _pre :=
    match pre v, post v, dev v with
    | None, None, Some _ => NegativeInfinity
    | None, _, _ => Infinity
    | Some p, _, _ => Finite p
    end in
  let _post := match post v with None => NegativeInfinity | Some p => Finite p end in
  let _dev := match dev v with None => Infinity | Some p => Finite p end in
  let _local :=
    match local_ v with
    | None => NegativeInfinity
    | Some parts =>
        Finite (map (fun p => match p with
                              | Number n => (Finite n, "")
                              | Word w => (NegativeInfinity, w)
                              end) parts)
    end in
  (epoch v, _release, _pre, _post, _dev, _local).

Definition compare_letter_number : string * N -> string * N -> comparison :=
  compare_pair String.compare N.compare.

Definition compare_key (x y : key) : comparison :=
  let '(e1, r1, pre1, post1, dev1, local1) := x in
  let '(e2, r2, pre2, post2, dev2, local2) := y in
  match N.compare e1 e2 with
  | Eq =>
    match compare_tuple N.compare r1 r2 with
    | Eq =>
      match compare_bound compare_letter_number pre1 pre2 with
      | Eq =>
        match compare_bound compare_letter_number post1 post2 with
        | Eq =>
          match compare_bound compare_letter_number dev1 dev2 with
          | Eq =>
              compare_bound
                (compare_tuple (compare_pair (compare_bound N.compare) String.compare))
                local1 local2
          | c => c
          end
        | c => c
        end
      | c => c
      end
    | c => c
    end
  | c => c
  end.

(** [a < b] on versions. *)
Definition lt (a b : version) : bool :=
  match compare_key (_cmpkey a) (_cmpkey b) with
  | Lt => true
  | _ => false
  end.

(** [Version(v)]: [search] raises [TypeError] on what is not a text, and a
    text that does not match is an [InvalidVersion]. *)
Definition Version (v : json) : result version :=
  match v with
  | JStr text =>
      match search text with
      | Some g => Ok (of_groups g)
      | None => Raise InvalidVersion
      end
  | _ => Raise TypeError
  end.

End Packaging.

(** [Version(pack_state.get("pack_version", "0.0.0")) < Version("0.0.2")] *)
Definition is_previous_version (pack_state : json) : result bool :=
  v <- Py.get pack_state "pack_version" (JStr "0.0.0") ;;
  a <- Packaging.Version v ;;
  b <- Packaging.Version (JStr "0.0.2") ;;
  Ok (Packaging.lt a b).

(** [if Version(...) < Version("0.0.2"): previous else: new], the statement
    that [transform_pack] and the three mutators all start their work with. *)
Definition by_version {A} (pack_state : json) (previous new : result A) : result A :=
  b <- is_previous_version pack_state ;;
  if b then previous else new.

(** ** The class [OntoDefinitions] *)

Definition ANNOTATION : string := "annotation".
Definition LINK : string := "link".
Definition GROUP : string := "group".
Definition UNKNOWN : string := "unknown".

Definition annotation_root : string := "forte.data.ontology.top.Annotation".
Definition link_root : string := "forte.data.ontology.top.Link".
Definition group_root : string := "forte.data.ontology.top.Group".

Record OntoDefinitions : Type := { _entries : list (string * json) }.

(** [OntoDefinitions(raw_ontology)] *)
Definition OntoDefinitions_init (raw_ontology : json) : result OntoDefinitions :=
  definitions <- Py.get raw_ontology "definitions" (JArr []) ;;
  l <- Py.iter definitions ;;
  es <- foldM (fun acc definition =>
                 name <- definition@["entry_name"] ;;
                 k <- Py.as_key name ;;
                 Ok (Py.dict_set k definition acc)) l [] ;;
  Ok {| _entries := es |}.

(** [self._entries.get(name, default)]; the keys of [_entries] are strings. *)
Definition entries_get (self : OntoDefinitions) (name default : json) : result json :=
  match name with
  | JStr s => Ok (match Py.assoc s (_entries self) with Some d => d | None => default end)
  | JArr _ | JObj _ => Raise TypeError
  | _ => Ok default
  end.

(** [name == match_name] *)
Definition name_eq (name : json) (match_name : string) : bool :=
  match name with
  | JStr s => String.eqb s match_name
  | _ => false
  end.

(** [depth] is the number of nested calls that the interpreter still allows
    below this one. *)
Fixpoint _is_parent_match (depth : nat) (self : OntoDefinitions)
    (entry_name : json) (match_name : string) : result bool :=
  if name_eq entry_name match_name then Ok true else
  definition <- entries_get self entry_name (JObj []) ;;
  parent_entry <- Py.get definition "parent_entry" JNull ;;
  if negb (Py.truthy parent_entry) then Ok false else
  match depth with
  | O => Raise RecursionError
  | S depth' => _is_parent_match depth' self parent_entry match_name
  end.

Definition get_entry_type (depth : nat) (self : OntoDefinitions) (entry_name : json)
  : result string :=
  a <- _is_parent_match depth self entry_name annotation_root ;;
  if a then Ok ANNOTATION else
  l <- _is_parent_match depth self entry_name link_root ;;
  if l then Ok LINK else
  g <- _is_parent_match depth self entry_name group_root ;;
  if g then Ok GROUP else Ok UNKNOWN.

Definition get_group_type (depth : nat) (self : OntoDefinitions) (entry_name : json)
  : result json :=
  definition <- entries_get self entry_name (JObj []) ;;
  member_type <- Py.get definition "member_type" JNull ;;
  entry_type <- get_entry_type depth self member_type ;;
  if String.eqb entry_type ANNOTATION then Ok (JStr "annotation")
  else if String.eqb entry_type LINK then Ok (JStr "link")
  else Raise ValueError.

Section Transcoder.

(** How deep the interpreter lets [_is_parent_match] recurse. *)
Variable depth : nat.

(** The order in which iteration visits the set built from a list of
    strings. *)
Variable set_order : list string -> list string.

(** [get_attribute_names], as the sequence in which its result enumerates. *)
Definition get_attribute_names (self : OntoDefinitions) (entry_name : json)
  : result (list string) :=
  definition <- entries_get self entry_name JNull ;;
  if negb (Py.truthy definition) then Ok [] else
  attributes <- Py.get definition "attributes" JNull ;;
  if negb (Py.truthy attributes) then Ok [] else
  attributes <- definition@["attributes"] ;;
  l <- Py.iter attributes ;;
  names <- mapM (fun attr_obj => n <- attr_obj@["name"] ;; Py.as_key n) l ;;
  Ok (set_order names).

Definition get_attributes (self : OntoDefinitions) (entry : json) : result json :=
  entry_name <- entry@["py/object"] ;;
  attr_set <- get_attribute_names self entry_name ;;
  state <- entry@["py/state"] ;;
  kvs <- Py.items state ;;
  Ok (JObj (fold_left
              (fun acc kv =>
                 if existsb (String.eqb (fst kv)) attr_set
                 then Py.dict_set (fst kv) (snd kv) acc else acc)
              kvs [])).

(** *** [transform_pack], previous version *)

(** One turn of a loop that appends [f x] to a list unless [f] says
    [continue] ([None]). *)
Definition append_unless_skipped (f : json -> result (option json))
    (acc : list json) (x : json) : result (list json) :=
  r <- f x ;;
  Ok (match r with Some y => acc ++ [y] | None => acc end).

Definition legacy_annotation (onto_defs : OntoDefinitions) (annotation : json)
  : result (option json) :=
  entry_data <- Py.get annotation "py/state" JNull ;;
  if negb (Py.truthy entry_data) then Ok None else
  b <- path entry_data ["_span"; "begin"] ;;
  e <- path entry_data ["_span"; "end"] ;;
  tid <- entry_data@["_tid"] ;;
  id <- Py.str tid ;;
  legend <- Py.get annotation "py/object" JNull ;;
  attributes <- get_attributes onto_defs annotation ;;
  Ok (Some (JObj [("span", JObj [("begin", b); ("end", e)]);
                  ("id", JStr id);
                  ("legendId", legend);
                  ("attributes", attributes)])).

Definition legacy_link (onto_defs : OntoDefinitions) (link : json)
  : result (option json) :=
  entry_data <- Py.get link "py/state" JNull ;;
  if negb (Py.truthy entry_data) then Ok None else
  tid <- entry_data@["_tid"] ;;
  id <- Py.str tid ;;
  parent <- entry_data@["_parent"] ;;
  from_id <- Py.str parent ;;
  child <- entry_data@["_child"] ;;
  to_id <- Py.str child ;;
  legend <- Py.get link "py/object" JNull ;;
  attributes <- get_attributes onto_defs link ;;
  Ok (Some (JObj [("id", JStr id);
                  ("fromEntryId", JStr from_id);
                  ("toEntryId", JStr to_id);
                  ("legendId", legend);
                  ("attributes", attributes)])).

(** [[str(tid) for tid in x]] *)
Definition str_each (x : json) : result (list json) :=
  l <- Py.iter x ;;
  mapM (fun tid => s <- Py.str tid ;; Ok (JStr s)) l.

Definition legacy_group (onto_defs : OntoDefinitions) (group : json)
  : result (option json) :=
  entry_data <- Py.get group "py/state" JNull ;;
  if negb (Py.truthy entry_data) then Ok None else
  tid <- entry_data@["_tid"] ;;
  id <- Py.str tid ;;
  members_set <- path entry_data ["_members"; "py/set"] ;;
  members <- str_each members_set ;;
  object <- Py.get group "py/object" JNull ;;
  member_type <- get_group_type depth onto_defs object ;;
  legend <- Py.get group "py/object" JNull ;;
  attributes <- get_attributes onto_defs group ;;
  Ok (Some (JObj [("id", JStr id);
                  ("members", JArr members);
                  ("memberType", member_type);
                  ("legendId", legend);
                  ("attributes", attributes)])).

Definition transform_legacy (onto_defs : OntoDefinitions) (pack_json : json)
  : result (list json * list json * list json) :=
  la <- (x <- pack_json@["annotations"] ;; Py.iter x) ;;
  annotations <- foldM (append_unless_skipped (legacy_annotation onto_defs)) la [] ;;
  ll <- (x <- pack_json@["links"] ;; Py.iter x) ;;
  links <- foldM (append_unless_skipped (legacy_link onto_defs)) ll [] ;;
  lg <- (x <- pack_json@["groups"] ;; Py.iter x) ;;
  groups <- foldM (append_unless_skipped (legacy_group onto_defs)) lg [] ;;
  Ok (annotations, links, groups).

(** *** [transform_pack], new version *)

(** [{attr_name: entry_data[attr_ind] for attr_name, attr_ind in
    fields[entry_type]['attributes'].items()}] *)
Definition compact_attributes (fields : json) (entry_type : string)
    (entry_data : json) : result json :=
  slots <- (m <- path fields [entry_type; "attributes"] ;; Py.items m) ;;
  d <- foldM (fun acc kv =>
                v <- Py.getitem entry_data (snd kv) ;;
                Ok (Py.dict_set (fst kv) v acc)) slots [] ;;
  Ok (JObj d).

(** The body of the loop over the rows of one entry type. *)
Definition compact_entry (onto_defs : OntoDefinitions) (fields : json)
    (entry_type parent_type : string)
    (acc : list json * list json * list json) (entry_data : json)
  : result (list json * list json * list json) :=
  let '(annotations, links, groups) := acc in
  attributes <- compact_attributes fields entry_type entry_data ;;
  if String.eqb parent_type ANNOTATION then
    b <- entry_data#[0] ;;
    e <- entry_data#[1] ;;
    tid <- entry_data#[2] ;;
    id <- Py.str tid ;;
    legend <- entry_data#[3] ;;
    Ok (annotations ++ [JObj [("span", JObj [("begin", b); ("end", e)]);
                              ("id", JStr id);
                              ("legendId", legend);
                              ("attributes", attributes)]],
        links, groups)
  else if String.eqb parent_type LINK then
    tid <- entry_data#[2] ;;
    id <- Py.str tid ;;
    parent <- entry_data#[0] ;;
    from_id <- Py.str parent ;;
    child <- entry_data#[1] ;;
    to_id <- Py.str child ;;
    legend <- entry_data#[3] ;;
    Ok (annotations,
        links ++ [JObj [("id", JStr id);
                        ("fromEntryId", JStr from_id);
                        ("toEntryId", JStr to_id);
                        ("legendId", legend);
                        ("attributes", attributes)]],
        groups)
  else if String.eqb parent_type GROUP then
    tid <- entry_data#[2] ;;
    id <- Py.str tid ;;
    members_list <- entry_data#[1] ;;
    members <- str_each members_list ;;
    object <- entry_data#[3] ;;
    member_type <- get_group_type depth onto_defs object ;;
    legend <- entry_data#[3] ;;
    Ok (annotations, links,
        groups ++ [JObj [("id", JStr id);
                         ("members", JArr members);
                         ("memberType", member_type);
                         ("legendId", legend);
                         ("attributes", attributes)]])
  else Ok acc.

(** The body of the loop over [entries.items()]. *)
Definition compact_bucket (onto_defs : OntoDefinitions) (fields : json)
    (acc : list json * list json * list json) (kv : string * json)
  : result (list json * list json * list json) :=
  let '(entry_type, entry_list) := kv in
  parent_type <- get_entry_type depth onto_defs (JStr entry_type) ;;
  if negb (String.eqb parent_type ANNOTATION || String.eqb parent_type LINK
           || String.eqb parent_type GROUP)
  then Ok acc else
  rows <- Py.iter entry_list ;;
  foldM (compact_entry onto_defs fields entry_type parent_type) rows acc.

Definition transform_compact (onto_defs : OntoDefinitions) (pack_json : json)
  : result (list json * list json * list json) :=
  fields <- path pack_json ["_data_store"; "py/state"; "fields"] ;;
  buckets <- (x <- path pack_json ["_data_store"; "py/state"; "entries"] ;;
              Py.items x) ;;
  foldM (compact_bucket onto_defs fields) buckets ([], [], []).

(** The [return] statement of [transform_pack]. *)
Definition transform_return (pack_json : json)
    (lists : list json * list json * list json) : result json :=
  let '(annotations, links, groups) := lists in
  text <- pack_json@["_text"] ;;
  has_meta <- Py.contains pack_json "meta" ;;
  attributes <- (if has_meta then path pack_json ["meta"; "py/state"]
                 else path pack_json ["_meta"; "py/state"]) ;;
  Ok (JObj [("text", text);
            ("annotations", JArr annotations);
            ("links", JArr links);
            ("groups", JArr groups);
            ("attributes", attributes)]).

Definition transform_pack (raw_pack raw_ontology : json) : result json :=
  pack_json <- raw_pack@["py/state"] ;;
  onto_defs <- OntoDefinitions_init raw_ontology ;;
  lists <- by_version pack_json
             (transform_legacy onto_defs pack_json)
             (transform_compact onto_defs pack_json) ;;
  transform_return pack_json lists.

End Transcoder.

(** ** Documents and the mutators

    [doc] is the model instance the view passes in: its [textPack] and the
    ontology of its project.  [Store] is the database row behind it: what was
    last written and how many times [doc.save()] ran. *)

Record Document : Type := { textPack : json; project_ontology : json }.

Record Store : Type := { row : json; writes : nat }.

Definition json_loads (text : json) : result json := Ok text.
Definition json_dumps (tree : json) : json := tree.

(** [doc.textPack = text; doc.save()] *)
Definition save (doc : Document) (text : json) (db : Store) : Document * Store :=
  ({| textPack := text; project_ontology := project_ontology doc |},
   {| row := text; writes := S (writes db) |}).

(** [str(item["py/state"]['_tid'])] *)
Definition tagged_tid (item : json) : result string :=
  tid <- path item ["py/state"; "_tid"] ;;
  Py.str tid.

(** [str(item[2])] *)
Definition row_tid (item : json) : result string :=
  tid <- item#[2] ;;
  Py.str tid.

(** [x[index] = v] where [x] is being enumerated and [index] counts its
    elements. *)
Definition store_at (x : json) (index : nat) (v : json) : result json :=
  match x with
  | JArr l => l' <- Py.list_setitem l (JInt (Z.of_nat index)) v ;; Ok (JArr l')
  | JObj _ => Raise Unmodelled
  | _ => Raise TypeError
  end.

(** [del x[index]] *)
Definition delete_at (x : json) (index : Z) : result json :=
  match x with
  | JArr l => l' <- Py.list_delitem l index ;; Ok (JArr l')
  | JObj _ => Raise KeyError
  | _ => Raise TypeError
  end.

(** The loop of [edit_entry_in_doc]:
    [for index, item in enumerate(x): if str(item...) == str(entry...): x[index] = entry];
    [items] are the elements still to visit, [index] the position of the
    first of them. *)
Fixpoint edit_scan (entry : json) (items : list json) (index : nat) (x : json)
  : result json :=
  match items with
  | [] => Ok x
  | item :: rest =>
      a <- tagged_tid item ;;
      b <- tagged_tid entry ;;
      x' <- (if String.eqb a b then store_at x index entry else Ok x) ;;
      edit_scan entry rest (S index) x'
  end.

(** The loop of [delete_entry_from_doc]:
    [for index, item in enumerate(x): if str(tid of item) == str(entry_tid): delete_index = index] *)
Fixpoint delete_scan (tid_of : json -> result string) (entry_tid : json)
    (items : list json) (index : Z) (delete_index : Z) : result Z :=
  match items with
  | [] => Ok delete_index
  | item :: rest =>
      a <- tid_of item ;;
      b <- Py.str entry_tid ;;
      delete_scan tid_of entry_tid rest (index + 1)
        (if String.eqb a b then index else delete_index)
  end.

(** [{attr_name: 4 + i for i, attr_name in enumerate(names)}], from [i]. *)
Fixpoint attribute_slots (i : Z) (names : list string) (acc : list (string * json))
  : list (string * json) :=
  match names with
  | [] => acc
  | attr_name :: names' =>
      attribute_slots (i + 1) names' (Py.dict_set attr_name (JInt (4 + i)) acc)
  end.

Definition data_store_fields : list string :=
  ["py/state"; "_data_store"; "py/state"; "fields"].
Definition data_store_entries : list string :=
  ["py/state"; "_data_store"; "py/state"; "entries"].

Section Mutators.

Variable depth : nat.
Variable set_order : list string -> list string.

(** The list of the previous format that holds entries of [parent_type]. *)
Definition list_name_of (parent_type : string) : string :=
  if String.eqb parent_type ANNOTATION then "annotations"
  else if String.eqb parent_type LINK then "links"
  else "".

(** *** [add_entry_to_doc] *)

Definition add_legacy (pack_json entry : json) (parent_type : string) : result json :=
  let list_name := list_name_of parent_type in
  if negb (String.eqb list_name "") then
    l <- path pack_json ["py/state"; list_name] ;;
    l' <- Py.append l entry ;;
    set_path pack_json ["py/state"; list_name] l'
  else Ok pack_json.

(** The four leading columns of a new row. *)
Definition new_entry_prefix (entry entry_type : json) (parent_type : string)
  : result (list json) :=
  if String.eqb parent_type ANNOTATION then
    b <- path entry ["py/state"; "_span"; "begin"] ;;
    e <- path entry ["py/state"; "_span"; "end"] ;;
    tid <- path entry ["py/state"; "_tid"] ;;
    Ok [b; e; tid; entry_type]
  else if String.eqb parent_type LINK then
    p <- path entry ["py/state"; "_parent"] ;;
    c <- path entry ["py/state"; "_child"] ;;
    tid <- path entry ["py/state"; "_tid"] ;;
    Ok [p; c; tid; entry_type]
  else Ok [].

(** One turn of [for attr_name, attr_val in entry["py/state"].items()]. *)
Definition fill_slot (attr_index_map : json) (new_entry : list json)
    (kv : string * json) : result (list json) :=
  known <- Py.contains attr_index_map (fst kv) ;;
  if known then
    i <- attr_index_map@[fst kv] ;;
    Py.list_setitem new_entry i (snd kv)
  else Ok new_entry.

Definition add_compact (onto_defs : OntoDefinitions) (pack_json entry entry_type : json)
    (parent_type : string) : result json :=
  type_name <- Py.as_key entry_type ;;
  fields <- path pack_json data_store_fields ;;
  known <- Py.contains fields type_name ;;
  pack_json <-
    (if negb known then
       names <- get_attribute_names set_order onto_defs entry_type ;;
       fields' <- Py.setitem fields type_name
                    (JObj [("attributes", JObj (attribute_slots 0 names []))]) ;;
       set_path pack_json data_store_fields fields'
     else Ok pack_json) ;;
  attr_index_map <- path pack_json (data_store_fields ++ [type_name; "attributes"]) ;;
  new_entry <- new_entry_prefix entry entry_type parent_type ;;
  n <- Py.len attr_index_map ;;
  let new_entry := new_entry ++ replicate n JNull in
  state_items <- (s <- entry@["py/state"] ;; Py.items s) ;;
  new_entry <- foldM (fill_slot attr_index_map) state_items new_entry ;;
  entries <- path pack_json data_store_entries ;;
  present <- Py.contains entries type_name ;;
  entries <- (if negb present then Py.setitem entries type_name (JArr [])
              else Ok entries) ;;
  bucket <- entries@[type_name] ;;
  bucket' <- Py.append bucket (JArr new_entry) ;;
  entries' <- Py.setitem entries type_name bucket' ;;
  set_path pack_json data_store_entries entries'.

Definition add_entry_to_doc (doc : Document) (entry : json) (db : Store)
  : result (Document * Store) :=
  pack_json <- json_loads (textPack doc) ;;
  onto_defs <- OntoDefinitions_init (project_ontology doc) ;;
  entry_type <- entry@["py/object"] ;;
  parent_type <- get_entry_type depth onto_defs entry_type ;;
  pack_state <- pack_json@["py/state"] ;;
  pack_json <- by_version pack_state
                 (add_legacy pack_json entry parent_type)
                 (add_compact onto_defs pack_json entry entry_type parent_type) ;;
  Ok (save doc (json_dumps pack_json) db).

(** *** [edit_entry_in_doc] *)

(** [for index, item in enumerate(pack_json[...]): ...] at the list or
    bucket under [place]. *)
Definition edit_at (pack_json entry : json) (place : list string) : result json :=
  x <- path pack_json place ;;
  items <- Py.iter x ;;
  x' <- edit_scan entry items 0 x ;;
  set_path pack_json place x'.

Definition edit_legacy (pack_json entry : json) (parent_type : string) : result json :=
  let list_name := list_name_of parent_type in
  if negb (String.eqb list_name "") then edit_at pack_json entry ["py/state"; list_name]
  else Ok pack_json.

Definition edit_compact (pack_json entry entry_type : json) : result json :=
  entries <- path pack_json data_store_entries ;;
  _ <- Py.getitem entries entry_type ;;
  type_name <- Py.as_key entry_type ;;
  edit_at pack_json entry (data_store_entries ++ [type_name]).

Definition edit_entry_in_doc (doc : Document) (entry : json) (db : Store)
  : result (Document * Store) :=
  pack_json <- json_loads (textPack doc) ;;
  onto_defs <- OntoDefinitions_init (project_ontology doc) ;;
  entry_type <- entry@["py/object"] ;;
  parent_type <- get_entry_type depth onto_defs entry_type ;;
  pack_state <- pack_json@["py/state"] ;;
  pack_json <- by_version pack_state
                 (edit_legacy pack_json entry parent_type)
                 (edit_compact pack_json entry entry_type) ;;
  Ok (save doc (json_dumps pack_json) db).

(** *** [delete_entry_from_doc] *)

Definition delete_legacy (pack_json entry_tid : json) (parent_type : string)
    (delete_index : Z) : result json :=
  let list_name := list_name_of parent_type in
  if negb (String.eqb list_name "") then
    x <- path pack_json ["py/state"; list_name] ;;
    items <- Py.iter x ;;
    delete_index <- delete_scan tagged_tid entry_tid items 0 delete_index ;;
    if 0 <=? delete_index then
      x' <- delete_at x delete_index ;;
      set_path pack_json ["py/state"; list_name] x'
    else Ok pack_json
  else Ok pack_json.

(** One turn of [for entry_name, entry_list in entries.items()]; the state
    is the bindings of [entries] and [delete_index], which the source sets
    once, before the loop. *)
Definition delete_bucket (onto_defs : OntoDefinitions) (entry_tid : json)
    (parent_type : string) (st : list (string * json) * Z) (kv : string * json)
  : result (list (string * json) * Z) :=
  let '(entries, delete_index) := st in
  let '(entry_name, entry_list) := kv in
  kind <- get_entry_type depth onto_defs (JStr entry_name) ;;
  if negb (String.eqb kind parent_type) then Ok st else
  items <- Py.iter entry_list ;;
  delete_index <- delete_scan row_tid entry_tid items 0 delete_index ;;
  if 0 <=? delete_index then
    entry_list' <- delete_at entry_list delete_index ;;
    Ok (Py.dict_set entry_name entry_list' entries, delete_index)
  else Ok (entries, delete_index).

Definition delete_compact (onto_defs : OntoDefinitions) (pack_json entry_tid : json)
    (parent_type : string) (delete_index : Z) : result json :=
  entries <- path pack_json data_store_entries ;;
  buckets <- Py.items entries ;;
  st <- foldM (delete_bucket onto_defs entry_tid parent_type) buckets
          (buckets, delete_index) ;;
  set_path pack_json data_store_entries (JObj (fst st)).

Definition delete_entry_from_doc (doc : Document) (entry_tid : json)
    (parent_type : string) (db : Store) : result (Document * Store) :=
  pack_json <- json_loads (textPack doc) ;;
  onto_defs <- OntoDefinitions_init (project_ontology doc) ;;
  let delete_index := -1 in
  pack_state <- pack_json@["py/state"] ;;
  pack_json <- by_version pack_state
                 (delete_legacy pack_json entry_tid parent_type delete_index)
                 (delete_compact onto_defs pack_json entry_tid parent_type delete_index) ;;
  Ok (save doc (json_dumps pack_json) db).

End Mutators.

(** ** Access to documents and projects

    [check_perm_project], [fetch_doc_check_perm] and
    [fetch_project_check_perm].  The tables of the database are lists of
    rows; [get_object_or_404] is the Django shortcut, which raises [Http404]
    when no row has the key.  The permission backend ([user.has_perm]) and
    the equality of users are parameters. *)

Module Access.

Inductive http_error : Type := Http404 | PermissionDenied.

Inductive response (A : Type) : Type :=
| Returns (a : A)
| Raises (e : http_error).
Arguments Returns {A} a.
Arguments Raises {A} e.

Section Helpers.

Variable User : Type.

(** [user == other] *)
Variable user_eqb : User -> User -> bool.

Record Project : Type := { project_pk : nat; project_user : User }.
Record DocumentRow : Type := { document_pk : nat; document_project : Project }.

(** [user.has_perm(perm, project)] *)
Variable has_perm : User -> string -> Project -> bool.

(** [get_object_or_404(Model, pk=id)] *)
Definition get_object_or_404 {A} (pk_of : A -> nat) (table : list A) (id : nat)
  : response A :=
  match List.find (fun r => Nat.eqb (pk_of r) id) table with
  | Some r => Returns r
  | None => Raises Http404
  end.

Definition check_perm_project (project : Project) (user : User) (perm : string)
  : response unit :=
  if negb (has_perm user perm project) && negb (user_eqb user (project_user project))
  then Raises PermissionDenied
  else Returns tt.

Definition fetch_doc_check_perm (documents : list DocumentRow) (id : nat) (user : User)
    (perm : string) : response DocumentRow :=
  match get_object_or_404 document_pk documents id with
  | Raises e => Raises e
  | Returns doc =>
      match check_perm_project (document_project doc) user perm with
      | Raises e => Raises e
      | Returns _ => Returns doc
      end
  end.

Definition fetch_project_check_perm (projects : list Project) (id : nat) (user : User)
    (perm : string) : response Project :=
  match get_object_or_404 project_pk projects id with
  | Raises e => Raises e
  | Returns project =>
      match check_perm_project project user perm with
      | Raises e => Raises e
      | Returns _ => Returns project
      end
  end.

End Helpers.

Arguments project_pk {User} _.
Arguments project_user {User} _.
Arguments document_pk {User} _.
Arguments document_project {User} _.
Arguments check_perm_project {User} user_eqb has_perm project user perm.
Arguments fetch_doc_check_perm {User} user_eqb has_perm documents id user perm.
Arguments fetch_project_check_perm {User} user_eqb has_perm projects id user perm.

End Access.


(** * Vocabulary of the statements *)

(** The order of first insertion, one possible iteration order of a set. *)
Definition first_seen (l : list string) : list string := remove_dups l.

(** The recursion limit of CPython as shipped ([sys.getrecursionlimit()]). *)
Definition default_depth : nat := 1000.

(** ** Parent chains of an ontology *)

(** [self._entries.get(name, {}).get("parent_entry")] *)
Definition parent_entry_of (self : OntoDefinitions) (name : json) : result json :=
  definition <- entries_get self name (JObj []) ;;
  Py.get definition "parent_entry" JNull.

(** [chain self name l]: the names that resolution visits from [name] are
    [l], and the last of them has no parent to go on with (its definition is
    missing, or declares no [parent_entry], or a false one). *)
Inductive chain (self : OntoDefinitions) : json -> list json -> Prop :=
| chain_end name p :
    parent_entry_of self name = Ok p -> Py.truthy p = false ->
    chain self name [name]
| chain_step name p l :
    parent_entry_of self name = Ok p -> Py.truthy p = true ->
    chain self p l ->
    chain self name (name :: l).

Definition on_chain (l : list json) (root : string) : bool :=
  existsb (fun n => name_eq n root) l.

(** The kind that the roots on a chain stand for, tested in the order of
    [get_entry_type]. *)
Definition kind_of_chain (l : list json) : string :=
  if on_chain l annotation_root then ANNOTATION
  else if on_chain l link_root then LINK
  else if on_chain l group_root then GROUP
  else UNKNOWN.

(** [walk self name l last]: resolution from [name] visits the names [l] one
    after another, each of them with a parent to go on with, and stands at
    [last] after them. *)
Inductive walk (self : OntoDefinitions) : json -> list json -> json -> Prop :=
| walk_here name : walk self name [] name
| walk_step name p l last :
    parent_entry_of self name = Ok p -> Py.truthy p = true ->
    walk self p l last ->
    walk self name (name :: l) last.

(** Resolution from [name] does not end: after any number of names there is
    a parent to go on with, as on a cycle. *)
Definition endless (self : OntoDefinitions) (name : json) : Prop :=
  forall n, exists l last, length l = n /\ walk self name l last.

(** A schema in which [A] and the Annotation root name each other as
    parent. *)
Definition annotation_cycle_ontology : json :=
  JObj [("definitions",
         JArr [JObj [("entry_name", JStr "A"); ("parent_entry", JStr annotation_root)];
               JObj [("entry_name", JStr annotation_root);
                     ("parent_entry", JStr "A")]])].


(** A schema whose two definitions name each other as parent. *)
Definition cyclic_ontology : json :=
  JObj [("definitions",
         JArr [JObj [("entry_name", JStr "A"); ("parent_entry", JStr "B")];
               JObj [("entry_name", JStr "B"); ("parent_entry", JStr "A")]])].

(** A schema with a chain of two definitions that ends at a missing one. *)
Definition dangling_ontology : json :=
  JObj [("definitions",
         JArr [JObj [("entry_name", JStr "A"); ("parent_entry", JStr "B")];
               JObj [("entry_name", JStr "B"); ("parent_entry", JStr "Missing")]])].

(** A schema that declares the Link root as a child of the Annotation root. *)
Definition link_under_annotation : json :=
  JObj [("definitions",
         JArr [JObj [("entry_name", JStr link_root);
                     ("parent_entry", JStr annotation_root)]])].

(** ** Versions *)












(** ** Decoded packs *)

(** The dict that [transform_pack] returns. *)
Definition normalized_pack (text : json) (lists : list json * list json * list json)
    (attributes : json) : json :=
  JObj [("text", text);
        ("annotations", JArr (fst (fst lists)));
        ("links", JArr (snd (fst lists)));
        ("groups", JArr (snd lists));
        ("attributes", attributes)].

(** A pack of the previous format with neither a [meta] nor a [_meta] key. *)
Definition pack_without_meta : json :=
  JObj [("py/state",
         JObj [("_text", JStr "hello");
               ("annotations", JArr []); ("links", JArr []); ("groups", JArr [])])].

(** The same pack with the attributes under [_meta], and with both keys. *)
Definition pack_with_underscore_meta : json :=
  JObj [("py/state",
         JObj [("_text", JStr "hello");
               ("annotations", JArr []); ("links", JArr []); ("groups", JArr []);
               ("_meta", JObj [("py/state", JObj [("lang", JStr "en")])])])].


(** ** Documents used as examples *)

(** The store of a document that was never saved by a mutator. *)
Definition stored (doc : Document) : Store := {| row := textPack doc; writes := 0 |}.

(** An entry in the tagged form that the mutators receive. *)
Definition annotation_entry (entry_type : string) (b e : Z) (tid : json) : json :=
  JObj [("py/object", JStr entry_type);
        ("py/state", JObj [("_span", JObj [("begin", JInt b); ("end", JInt e)]);
                           ("_tid", tid)])].

(** A pack of the new format with text ["hello"], no global attributes, and
    the given [fields] and [entries]. *)
Definition compact_pack (fields entries : list (string * json)) : json :=
  JObj [("py/state",
         JObj [("pack_version", JStr "0.0.2");
               ("_text", JStr "hello");
               ("_meta", JObj [("py/state", JObj [])]);
               ("_data_store",
                JObj [("py/state",
                       JObj [("fields", JObj fields); ("entries", JObj entries)])])])].

(** The scenario of the specification: a schema with the Annotation root and
    a definition of [Note] whose [parent_entry] is null. *)
Definition note_ontology_null : json :=
  JObj [("definitions",
         JArr [JObj [("entry_name", JStr annotation_root); ("parent_entry", JNull)];
               JObj [("entry_name", JStr "Note"); ("parent_entry", JNull)]])].

(** The same schema with [Note] declared as a child of the Annotation root. *)
Definition note_ontology_child : json :=
  JObj [("definitions",
         JArr [JObj [("entry_name", JStr annotation_root); ("parent_entry", JNull)];
               JObj [("entry_name", JStr "Note");
                     ("parent_entry", JStr annotation_root)]])].

Definition note_entry : json := annotation_entry "Note" 0 5 (JStr "1").

(** [add] followed by a decode of what was saved. *)
Definition decode_after_add (depth : nat) (set_order : list string -> list string)
    (doc : Document) (entry : json) : result json :=
  r <- add_entry_to_doc depth set_order doc entry (stored doc) ;;
  transform_pack depth set_order (textPack (fst r)) (project_ontology (fst r)).

(** [add] followed by [delete] on what was saved. *)
Definition delete_after_add (depth : nat) (set_order : list string -> list string)
    (doc : Document) (entry entry_tid : json) (parent_type : string)
  : result (Document * Store) :=
  r <- add_entry_to_doc depth set_order doc entry (stored doc) ;;
  delete_entry_from_doc depth (fst r) entry_tid parent_type (snd r).

(** A schema with two annotation types. *)
Definition sentence_token_ontology : json :=
  JObj [("definitions",
         JArr [JObj [("entry_name", JStr "Sentence");
                     ("parent_entry", JStr annotation_root)];
               JObj [("entry_name", JStr "Token");
                     ("parent_entry", JStr annotation_root)]])].

Definition no_attributes : json := JObj [("attributes", JObj [])].

Definition annotation_row (entry_type : string) (b e tid : Z) : json :=
  JArr [JInt b; JInt e; JInt tid; JStr entry_type].

(** A document of the new format: one sentence (id 7) and two tokens (ids 8
    and 9), each type in a bucket of its own. *)
Definition sentence_token_doc : Document :=
  {| textPack :=
       compact_pack [("Sentence", no_attributes); ("Token", no_attributes)]
         [("Sentence", JArr [annotation_row "Sentence" 0 5 7]);
          ("Token", JArr [annotation_row "Token" 0 2 8; annotation_row "Token" 3 5 9])];
     project_ontology := sentence_token_ontology |}.

(** A document of the new format whose two buckets are empty. *)
Definition empty_buckets_doc : Document :=
  {| textPack :=
       compact_pack [("Sentence", no_attributes); ("Token", no_attributes)]
         [("Sentence", JArr []); ("Token", JArr [])];
     project_ontology := sentence_token_ontology |}.


(** [no_match tid_of b items]: every element of [items] has an id, and none
    of the ids is [b]. *)
Definition no_match (tid_of : json -> result string) (b : string) (items : list json)
  : Prop :=
  Forall (fun item => exists a, tid_of item = Ok a /\ a <> b) items.

(** An entry of a group type. *)
Definition coref_entry : json :=
  JObj [("py/object", JStr "Coref");
        ("py/state", JObj [("_tid", JInt 3);
                           ("_members", JObj [("py/set", JArr [JInt 1; JInt 2])])])].


(** A pack of the previous format with text ["hello"], no global attributes
    and the given annotations and links. *)
Definition legacy_pack (annotations links : list json) : json :=
  JObj [("py/state",
         JObj [("_text", JStr "hello");
               ("annotations", JArr annotations);
               ("links", JArr links);
               ("groups", JArr []);
               ("_meta", JObj [("py/state", JObj [])])])].

(** A schema with an annotation type [Note] and a group type [Coref]. *)
Definition note_coref_ontology : json :=
  JObj [("definitions",
         JArr [JObj [("entry_name", JStr "Note"); ("parent_entry", JStr annotation_root)];
               JObj [("entry_name", JStr "Coref"); ("parent_entry", JStr group_root);
                     ("member_type", JStr "Note")]])].

(** A document of the previous format with one note, of id 1. *)
Definition one_note_doc : Document :=
  {| textPack := legacy_pack [annotation_entry "Note" 0 5 (JInt 1)] [];
     project_ontology := note_coref_ontology |}.


(** ** The registry of attribute slots *)

(** The slot map that gives the names, in this order, the slots [4 + i],
    [4 + i + 1], ... *)
Fixpoint slots_from (i : nat) (names : list string) : list (string * json) :=
  match names with
  | [] => []
  | n :: names' => (n, JInt (4 + Z.of_nat i)) :: slots_from (S i) names'
  end.

(** The position of the first occurrence of [key] in [names]. *)
Fixpoint index_of (key : string) (names : list string) : option nat :=
  match names with
  | [] => None
  | n :: names' =>
      if String.eqb key n then Some O
      else match index_of key names' with Some j => Some (S j) | None => None end
  end.

(** The value that an entry state gives an attribute: [state.get(name)]. *)
Definition attr_value (state : list (string * json)) (name : string) : json :=
  match Py.assoc name state with Some v => v | None => JNull end.


(** [bucket_rows entries type_name rows]: the rows that the bucket of
    [type_name] holds, none when there is no such bucket yet. *)
Definition bucket_rows (entries : list (string * json)) (type_name : string)
    (rows : list json) : Prop :=
  Py.assoc type_name entries = Some (JArr rows) \/
  (Py.assoc type_name entries = None /\ rows = []).

(** A schema with an annotation type that declares two attributes, and a
    group type that declares one. *)
Definition token_ontology : json :=
  JObj [("definitions",
         JArr [JObj [("entry_name", JStr "Token");
                     ("parent_entry", JStr annotation_root);
                     ("attributes", JArr [JObj [("name", JStr "pos")];
                                          JObj [("name", JStr "lemma")]])];
               JObj [("entry_name", JStr "Chain");
                     ("parent_entry", JStr group_root);
                     ("member_type", JStr "Token");
                     ("attributes", JArr [JObj [("name", JStr "label")]])]])].

(** A token with a value for [lemma] and none for [pos]. *)
Definition token_entry : json :=
  JObj [("py/object", JStr "Token");
        ("py/state", JObj [("_span", JObj [("begin", JInt 0); ("end", JInt 2)]);
                           ("_tid", JInt 7);
                           ("lemma", JStr "be")])].

(** A group with a value for its attribute [label]. *)
Definition chain_entry : json :=
  JObj [("py/object", JStr "Chain");
        ("py/state", JObj [("_tid", JInt 9);
                           ("_members", JArr [JInt 7]);
                           ("label", JStr "x")])].

Definition empty_token_doc : Document :=
  {| textPack := compact_pack [] []; project_ontology := token_ontology |}.


(** ** Scans of the mutators, in terms of the ids of the items *)

(** The position of the last occurrence of [b] in [ids]. *)
Fixpoint last_index (b : string) (ids : list string) : option nat :=
  match ids with
  | [] => None
  | a :: ids' =>
      match last_index b ids' with
      | Some j => Some (S j)
      | None => if String.eqb a b then Some O else None
      end
  end.

(** [items] with [entry] in the place of every item whose id is [b]. *)
Fixpoint replace_matching (entry : json) (b : string) (items : list json)
    (ids : list string) : list json :=
  match items, ids with
  | item :: items', a :: ids' =>
      (if String.eqb a b then entry else item) :: replace_matching entry b items' ids'
  | _, _ => items
  end.


(** A document of the previous format with three notes; the first and the
    third share the id 1. *)
Definition duplicate_ids_doc : Document :=
  {| textPack := legacy_pack [annotation_entry "Note" 0 1 (JInt 1);
                              annotation_entry "Note" 2 3 (JInt 2);
                              annotation_entry "Note" 4 5 (JInt 1)] [];
     project_ontology := note_coref_ontology |}.


(** [untouched depth onto_defs kind b bucket]: the bucket can be classified,
    and if its kind is [kind] then its rows have ids and none of them is [b]. *)
Definition untouched (depth : nat) (onto_defs : OntoDefinitions) (kind b : string)
    (bucket : string * json) : Prop :=
  exists k, get_entry_type depth onto_defs (JStr (fst bucket)) = Ok k /\
    (k = kind ->
     exists rows, Py.iter (snd bucket) = Ok rows /\ no_match row_tid b rows).

(** [other_kind depth onto_defs kind bucket]: the bucket is classified, as a
    kind other than [kind]. *)
Definition other_kind (depth : nat) (onto_defs : OntoDefinitions) (kind : string)
    (bucket : string * json) : Prop :=
  exists k, get_entry_type depth onto_defs (JStr (fst bucket)) = Ok k /\ k <> kind.


(** ** What a mutation leaves alone *)

(** [same_elsewhere keys pack pack']: the two packs agree under every key of
    the top level other than ["py/state"], and under every key of the pack
    state that is not in [keys]; if [pack] has a pack state, so has [pack']. *)
Definition same_elsewhere (keys : list string) (pack pack' : json) : Prop :=
  (forall k rest, k <> "py/state" -> path pack' (k :: rest) = path pack (k :: rest)) /\
  (forall k rest, ~ In k keys ->
     path pack' ("py/state" :: k :: rest) = path pack ("py/state" :: k :: rest)) /\
  (forall state, pack@["py/state"] = Ok state ->
     exists state', pack'@["py/state"] = Ok state').


(** [mutated depth set_order doc db doc' db']: one of the three mutators, run
    on [doc] and [db], returned [doc'] and [db']. *)
Definition mutated (depth : nat) (set_order : list string -> list string)
    (doc : Document) (db : Store) (doc' : Document) (db' : Store) : Prop :=
  (exists entry, add_entry_to_doc depth set_order doc entry db = Ok (doc', db')) \/
  (exists entry, edit_entry_in_doc depth doc entry db = Ok (doc', db')) \/
  (exists entry_tid parent_type,
     delete_entry_from_doc depth doc entry_tid parent_type db = Ok (doc', db')).

(** The global attributes that the [return] statement of [transform_pack]
    reads from the pack state. *)
Definition global_attributes (pack_json : json) : result json :=
  has_meta <- Py.contains pack_json "meta" ;;
  if has_meta then path pack_json ["meta"; "py/state"]
  else path pack_json ["_meta"; "py/state"].


(** A note to add to [one_note_doc]. *)
Definition second_note : json := annotation_entry "Note" 6 9 (JInt 2).


(** The records that [transform_pack] builds for an annotation and for a
    link. *)
Definition decoded_annotation (b e : json) (id : string) (legend attributes : json)
  : json :=
  JObj [("span", JObj [("begin", b); ("end", e)]);
        ("id", JStr id);
        ("legendId", legend);
        ("attributes", attributes)].

Definition decoded_link (id from_id to_id : string) (legend attributes : json) : json :=
  JObj [("id", JStr id);
        ("fromEntryId", JStr from_id);
        ("toEntryId", JStr to_id);
        ("legendId", legend);
        ("attributes", attributes)].


(** A pack of the new format with one row, of the Annotation root itself. *)
Definition root_row_doc : Document :=
  {| textPack :=
       compact_pack
         [(annotation_root, JObj [("attributes", JObj [])])]
         [(annotation_root, JArr [JArr [JInt 0; JInt 5; JInt 1; JStr annotation_root]])];
     project_ontology := token_ontology |}.


(** ** The shape of a decoded pack *)

(** A decoded record carries its id as text. *)
Definition has_text_id (record : json) : Prop :=
  exists id, record@["id"] = Ok (JStr id).

(** A decoded group says of which kind its members are. *)
Definition member_type_ok (group : json) : Prop :=
  group@["memberType"] = Ok (JStr "annotation") \/
  group@["memberType"] = Ok (JStr "link").

Definition decoded_lists_ok (lists : list json * list json * list json) : Prop :=
  Forall has_text_id (fst (fst lists)) /\
  Forall has_text_id (snd (fst lists)) /\
  Forall (fun group => has_text_id group /\ member_type_ok group) (snd lists).


(** A pack of the new format with a token and a group of tokens. *)
Definition chain_doc : Document :=
  {| textPack :=
       compact_pack
         [("Token", JObj [("attributes", JObj [("pos", JInt 4); ("lemma", JInt 5)])]);
          ("Chain", JObj [("attributes", JObj [("label", JInt 4)])])]
         [("Token", JArr [JArr [JInt 0; JInt 2; JInt 7; JStr "Token"; JNull; JStr "be"]]);
          ("Chain", JArr [JArr [JStr "Token"; JArr [JInt 7]; JInt 9; JStr "Chain";
                                JStr "x"]])];
     project_ontology := token_ontology |}.


(** ** Results and the recursion limit *)

(** Every value that [m] returns, [m'] returns too. *)
Definition returns_also {A} (m m' : result A) : Prop :=
  forall a, m = Ok a -> m' = Ok a.


(** [attr_name in attr_set] *)
Definition declared (names : list string) (kv : string * json) : bool :=
  existsb (String.eqb (fst kv)) names.


(** The registry of an ontology that defines [Token] alone. *)
Definition token_registry : OntoDefinitions :=
  {| _entries :=
       [("Token", JObj [("entry_name", JStr "Token");
                        ("parent_entry", JStr annotation_root);
                        ("attributes", JArr [JObj [("name", JStr "pos")];
                                             JObj [("name", JStr "lemma")]])])] |}.


(** ** The registry of an ontology *)

(** [definition["entry_name"] == name] *)
Definition names_entry (name : string) (definition : json) : bool :=
  match definition@["entry_name"] with
  | Ok (JStr s) => String.eqb s name
  | _ => false
  end.

(** The last of [definitions] that is a definition of [name]. *)
Definition last_definition (name : string) (definitions : list json) : option json :=
  List.find (names_entry name) (rev definitions).


(** An ontology that defines [Note] twice, under the Link root first and
    under the Annotation root after. *)
Definition redefined_ontology : json :=
  JObj [("definitions",
         JArr [JObj [("entry_name", JStr "Note"); ("parent_entry", JStr link_root)];
               JObj [("entry_name", JStr "Note");
                     ("parent_entry", JStr annotation_root)]])].


(** A document of the previous format with a note and, after it, an item
    that has a type and no state. *)
Definition stateless_item_doc : Document :=
  {| textPack := legacy_pack [annotation_entry "Note" 0 5 (JInt 1);
                              JObj [("py/object", JStr "Note")]] [];
     project_ontology := note_coref_ontology |}.




(** A pack of the new format with one group whose members are groups: the
    type [Chains] has the group type [Chain] as member type. *)
Definition group_of_groups_doc : Document :=
  {| textPack :=
       compact_pack
         [("Chains", JObj [("attributes", JObj [])])]
         [("Chains", JArr [JArr [JStr "Chain"; JArr [JInt 9]; JInt 11; JStr "Chains"]])];
     project_ontology :=
       JObj [("definitions",
              JArr [JObj [("entry_name", JStr "Chain");
                          ("parent_entry", JStr group_root);
                          ("member_type", JStr "Token")];
                    JObj [("entry_name", JStr "Chains");
                          ("parent_entry", JStr group_root);
                          ("member_type", JStr "Chain")]])] |}.


(** A pack of the previous format with one group, of a type that the
    ontology does not define. *)
Definition undefined_group_doc : Document :=
  {| textPack :=
       JObj [("py/state",
              JObj [("_text", JStr "hello");
                    ("annotations", JArr []);
                    ("links", JArr []);
                    ("groups",
                     JArr [JObj [("py/object", JStr "Nope");
                                 ("py/state",
                                  JObj [("_tid", JInt 3);
                                        ("_members", JObj [("py/set", JArr [])])])]]);
                    ("_meta", JObj [("py/state", JObj [])])])];
     project_ontology := note_coref_ontology |}.

(** * Properties *)

(** ** The exception monad *)

Lemma bind_Ok {A B} (m : result A) (k : A -> result B) (b : B) :
  bind m k = Ok b <-> exists a, m = Ok a /\ k a = Ok b.
Proof.
  destruct m as [a|e]; simpl; split.
  - intros H. exists a. auto.
  - intros (a' & Ha & Hk). injection Ha as ->. exact Hk.
  - discriminate.
  - intros (a' & Ha & _). discriminate.
Qed.

Lemma bind_assoc {A B C} (m : result A) (f : A -> result B) (g : B -> result C) :
  bind (bind m f) g = bind m (fun a => bind (f a) g).
Proof. destruct m; reflexivity. Qed.

Ltac bind_inv H :=
  repeat (let x := fresh "x" in let Hx := fresh "Hx" in
          apply bind_Ok in H as (x & Hx & H)).

(** ** Classification *)

Lemma _is_parent_match_eq depth self entry_name match_name :
  _is_parent_match depth self entry_name match_name =
  if name_eq entry_name match_name then Ok true else
  parent_entry <- parent_entry_of self entry_name ;;
  if negb (Py.truthy parent_entry) then Ok false else
  match depth with
  | O => Raise RecursionError
  | S depth' => _is_parent_match depth' self parent_entry match_name
  end.
Proof.
  unfold parent_entry_of. rewrite bind_assoc. destruct depth; reflexivity.
Qed.

Lemma _is_parent_match_self depth self name :
  _is_parent_match depth self (JStr name) name = Ok true.
Proof.
  rewrite _is_parent_match_eq. simpl. now rewrite String.eqb_refl.
Qed.

Lemma _is_parent_match_no_parent depth self name match_name p :
  name_eq name match_name = false ->
  parent_entry_of self name = Ok p -> Py.truthy p = false ->
  _is_parent_match depth self name match_name = Ok false.
Proof.
  intros Hne Hp Hf. rewrite _is_parent_match_eq, Hne, Hp. simpl. now rewrite Hf.
Qed.

Lemma _is_parent_match_chain self name l :
  chain self name l ->
  forall depth match_name, (length l <= S depth)%nat ->
  _is_parent_match depth self name match_name = Ok (on_chain l match_name).
Proof.
  induction 1 as [name p Hp Hf | name p l Hp Ht Hl IH]; intros depth m Hlen.
  - rewrite _is_parent_match_eq. unfold on_chain. simpl.
    destruct (name_eq name m); [reflexivity|].
    rewrite Hp. simpl. now rewrite Hf.
  - rewrite _is_parent_match_eq. unfold on_chain. simpl.
    destruct (name_eq name m); [reflexivity|].
    rewrite Hp. simpl. rewrite Ht. simpl.
    destruct depth as [|depth'].
    + inversion Hl; subst; simpl in Hlen; lia.
    + apply IH. simpl in Hlen. lia.
Qed.

Lemma _is_parent_match_arrives self name l last :
  walk self name l last ->
  forall depth match_name, name_eq last match_name = true -> (length l <= depth)%nat ->
  _is_parent_match depth self name match_name = Ok true.
Proof.
  induction 1 as [name | name p l last Hp Ht Hw IH]; intros depth m Hlast Hlen;
    rewrite _is_parent_match_eq.
  - now rewrite Hlast.
  - destruct (name_eq name m); [reflexivity|].
    rewrite Hp. cbn [bind]. rewrite Ht. cbn [negb].
    destruct depth as [|depth']; [simpl in Hlen; lia|].
    apply IH; [exact Hlast | simpl in Hlen; lia].
Qed.

Lemma _is_parent_match_endless self match_name : forall depth name,
  (forall l last, walk self name l last -> name_eq last match_name = false) ->
  (exists l last, length l = S depth /\ walk self name l last) ->
  _is_parent_match depth self name match_name = Raise RecursionError.
Proof.
  induction depth as [|depth IH]; intros name Hnever (l & last & Hlen & Hw);
    rewrite _is_parent_match_eq, (Hnever [] name (walk_here self name));
    inversion Hw as [|name' p l' last' Hp Ht Hw']; subst; try discriminate;
    rewrite Hp; cbn [bind]; rewrite Ht; cbn [negb]; [reflexivity|].
  apply IH.
  - intros l0 last0 Hw0. apply (Hnever (name :: l0) last0).
    now apply (walk_step self name p).
  - exists l', last. split; [simpl in Hlen; lia | exact Hw'].
Qed.

(** C5 (as amended).  When the parent chain of a name is finite, ending at a
    name whose definition is missing or declares no parent, and not longer
    than the recursion the interpreter allows, [get_entry_type] returns: the
    kind of the first root, in the order Annotation, Link, Group, that is on
    the chain, and [UNKNOWN] when none of the three roots is on it.  There
    is no guard against a chain that does not end: when resolution arrives
    at the Annotation root within the recursion allowed, the result is
    [ANNOTATION], on a cycle as on a finite chain; when the chain does not
    end and the Annotation root is not on it, the call raises
    [RecursionError] whatever recursion is allowed, also with the Link or
    the Group root on the cycle, and never returns [UNKNOWN]. *)
Theorem get_entry_type_along_chain depth self name :
  (forall l, chain self name l -> (length l <= S depth)%nat ->
     get_entry_type depth self name = Ok (kind_of_chain l) /\
     (on_chain l annotation_root = false -> on_chain l link_root = false ->
      on_chain l group_root = false ->
      get_entry_type depth self name = Ok UNKNOWN)) /\
  (forall l last, walk self name l last -> name_eq last annotation_root = true ->
     (length l <= depth)%nat ->
     get_entry_type depth self name = Ok ANNOTATION) /\
  (endless self name ->
   (forall l last, walk self name l last -> name_eq last annotation_root = false) ->
   get_entry_type depth self name = Raise RecursionError).
Proof.
  split; [|split].
  - intros l Hc Hlen.
    assert (Hk : get_entry_type depth self name = Ok (kind_of_chain l)).
    { unfold get_entry_type, kind_of_chain.
      rewrite !(_is_parent_match_chain _ _ _ Hc) by exact Hlen. simpl.
      destruct (on_chain l annotation_root); [reflexivity|]. simpl.
      destruct (on_chain l link_root); [reflexivity|]. simpl.
      destruct (on_chain l group_root); reflexivity. }
    split; [exact Hk|].
    intros Ha Hl Hg. rewrite Hk. unfold kind_of_chain. now rewrite Ha, Hl, Hg.
  - intros l last Hw Hlast Hlen. unfold get_entry_type.
    now rewrite (_is_parent_match_arrives _ _ _ _ Hw depth annotation_root Hlast Hlen).
  - intros Hendless Hnever. unfold get_entry_type.
    now rewrite (_is_parent_match_endless self annotation_root depth name Hnever
                   (Hendless (S depth))).
Qed.

Lemma cyclic_walk_stays self :
  OntoDefinitions_init cyclic_ontology = Ok self ->
  forall name l last, walk self name l last ->
  name = JStr "A" \/ name = JStr "B" -> last = JStr "A" \/ last = JStr "B".
Proof.
  intros Hself. injection Hself as <-.
  induction 1 as [name | name p l last Hp Ht Hw IH]; intros Hname; [exact Hname|].
  apply IH. destruct Hname as [-> | ->]; injection Hp as <-; auto.
Qed.

Lemma cyclic_endless self :
  OntoDefinitions_init cyclic_ontology = Ok self ->
  endless self (JStr "A") /\ endless self (JStr "B").
Proof.
  intros Hself.
  assert (HA : parent_entry_of self (JStr "A") = Ok (JStr "B"))
    by (injection Hself as <-; reflexivity).
  assert (HB : parent_entry_of self (JStr "B") = Ok (JStr "A"))
    by (injection Hself as <-; reflexivity).
  assert (H : forall n,
            (exists l last, length l = n /\ walk self (JStr "A") l last) /\
            (exists l last, length l = n /\ walk self (JStr "B") l last)).
  { induction n as [|n [(la & lasta & Hla & Hwa) (lb & lastb & Hlb & Hwb)]].
    - split; eexists [], _; (split; [reflexivity | apply walk_here]).
    - split.
      + exists (JStr "A" :: lb), lastb. split; [simpl; now rewrite Hlb|].
        eapply walk_step; [exact HA | reflexivity | exact Hwb].
      + exists (JStr "B" :: la), lasta. split; [simpl; now rewrite Hla|].
        eapply walk_step; [exact HB | reflexivity | exact Hwa]. }
  split; intros n; apply H.
Qed.

Lemma get_entry_type_along_chain_witness :
  (x <- OntoDefinitions_init dangling_ontology ;;
   get_entry_type default_depth x (JStr "A")) = Ok UNKNOWN /\
  (x <- OntoDefinitions_init annotation_cycle_ontology ;;
   get_entry_type default_depth x (JStr "A")) = Ok ANNOTATION /\
  (x <- OntoDefinitions_init cyclic_ontology ;;
   get_entry_type default_depth x (JStr "B")) = Raise RecursionError.
Proof.
  split; [|split].
  - pose (self := {| _entries :=
        [("A", JObj [("entry_name", JStr "A"); ("parent_entry", JStr "B")]);
         ("B", JObj [("entry_name", JStr "B"); ("parent_entry", JStr "Missing")])] |}).
    change (get_entry_type default_depth self (JStr "A") = Ok UNKNOWN).
    refine (proj2 (proj1 (get_entry_type_along_chain default_depth self (JStr "A"))
                     [JStr "A"; JStr "B"; JStr "Missing"] _ _) _ _ _).
    + eapply chain_step; [reflexivity | reflexivity |].
      eapply chain_step; [reflexivity | reflexivity |].
      eapply chain_end; reflexivity.
    + unfold default_depth. simpl. lia.
    + reflexivity.
    + reflexivity.
    + reflexivity.
  - pose (self := {| _entries :=
        [("A", JObj [("entry_name", JStr "A"); ("parent_entry", JStr annotation_root)]);
         (annotation_root, JObj [("entry_name", JStr annotation_root);
                                 ("parent_entry", JStr "A")])] |}).
    change (get_entry_type default_depth self (JStr "A") = Ok ANNOTATION).
    refine (proj1 (proj2 (get_entry_type_along_chain default_depth self (JStr "A")))
              [JStr "A"] (JStr annotation_root) _ eq_refl _).
    + eapply walk_step; [reflexivity | reflexivity | apply walk_here].
    + unfold default_depth. simpl. lia.
  - pose (self := {| _entries :=
        [("A", JObj [("entry_name", JStr "A"); ("parent_entry", JStr "B")]);
         ("B", JObj [("entry_name", JStr "B"); ("parent_entry", JStr "A")])] |}).
    change (get_entry_type default_depth self (JStr "B") = Raise RecursionError).
    refine (proj2 (proj2 (get_entry_type_along_chain default_depth self (JStr "B")))
              (proj2 (cyclic_endless self eq_refl)) _).
    intros l last Hw.
    destruct (cyclic_walk_stays self eq_refl _ _ _ Hw (or_intror eq_refl)) as [-> | ->];
      reflexivity.
Defined.

Lemma cyclic_is_parent_match depth match_name :
  name_eq (JStr "A") match_name = false ->
  name_eq (JStr "B") match_name = false ->
  forall self, OntoDefinitions_init cyclic_ontology = Ok self ->
  _is_parent_match depth self (JStr "A") match_name = Raise RecursionError /\
  _is_parent_match depth self (JStr "B") match_name = Raise RecursionError.
Proof.
  intros HA HB self Hself. injection Hself as <-.
  induction depth as [|depth [IHA IHB]].
  - split; rewrite _is_parent_match_eq; [rewrite HA | rewrite HB]; reflexivity.
  - split; rewrite _is_parent_match_eq; [rewrite HA | rewrite HB]; simpl.
    + exact IHB.
    + exact IHA.
Qed.

(** C5 (as stated) fails.  On a schema whose definitions [A] and [B] name each
    other as parent, [get_entry_type] does not return [UNKNOWN] for [A]: the
    recursion uses up whatever depth it is given. *)
Lemma get_entry_type_cycle_raises :
  exists self, OntoDefinitions_init cyclic_ontology = Ok self /\
    forall depth, get_entry_type depth self (JStr "A") = Raise RecursionError.
Proof.
  eexists. split; [reflexivity|]. intros depth.
  unfold get_entry_type.
  now rewrite (proj1 (cyclic_is_parent_match depth annotation_root
                        eq_refl eq_refl _ eq_refl)).
Qed.

Lemma _is_parent_match_false self match_name : forall depth name,
  _is_parent_match depth self name match_name = Ok false ->
  exists l, chain self name l /\ (length l <= S depth)%nat /\
            on_chain l match_name = false.
Proof.
  induction depth as [|depth IH]; intros name H; rewrite _is_parent_match_eq in H;
    destruct (name_eq name match_name) eqn:Hname; try discriminate;
    apply bind_Ok in H as (p & Hp & H);
    destruct (Py.truthy p) eqn:Ht; cbn [negb] in H; try discriminate.
  - exists [name]. split; [exact (chain_end self name p Hp Ht)|].
    split; [simpl; lia|]. unfold on_chain. simpl. now rewrite Hname.
  - destruct (IH p H) as (l & Hc & Hlen & Hon).
    exists (name :: l). split; [exact (chain_step self name p l Hp Ht Hc)|].
    split; [simpl; lia|]. unfold on_chain in *. simpl. now rewrite Hname, Hon.
  - exists [name]. split; [exact (chain_end self name p Hp Ht)|].
    split; [simpl; lia|]. unfold on_chain. simpl. now rewrite Hname.
Qed.

Lemma _is_parent_match_true self match_name : forall depth name,
  _is_parent_match depth self name match_name = Ok true ->
  exists l last, walk self name l last /\ name_eq last match_name = true /\
                 (length l <= depth)%nat.
Proof.
  induction depth as [|depth IH]; intros name H; rewrite _is_parent_match_eq in H;
    (destruct (name_eq name match_name) eqn:Hname;
     [exists [], name; split; [apply walk_here | split; [exact Hname | simpl; lia]]|]);
    apply bind_Ok in H as (p & Hp & H);
    destruct (Py.truthy p) eqn:Ht; cbn [negb] in H; try discriminate.
  destruct (IH p H) as (l & last & Hw & Hlast & Hlen).
  exists (name :: l), last.
  split; [exact (walk_step self name p l last Hp Ht Hw)|].
  split; [exact Hlast | simpl; lia].
Qed.

(** C9 (as amended).  In every schema the Annotation root is classified
    [ANNOTATION].  The Link root is classified [LINK] exactly when its parent
    chain ends, within the recursion the interpreter allows, without the
    Annotation root on it, and [ANNOTATION] exactly when resolution from it
    arrives at the Annotation root within that recursion.  The Group root is
    classified [GROUP] exactly when its parent chain ends, within that
    recursion, with neither the Annotation nor the Link root on it.  So each
    root has its own kind when the schema gives it no parent, as the empty
    schema does. *)
Theorem get_entry_type_roots depth self :
  get_entry_type depth self (JStr annotation_root) = Ok ANNOTATION /\
  (get_entry_type depth self (JStr link_root) = Ok LINK <->
   exists l, chain self (JStr link_root) l /\ (length l <= S depth)%nat /\
             on_chain l annotation_root = false) /\
  (get_entry_type depth self (JStr link_root) = Ok ANNOTATION <->
   exists l last, walk self (JStr link_root) l last /\
                  name_eq last annotation_root = true /\ (length l <= depth)%nat) /\
  (get_entry_type depth self (JStr group_root) = Ok GROUP <->
   exists l, chain self (JStr group_root) l /\ (length l <= S depth)%nat /\
             on_chain l annotation_root = false /\ on_chain l link_root = false) /\
  (forall p, parent_entry_of self (JStr link_root) = Ok p -> Py.truthy p = false ->
   get_entry_type depth self (JStr link_root) = Ok LINK) /\
  (forall p, parent_entry_of self (JStr group_root) = Ok p -> Py.truthy p = false ->
   get_entry_type depth self (JStr group_root) = Ok GROUP).
Proof.
  assert (HL : get_entry_type depth self (JStr link_root) = Ok LINK <->
               exists l, chain self (JStr link_root) l /\ (length l <= S depth)%nat /\
                         on_chain l annotation_root = false).
  { unfold get_entry_type. rewrite _is_parent_match_self. split.
    - destruct (_is_parent_match depth self (JStr link_root) annotation_root)
        as [[|]|e] eqn:E; cbn [bind]; try discriminate.
      intros _. now apply (_is_parent_match_false self annotation_root depth).
    - intros (l & Hc & Hlen & Hon).
      now rewrite (_is_parent_match_chain _ _ _ Hc depth annotation_root Hlen), Hon. }
  assert (HG : get_entry_type depth self (JStr group_root) = Ok GROUP <->
               exists l, chain self (JStr group_root) l /\ (length l <= S depth)%nat /\
                         on_chain l annotation_root = false /\
                         on_chain l link_root = false).
  { unfold get_entry_type. rewrite _is_parent_match_self. split.
    - destruct (_is_parent_match depth self (JStr group_root) annotation_root)
        as [[|]|e] eqn:Ea; cbn [bind]; try discriminate.
      destruct (_is_parent_match depth self (JStr group_root) link_root)
        as [[|]|e] eqn:El; cbn [bind]; try discriminate.
      intros _.
      destruct (_is_parent_match_false self annotation_root depth _ Ea)
        as (l & Hc & Hlen & Hon).
      exists l. repeat split; try assumption.
      rewrite (_is_parent_match_chain _ _ _ Hc depth link_root Hlen) in El.
      now injection El.
    - intros (l & Hc & Hlen & Hona & Honl).
      rewrite (_is_parent_match_chain _ _ _ Hc depth annotation_root Hlen), Hona.
      cbn [bind].
      now rewrite (_is_parent_match_chain _ _ _ Hc depth link_root Hlen), Honl. }
  split; [|split; [exact HL | split; [|split; [exact HG | split]]]].
  - unfold get_entry_type. now rewrite _is_parent_match_self.
  - unfold get_entry_type. rewrite _is_parent_match_self. split.
    + destruct (_is_parent_match depth self (JStr link_root) annotation_root)
        as [[|]|e] eqn:E; cbn [bind]; try discriminate.
      intros _. now apply (_is_parent_match_true self annotation_root depth).
    + intros (l & last & Hw & Hlast & Hlen).
      now rewrite (_is_parent_match_arrives _ _ _ _ Hw depth annotation_root Hlast Hlen).
  - intros p Hp Hf. apply HL. exists [JStr link_root].
    split; [exact (chain_end self _ p Hp Hf) | split; [simpl; lia | reflexivity]].
  - intros p Hp Hf. apply HG. exists [JStr group_root].
    split; [exact (chain_end self _ p Hp Hf)|].
    split; [simpl; lia | split; reflexivity].
Qed.

Lemma get_entry_type_roots_witness :
  (x <- OntoDefinitions_init (JObj []) ;;
   get_entry_type default_depth x (JStr link_root)) = Ok LINK /\
  (x <- OntoDefinitions_init (JObj []) ;;
   get_entry_type default_depth x (JStr group_root)) = Ok GROUP.
Proof.
  split.
  - exact (proj1 (proj2 (proj2 (proj2 (proj2
             (get_entry_type_roots default_depth {| _entries := [] |})))))
             JNull eq_refl eq_refl).
  - exact (proj2 (proj2 (proj2 (proj2 (proj2
             (get_entry_type_roots default_depth {| _entries := [] |})))))
             JNull eq_refl eq_refl).
Defined.

(** C9 (as stated) fails.  In a schema that declares the Link root with the
    Annotation root as parent, the Link root is classified [ANNOTATION]: the
    test for the Annotation root walks the parent chain before the name is
    compared with the Link root. *)
Lemma get_entry_type_link_root_as_annotation :
  (x <- OntoDefinitions_init link_under_annotation ;;
   get_entry_type default_depth x (JStr link_root)) = Ok ANNOTATION.
Proof. reflexivity. Qed.

(** ** Version dispatch *)

(** *** The order of releases *)












(** *** Matching *)















(** *** The text of a number *)


Lemma pretty_N_go_app x : forall s t,
  pretty_N_go x s +:+ t = pretty_N_go x (s +:+ t).
Proof.
  induction (N.lt_wf_0 x) as [x _ IH]. intros s t.
  destruct (N.eq_dec x 0%N) as [-> | Hx].
  - now rewrite !pretty_N_go_0.
  - rewrite (pretty_N_go_step x s), (pretty_N_go_step x (s +:+ t)) by lia.
    rewrite IH by (apply N.div_lt; lia). reflexivity.
Qed.





(** *** The text of a release with three places *)












(** ** Global attributes *)

Lemma transform_return_eq pack_json lists :
  transform_return pack_json lists =
  (text <- pack_json@["_text"] ;;
   has_meta <- Py.contains pack_json "meta" ;;
   attributes <- (if has_meta then path pack_json ["meta"; "py/state"]
                  else path pack_json ["_meta"; "py/state"]) ;;
   Ok (normalized_pack text lists attributes)).
Proof. destruct lists as [[a l] g]. reflexivity. Qed.

(** C4 (as amended).  When the rest of the decoding succeeds, the global
    attributes of the result are [pack["meta"]["py/state"]] if the payload
    has a [meta] key and [pack["_meta"]["py/state"]] otherwise; when the
    payload has neither key, [transform_pack] raises [KeyError]. *)
Theorem transform_pack_global_attributes depth set_order raw_pack raw_ontology
    d onto_defs lists text :
  raw_pack@["py/state"] = Ok (JObj d) ->
  OntoDefinitions_init raw_ontology = Ok onto_defs ->
  by_version (JObj d)
    (transform_legacy depth set_order onto_defs (JObj d))
    (transform_compact depth onto_defs (JObj d)) = Ok lists ->
  Py.assoc "_text" d = Some text ->
  (forall m v, Py.assoc "meta" d = Some m -> m@["py/state"] = Ok v ->
     transform_pack depth set_order raw_pack raw_ontology
     = Ok (normalized_pack text lists v)) /\
  (forall m v, Py.assoc "meta" d = None -> Py.assoc "_meta" d = Some m ->
     m@["py/state"] = Ok v ->
     transform_pack depth set_order raw_pack raw_ontology
     = Ok (normalized_pack text lists v)) /\
  (Py.assoc "meta" d = None -> Py.assoc "_meta" d = None ->
     transform_pack depth set_order raw_pack raw_ontology = Raise KeyError).
Proof.
  intros Hstate Honto Hlists Htext.
  assert (E : transform_pack depth set_order raw_pack raw_ontology =
              transform_return (JObj d) lists).
  { unfold transform_pack. rewrite Hstate. cbn [bind]. rewrite Honto. cbn [bind].
    rewrite Hlists. reflexivity. }
  rewrite E, transform_return_eq.
  cbn [Py.getitem Py.contains path bind]. rewrite Htext. cbn [bind].
  split; [|split].
  - intros m v Hm Hv. rewrite Hm. cbn [bind]. now rewrite Hv.
  - intros m v Hm Hu Hv. rewrite Hm. cbn [bind]. rewrite Hu. cbn [bind]. now rewrite Hv.
  - intros Hm Hu. rewrite Hm. cbn [bind]. now rewrite Hu.
Qed.

Lemma transform_pack_global_attributes_witness :
  transform_pack default_depth first_seen pack_with_underscore_meta (JObj [])
  = Ok (normalized_pack (JStr "hello") ([], [], []) (JObj [("lang", JStr "en")])).
Proof.
  refine (proj1 (proj2 (transform_pack_global_attributes default_depth first_seen
            pack_with_underscore_meta (JObj []) _ {| _entries := [] |} ([], [], [])
            (JStr "hello") eq_refl eq_refl eq_refl eq_refl))
            (JObj [("py/state", JObj [("lang", JStr "en")])]) _ eq_refl eq_refl eq_refl).
Defined.

(** C4 (as stated) fails.  A payload of the previous format with neither a
    [meta] nor a [_meta] key does not decode to a pack with empty global
    attributes: [transform_pack] raises [KeyError]. *)
Lemma transform_pack_without_meta_raises :
  transform_pack default_depth first_seen pack_without_meta (JObj [])
  = Raise KeyError.
Proof. reflexivity. Qed.

(** ** Dicts and paths *)

Lemma assoc_dict_set_eq k v d : Py.assoc k (Py.dict_set k v d) = Some v.
Proof.
  induction d as [|[k' v'] d IH]; simpl.
  - now rewrite String.eqb_refl.
  - destruct (String.eqb k k') eqn:E; simpl; rewrite E; [reflexivity | exact IH].
Qed.

Lemma assoc_dict_set_ne k k' v d :
  k <> k' -> Py.assoc k' (Py.dict_set k v d) = Py.assoc k' d.
Proof.
  intros Hne. induction d as [|[k0 v0] d IH]; simpl.
  - destruct (String.eqb_spec k' k); [congruence | reflexivity].
  - destruct (String.eqb_spec k k0) as [->|Hk]; simpl.
    + destruct (String.eqb_spec k' k0); [congruence | reflexivity].
    + destruct (String.eqb k' k0); [reflexivity | exact IH].
Qed.

Lemma dict_set_same k v d : Py.assoc k d = Some v -> Py.dict_set k v d = d.
Proof.
  induction d as [|[k' v'] d IH]; simpl; [discriminate|].
  destruct (String.eqb k k'); intros H.
  - now injection H as ->.
  - now rewrite IH.
Qed.

Lemma dict_set_fresh k v d : Py.assoc k d = None -> Py.dict_set k v d = d ++ [(k, v)].
Proof.
  induction d as [|[k' v'] d IH]; simpl; [reflexivity|].
  destruct (String.eqb k k'); [discriminate|]. intros H. now rewrite IH.
Qed.

Lemma dict_set_twice k v1 v2 d :
  Py.dict_set k v2 (Py.dict_set k v1 d) = Py.dict_set k v2 d.
Proof.
  induction d as [|[k' v'] d IH]; simpl.
  - now rewrite String.eqb_refl.
  - destruct (String.eqb k k') eqn:E; simpl; rewrite E; [reflexivity | now rewrite IH].
Qed.

Lemma assoc_app_fresh k d d' :
  Py.assoc k d = None -> Py.assoc k (d ++ d') = Py.assoc k d'.
Proof.
  induction d as [|[k' v'] d IH]; simpl; [reflexivity|].
  destruct (String.eqb k k'); [discriminate | exact IH].
Qed.

Lemma assoc_app_found k d d' v :
  Py.assoc k d = Some v -> Py.assoc k (d ++ d') = Some v.
Proof.
  induction d as [|[k' v'] d IH]; simpl; [discriminate|].
  destruct (String.eqb k k'); [trivial | exact IH].
Qed.

Lemma getitem_key_Ok x k v :
  x@[k] = Ok v <-> exists d, x = JObj d /\ Py.assoc k d = Some v.
Proof.
  split.
  - destruct x as [| | | |l|d]; simpl; try discriminate.
    destruct (Py.assoc k d) eqn:E; [|discriminate].
    intros H. injection H as ->. eauto.
  - intros (d & -> & H). simpl. now rewrite H.
Qed.

Lemma set_path_same ks : forall x v, path x ks = Ok v -> set_path x ks v = Ok x.
Proof.
  induction ks as [|k ks IH]; simpl; intros x v H.
  - now injection H as ->.
  - apply bind_Ok in H as (y & Hy & Hp). rewrite Hy. simpl.
    rewrite (IH _ _ Hp). simpl.
    apply getitem_key_Ok in Hy as (d & -> & Hd). simpl.
    now rewrite (dict_set_same _ _ _ Hd).
Qed.

Lemma path_set_path ks : forall x v x',
  set_path x ks v = Ok x' -> path x' ks = Ok v.
Proof.
  induction ks as [|k ks IH]; simpl; intros x v x' H.
  - now symmetry.
  - apply bind_Ok in H as (y & Hy & H).
    apply bind_Ok in H as (y' & Hy' & H).
    apply getitem_key_Ok in Hy as (d & -> & Hd). simpl in H.
    injection H as <-. simpl. rewrite assoc_dict_set_eq. simpl. eauto.
Qed.

Lemma set_path_twice ks : forall x v1 v2 x1,
  set_path x ks v1 = Ok x1 -> set_path x1 ks v2 = set_path x ks v2.
Proof.
  induction ks as [|k ks IH]; simpl; intros x v1 v2 x1 H.
  - reflexivity.
  - apply bind_Ok in H as (y & Hy & H).
    apply bind_Ok in H as (y' & Hy' & H).
    rewrite Hy. simpl.
    apply getitem_key_Ok in Hy as (d & -> & Hd). simpl in H.
    injection H as <-. simpl. rewrite assoc_dict_set_eq. simpl.
    rewrite (IH _ _ v2 _ Hy').
    destruct (set_path y ks v2); simpl; [|reflexivity].
    now rewrite dict_set_twice.
Qed.

Lemma set_path_defined ks : forall x v0 v,
  path x ks = Ok v0 -> exists x', set_path x ks v = Ok x'.
Proof.
  induction ks as [|k ks IH]; simpl; intros x v0 v H.
  - eauto.
  - apply bind_Ok in H as (y & Hy & Hp). rewrite Hy. simpl.
    destruct (IH _ _ v Hp) as (y' & ->). simpl.
    apply getitem_key_Ok in Hy as (d & -> & Hd). simpl. eauto.
Qed.

Lemma set_path_state_version pack_json name rest v pack_json' :
  set_path pack_json ("py/state" :: name :: rest) v = Ok pack_json' ->
  name <> "pack_version" ->
  exists state state',
    pack_json@["py/state"] = Ok state /\ pack_json'@["py/state"] = Ok state' /\
    is_previous_version state' = is_previous_version state.
Proof.
  intros H Hne. cbn [set_path] in H.
  apply bind_Ok in H as (state & Hstate & H).
  apply bind_Ok in H as (state' & Hstate' & H).
  apply bind_Ok in Hstate' as (old & Hold & Hset).
  apply bind_Ok in Hset as (new & _ & Hset).
  apply getitem_key_Ok in Hstate as (d & -> & Hd).
  apply getitem_key_Ok in Hold as (s & -> & Hs).
  simpl in Hset. injection Hset as <-. simpl in H. injection H as <-.
  exists (JObj s), (JObj (Py.dict_set name new s)). split; [|split].
  - simpl. now rewrite Hd.
  - simpl. now rewrite assoc_dict_set_eq.
  - unfold is_previous_version, Py.get. now rewrite (assoc_dict_set_ne _ _ _ _ Hne).
Qed.

(** ** The scenario of the specification *)

(** C8 (as amended).  With a schema in which [Note] is declared as a child of
    the Annotation root, a pack of version 0.0.2 with empty entries, and an
    added [Note] entry with span [0,5] and id "1" (given as a string or as the
    number 1), the decode of the saved pack yields exactly one annotation,
    [{span:{begin:0,end:5}, id:"1", legendId:"Note", attributes:{}}]. *)
Theorem note_scenario_child :
  let doc := {| textPack := compact_pack [] [];
                project_ontology := note_ontology_child |} in
  let expected :=
    normalized_pack (JStr "hello")
      ([JObj [("span", JObj [("begin", JInt 0); ("end", JInt 5)]);
              ("id", JStr "1");
              ("legendId", JStr "Note");
              ("attributes", JObj [])]], [], [])
      (JObj []) in
  decode_after_add default_depth first_seen doc note_entry = Ok expected /\
  decode_after_add default_depth first_seen doc (annotation_entry "Note" 0 5 (JInt 1))
  = Ok expected.
Proof. split; reflexivity. Qed.

(** C8 (as stated) fails.  With [Note] declared with a null [parent_entry],
    [Note] is classified [UNKNOWN]: the added row has no columns and the
    decode of the saved pack yields no annotation. *)
Lemma note_scenario_null :
  let doc := {| textPack := compact_pack [] [];
                project_ontology := note_ontology_null |} in
  (r <- add_entry_to_doc default_depth first_seen doc note_entry (stored doc) ;;
   path (textPack (fst r)) data_store_entries)
  = Ok (JObj [("Note", JArr [JArr []])]) /\
  decode_after_add default_depth first_seen doc note_entry
  = Ok (normalized_pack (JStr "hello") ([], [], []) (JObj [])).
Proof. split; reflexivity. Qed.

(** ** Defects of the mutators on the new format *)

(** C1: the code at a failing input.  Deleting the sentence with id 7 from a
    pack whose sentences and tokens are in two buckets also removes the token
    with id 8: [delete_index] keeps the index found in the first bucket when
    the second bucket has no match. *)
Theorem delete_compact_removes_unrelated_entry :
  (r <- delete_entry_from_doc default_depth sentence_token_doc (JStr "7") ANNOTATION
          (stored sentence_token_doc) ;;
   path (textPack (fst r)) data_store_entries)
  = Ok (JObj [("Sentence", JArr []);
              ("Token", JArr [annotation_row "Token" 3 5 9])]).
Proof. reflexivity. Qed.

(** C2: the code at a failing input.  Editing the sentence with id 7 of a pack
    of the new format raises [TypeError]: the rows of a bucket are lists, and
    the scan reads [item["py/state"]] from them. *)
Theorem edit_compact_raises :
  edit_entry_in_doc default_depth sentence_token_doc
    (annotation_entry "Sentence" 0 6 (JInt 7)) (stored sentence_token_doc)
  = Raise TypeError.
Proof. reflexivity. Qed.

(** C6: the code at a failing input.  In a pack of the new format with two
    empty buckets of annotation types, adding a sentence with id 7 succeeds
    and deleting id 7 then raises [IndexError] (nothing is saved, so the
    added row stays); when the second bucket holds a token, the delete
    succeeds and removes that token as well. *)
Theorem delete_after_add_compact_fails :
  delete_after_add default_depth first_seen empty_buckets_doc
    (annotation_entry "Sentence" 0 5 (JInt 7)) (JStr "7") ANNOTATION
  = Raise IndexError /\
  (let doc := {| textPack :=
                   compact_pack [("Sentence", no_attributes); ("Token", no_attributes)]
                     [("Sentence", JArr []);
                      ("Token", JArr [annotation_row "Token" 0 2 8])];
                 project_ontology := sentence_token_ontology |} in
   (r <- delete_after_add default_depth first_seen doc
           (annotation_entry "Sentence" 0 5 (JInt 7)) (JStr "7") ANNOTATION ;;
    path (textPack (fst r)) data_store_entries)
   = Ok (JObj [("Sentence", JArr []); ("Token", JArr [])])).
Proof. split; reflexivity. Qed.

(** ** Every completed mutation saves *)

Lemma save_spec doc text db doc' db' :
  Ok (save doc text db) = Ok (doc', db') ->
  textPack doc' = text /\ writes db' = S (writes db) /\ row db' = textPack doc' /\
  project_ontology doc' = project_ontology doc.
Proof. unfold save. intros H. injection H as <- <-. simpl. auto. Qed.

Lemma save_unchanged doc db :
  save doc (textPack doc) db = (doc, {| row := textPack doc; writes := S (writes db) |}).
Proof. destruct doc. reflexivity. Qed.

Lemma edit_scan_no_match entry b items : forall index x,
  tagged_tid entry = Ok b -> no_match tagged_tid b items ->
  edit_scan entry items index x = Ok x.
Proof.
  induction items as [|item items IH]; intros index x Hb Hno; simpl; [reflexivity|].
  inversion Hno as [|? ? (a & Ha & Hne) Hrest]; subst.
  rewrite Ha, Hb. simpl.
  destruct (String.eqb_spec a b); [contradiction|]. simpl. now apply IH.
Qed.

Lemma delete_scan_no_match tid_of entry_tid b items : forall index delete_index,
  Py.str entry_tid = Ok b -> no_match tid_of b items ->
  delete_scan tid_of entry_tid items index delete_index = Ok delete_index.
Proof.
  induction items as [|item items IH]; intros index di Hb Hno; simpl; [reflexivity|].
  inversion Hno as [|? ? (a & Ha & Hne) Hrest]; subst.
  rewrite Ha, Hb. simpl.
  destruct (String.eqb_spec a b); [contradiction|]. now apply IH.
Qed.

Lemma list_name_of_cases kind :
  kind = ANNOTATION \/ kind = LINK ->
  String.eqb (list_name_of kind) "" = false.
Proof. intros [-> | ->]; reflexivity. Qed.

(** C10.  A mutator that returns has run [doc.save()] once, and what it
    saved is the tree it worked on: the pack that was read, as the code of
    its format left it.  That tree is the [textPack] of the document and the
    row of the store, and the store counts one more write.  So an [add] of
    an Annotation or Link entry to a pack of the previous format stores a
    text with the entry at the end of its list.  A call that changes nothing
    in a pack of the previous format saves all the same: the [add] of a
    Group entry, and the [edit] or the [delete] of an id that no entry of the
    list has, return, and the store counts one more write of the same
    text. *)
Theorem mutators_always_save depth set_order doc db :
  (forall entry doc' db',
     add_entry_to_doc depth set_order doc entry db = Ok (doc', db') ->
     exists pack_state onto_defs entry_type kind pack_json',
       (textPack doc)@["py/state"] = Ok pack_state /\
       OntoDefinitions_init (project_ontology doc) = Ok onto_defs /\
       entry@["py/object"] = Ok entry_type /\
       get_entry_type depth onto_defs entry_type = Ok kind /\
       by_version pack_state
         (add_legacy (textPack doc) entry kind)
         (add_compact set_order onto_defs (textPack doc) entry entry_type kind)
       = Ok pack_json' /\
       doc' = {| textPack := pack_json'; project_ontology := project_ontology doc |} /\
       db' = {| row := pack_json'; writes := S (writes db) |}) /\
  (forall entry doc' db',
     edit_entry_in_doc depth doc entry db = Ok (doc', db') ->
     exists pack_state onto_defs entry_type kind pack_json',
       (textPack doc)@["py/state"] = Ok pack_state /\
       OntoDefinitions_init (project_ontology doc) = Ok onto_defs /\
       entry@["py/object"] = Ok entry_type /\
       get_entry_type depth onto_defs entry_type = Ok kind /\
       by_version pack_state
         (edit_legacy (textPack doc) entry kind)
         (edit_compact (textPack doc) entry entry_type)
       = Ok pack_json' /\
       doc' = {| textPack := pack_json'; project_ontology := project_ontology doc |} /\
       db' = {| row := pack_json'; writes := S (writes db) |}) /\
  (forall entry_tid parent_type doc' db',
     delete_entry_from_doc depth doc entry_tid parent_type db = Ok (doc', db') ->
     exists pack_state onto_defs pack_json',
       (textPack doc)@["py/state"] = Ok pack_state /\
       OntoDefinitions_init (project_ontology doc) = Ok onto_defs /\
       by_version pack_state
         (delete_legacy (textPack doc) entry_tid parent_type (-1))
         (delete_compact depth onto_defs (textPack doc) entry_tid parent_type (-1))
       = Ok pack_json' /\
       doc' = {| textPack := pack_json'; project_ontology := project_ontology doc |} /\
       db' = {| row := pack_json'; writes := S (writes db) |}) /\
  (forall onto_defs pack_state,
     OntoDefinitions_init (project_ontology doc) = Ok onto_defs ->
     (textPack doc)@["py/state"] = Ok pack_state ->
     is_previous_version pack_state = Ok true ->
     let unchanged := Ok (doc, {| row := textPack doc; writes := S (writes db) |}) in
     (forall entry entry_type kind items,
        entry@["py/object"] = Ok entry_type ->
        get_entry_type depth onto_defs entry_type = Ok kind ->
        kind = ANNOTATION \/ kind = LINK ->
        path (textPack doc) ["py/state"; list_name_of kind] = Ok (JArr items) ->
        exists doc' db',
          add_entry_to_doc depth set_order doc entry db = Ok (doc', db') /\
          writes db' = S (writes db) /\ row db' = textPack doc' /\
          path (row db') ["py/state"; list_name_of kind]
          = Ok (JArr (items ++ [entry]))) /\
     (forall entry entry_type,
        entry@["py/object"] = Ok entry_type ->
        get_entry_type depth onto_defs entry_type = Ok GROUP ->
        add_entry_to_doc depth set_order doc entry db = unchanged) /\
     (forall entry entry_type kind x items b,
        entry@["py/object"] = Ok entry_type ->
        get_entry_type depth onto_defs entry_type = Ok kind ->
        kind = ANNOTATION \/ kind = LINK ->
        path (textPack doc) ["py/state"; list_name_of kind] = Ok x ->
        Py.iter x = Ok items ->
        tagged_tid entry = Ok b -> no_match tagged_tid b items ->
        edit_entry_in_doc depth doc entry db = unchanged) /\
     (forall entry_tid kind x items b,
        kind = ANNOTATION \/ kind = LINK ->
        path (textPack doc) ["py/state"; list_name_of kind] = Ok x ->
        Py.iter x = Ok items ->
        Py.str entry_tid = Ok b -> no_match tagged_tid b items ->
        delete_entry_from_doc depth doc entry_tid kind db = unchanged)).
Proof.
  split; [|split; [|split]].
  - intros entry doc' db' H.
    unfold add_entry_to_doc, json_loads, json_dumps in H. cbn [bind] in H.
    apply bind_Ok in H as (onto_defs & Honto & H).
    apply bind_Ok in H as (entry_type & Hty & H).
    apply bind_Ok in H as (kind & Hkind & H).
    apply bind_Ok in H as (pack_state & Hps & H).
    apply bind_Ok in H as (pack_json' & Hpack & H).
    injection H as <- <-.
    exists pack_state, onto_defs, entry_type, kind, pack_json'. auto 10.
  - intros entry doc' db' H.
    unfold edit_entry_in_doc, json_loads, json_dumps in H. cbn [bind] in H.
    apply bind_Ok in H as (onto_defs & Honto & H).
    apply bind_Ok in H as (entry_type & Hty & H).
    apply bind_Ok in H as (kind & Hkind & H).
    apply bind_Ok in H as (pack_state & Hps & H).
    apply bind_Ok in H as (pack_json' & Hpack & H).
    injection H as <- <-.
    exists pack_state, onto_defs, entry_type, kind, pack_json'. auto 10.
  - intros entry_tid parent_type doc' db' H.
    unfold delete_entry_from_doc, json_loads, json_dumps in H. cbn [bind] in H.
    apply bind_Ok in H as (onto_defs & Honto & H).
    apply bind_Ok in H as (pack_state & Hps & H).
    apply bind_Ok in H as (pack_json' & Hpack & H).
    injection H as <- <-.
    exists pack_state, onto_defs, pack_json'. auto 10.
  - intros onto_defs pack_state Honto Hstate Hprev unchanged. subst unchanged.
    split; [|split; [|split]].
    + intros entry entry_type kind items Hty Hkind Hk Hx.
      destruct (set_path_defined _ _ _ (JArr (items ++ [entry])) Hx) as (pack' & Hpack').
      exists {| textPack := pack'; project_ontology := project_ontology doc |},
             {| row := pack'; writes := S (writes db) |}.
      split; [|split; [reflexivity | split; [reflexivity|]]].
      * unfold add_entry_to_doc, json_loads, json_dumps, by_version. cbn [bind].
        rewrite Honto. cbn [bind]. rewrite Hty. cbn [bind]. rewrite Hkind. cbn [bind].
        rewrite Hstate. cbn [bind]. rewrite Hprev. cbn [bind].
        unfold add_legacy. rewrite (list_name_of_cases kind Hk). cbn [negb].
        rewrite Hx. cbn [bind Py.append]. rewrite Hpack'. reflexivity.
      * exact (path_set_path _ _ _ _ Hpack').
    + intros entry entry_type Hty Hkind.
      unfold add_entry_to_doc, json_loads, json_dumps, by_version. cbn [bind].
      rewrite Honto. cbn [bind]. rewrite Hty. cbn [bind]. rewrite Hkind. cbn [bind].
      rewrite Hstate. cbn [bind]. rewrite Hprev. cbn [bind].
      change (add_legacy (textPack doc) entry GROUP) with (Ok (textPack doc)).
      cbn [bind]. now rewrite save_unchanged.
    + intros entry entry_type kind x items b Hty Hkind Hk Hx Hitems Hb Hno.
      unfold edit_entry_in_doc, json_loads, json_dumps, by_version. cbn [bind].
      rewrite Honto. cbn [bind]. rewrite Hty. cbn [bind]. rewrite Hkind. cbn [bind].
      rewrite Hstate. cbn [bind]. rewrite Hprev. cbn [bind].
      unfold edit_legacy, edit_at. rewrite (list_name_of_cases kind Hk). cbn [negb].
      rewrite Hx. cbn [bind]. rewrite Hitems. cbn [bind].
      rewrite (edit_scan_no_match entry b items 0%nat x Hb Hno). cbn [bind].
      rewrite (set_path_same _ _ _ Hx). cbn [bind]. now rewrite save_unchanged.
    + intros entry_tid kind x items b Hk Hx Hitems Hb Hno.
      unfold delete_entry_from_doc, json_loads, json_dumps, by_version. cbn [bind].
      rewrite Honto. cbn [bind]. rewrite Hstate. cbn [bind]. rewrite Hprev. cbn [bind].
      unfold delete_legacy. rewrite (list_name_of_cases kind Hk). cbn [negb].
      rewrite Hx. cbn [bind]. rewrite Hitems. cbn [bind].
      rewrite (delete_scan_no_match tagged_tid entry_tid b items 0 (-1) Hb Hno).
      cbn [bind]. change (0 <=? -1) with false. cbn [bind].
      now rewrite save_unchanged.
Qed.

Lemma mutators_always_save_witness :
  let unchanged :=
    Ok (one_note_doc, {| row := textPack one_note_doc; writes := 1 |}) in
  (exists doc' db',
     add_entry_to_doc default_depth first_seen one_note_doc
       (annotation_entry "Note" 6 9 (JInt 2)) (stored one_note_doc) = Ok (doc', db') /\
     writes db' = 1%nat /\ row db' = textPack doc' /\
     path (row db') ["py/state"; "annotations"]
     = Ok (JArr [annotation_entry "Note" 0 5 (JInt 1);
                 annotation_entry "Note" 6 9 (JInt 2)])) /\
  add_entry_to_doc default_depth first_seen one_note_doc coref_entry
    (stored one_note_doc) = unchanged /\
  edit_entry_in_doc default_depth one_note_doc (annotation_entry "Note" 0 6 (JInt 2))
    (stored one_note_doc) = unchanged /\
  delete_entry_from_doc default_depth one_note_doc (JStr "2") ANNOTATION
    (stored one_note_doc) = unchanged.
Proof.
  pose (onto_defs := {| _entries :=
    [("Note", JObj [("entry_name", JStr "Note"); ("parent_entry", JStr annotation_root)]);
     ("Coref", JObj [("entry_name", JStr "Coref"); ("parent_entry", JStr group_root);
                     ("member_type", JStr "Note")])] |}).
  pose proof (proj2 (proj2 (proj2
    (mutators_always_save default_depth first_seen one_note_doc (stored one_note_doc))))
    onto_defs _ eq_refl eq_refl eq_refl) as (Hvisible & Hadd & Hedit & Hdelete).
  assert (Hno : no_match tagged_tid "2" [annotation_entry "Note" 0 5 (JInt 1)]).
  { constructor; [|constructor]. exists "1". split; [reflexivity | discriminate]. }
  split; [|split; [|split]].
  - exact (Hvisible (annotation_entry "Note" 6 9 (JInt 2)) (JStr "Note") ANNOTATION
             [annotation_entry "Note" 0 5 (JInt 1)] eq_refl eq_refl (or_introl eq_refl)
             eq_refl).
  - exact (Hadd coref_entry (JStr "Coref") eq_refl eq_refl).
  - exact (Hedit (annotation_entry "Note" 0 6 (JInt 2)) (JStr "Note") ANNOTATION
             _ _ "2" eq_refl eq_refl (or_introl eq_refl) eq_refl eq_refl eq_refl Hno).
  - exact (Hdelete (JStr "2") ANNOTATION _ _ "2" (or_introl eq_refl) eq_refl eq_refl
             eq_refl Hno).
Defined.

(** ** Attribute slots *)

Lemma set_path_sibling pre k1 k2 : forall x v x',
  set_path x (pre ++ [k1]) v = Ok x' -> k1 <> k2 ->
  path x' (pre ++ [k2]) = path x (pre ++ [k2]).
Proof.
  induction pre as [|k pre IH]; intros x v x' H Hne.
  - simpl in H. apply bind_Ok in H as (y & Hy & H).
    apply getitem_key_Ok in Hy as (d & -> & Hd).
    simpl in H. injection H as <-.
    simpl. now rewrite (assoc_dict_set_ne _ _ _ _ Hne).
  - simpl in H. apply bind_Ok in H as (y & Hy & H).
    apply bind_Ok in H as (y' & Hy' & H).
    apply getitem_key_Ok in Hy as (d & -> & Hd).
    simpl in H. injection H as <-.
    simpl. rewrite assoc_dict_set_eq, Hd. simpl. now apply (IH _ _ _ Hy').
Qed.

Lemma attribute_slots_spec names : forall i acc,
  NoDup names -> (forall n, In n names -> Py.assoc n acc = None) ->
  attribute_slots (Z.of_nat i) names acc = acc ++ slots_from i names.
Proof.
  induction names as [|n names IH]; intros i acc Hnd Hfresh; simpl.
  - now rewrite app_nil_r.
  - apply NoDup_cons in Hnd as [Hn Hnd].
    rewrite dict_set_fresh by (apply Hfresh; now left).
    replace (Z.of_nat i + 1) with (Z.of_nat (S i)) by lia.
    rewrite IH; [now rewrite <- app_assoc | exact Hnd |].
    intros m Hm. rewrite assoc_app_fresh by (apply Hfresh; now right).
    simpl. destruct (String.eqb_spec m n) as [->|]; [|reflexivity].
    exfalso. apply Hn. now apply list_elem_of_In.
Qed.

Lemma attribute_slots_fresh names :
  NoDup names -> attribute_slots 0 names [] = slots_from 0 names.
Proof.
  intros Hnd. now apply (attribute_slots_spec names 0%nat []).
Qed.

Lemma length_slots_from names : forall i, length (slots_from i names) = length names.
Proof. induction names; intros i; simpl; [reflexivity | now rewrite IHnames]. Qed.

Lemma assoc_slots_from key names : forall i,
  Py.assoc key (slots_from i names) =
  match index_of key names with
  | Some j => Some (JInt (4 + Z.of_nat (i + j)))
  | None => None
  end.
Proof.
  induction names as [|n names IH]; intros i; simpl; [reflexivity|].
  destruct (String.eqb key n).
  - now rewrite Nat.add_0_r.
  - rewrite IH. destruct (index_of key names); [|reflexivity].
    do 3 f_equal. lia.
Qed.

Lemma index_of_lt key names j : index_of key names = Some j -> (j < length names)%nat.
Proof.
  revert j. induction names as [|n names IH]; intros j; simpl; [discriminate|].
  destruct (String.eqb key n).
  - intros H. injection H as <-. lia.
  - destruct (index_of key names) as [j'|]; [|discriminate].
    intros H. injection H as <-. specialize (IH j' eq_refl). lia.
Qed.

Lemma index_of_In key names j : index_of key names = Some j -> In key names.
Proof.
  revert j. induction names as [|n names IH]; intros j; simpl; [discriminate|].
  destruct (String.eqb_spec key n) as [->|]; [now left|].
  destruct (index_of key names) as [j'|]; [|discriminate]. intros _. right. eauto.
Qed.

(** Writing [v] at the slot of [key] changes the value of [key] only. *)
Lemma insert_at_index (g : string -> json) key v names : forall j,
  NoDup names -> index_of key names = Some j ->
  <[j := v]> (map g names) = map (fun n => if String.eqb n key then v else g n) names.
Proof.
  induction names as [|n names IH]; intros j Hnd; simpl; [discriminate|].
  apply NoDup_cons in Hnd as [Hn Hnd].
  destruct (String.eqb_spec key n) as [->|Hne].
  - intros H. injection H as <-. simpl. rewrite String.eqb_refl. f_equal.
    apply map_ext_in. intros m Hm.
    destruct (String.eqb_spec m n) as [->|]; [|reflexivity].
    exfalso. apply Hn. now apply list_elem_of_In.
  - destruct (index_of key names) as [j'|] eqn:E; [|discriminate].
    intros H. injection H as <-. simpl.
    destruct (String.eqb_spec n key); [congruence|]. f_equal. now apply IH.
Qed.

Lemma index_of_None (g : string -> json) key v names :
  index_of key names = None ->
  map (fun n => if String.eqb n key then v else g n) names = map g names.
Proof.
  induction names as [|n names IH]; simpl; [reflexivity|].
  destruct (String.eqb_spec key n) as [->|Hne]; [discriminate|].
  destruct (index_of key names); [discriminate|]. intros _.
  destruct (String.eqb_spec n key); [congruence|]. f_equal. now apply IH.
Qed.

Lemma assoc_not_In key d : ~ In key (map fst d) -> Py.assoc key d = None.
Proof.
  induction d as [|[k v] d IH]; simpl; [reflexivity|]. intros H.
  destruct (String.eqb_spec key k) as [->|]; [exfalso; auto | apply IH; auto].
Qed.

Lemma position_in_range len n :
  (n < len)%nat -> Py.position len (Z.of_nat n) = Some n.
Proof.
  intros H. unfold Py.position.
  destruct (Z.leb_spec 0 (Z.of_nat n)); [|lia].
  destruct (Z.ltb_spec (Z.of_nat n) (Z.of_nat len)); [|lia].
  now rewrite Nat2Z.id.
Qed.

Lemma fill_slot_spec names pre (g : string -> json) key v :
  NoDup names -> length pre = 4%nat ->
  fill_slot (JObj (slots_from 0 names)) (pre ++ map g names) (key, v)
  = Ok (pre ++ map (fun n => if String.eqb n key then v else g n) names).
Proof.
  intros Hnd Hpre. unfold fill_slot, Py.contains, Py.getitem. cbn [fst snd].
  rewrite assoc_slots_from. destruct (index_of key names) as [j|] eqn:E; cbn [bind].
  - unfold Py.list_setitem. cbn [Py.as_index].
    replace (4 + Z.of_nat (0 + j)) with (Z.of_nat (4 + j)) by lia.
    pose proof (index_of_lt _ _ _ E) as Hj.
    rewrite position_in_range by (rewrite length_app, length_map; lia).
    rewrite insert_app_r_alt by lia.
    replace (4 + j - length pre)%nat with j by lia.
    now rewrite (insert_at_index g key v names j Hnd E).
  - now rewrite index_of_None.
Qed.

Lemma fill_slots_spec names pre state : forall (g : string -> json),
  NoDup names -> length pre = 4%nat -> NoDup (map fst state) ->
  foldM (fill_slot (JObj (slots_from 0 names))) state (pre ++ map g names)
  = Ok (pre ++ map (fun n => match Py.assoc n state with Some v => v | None => g n end)
                names).
Proof.
  induction state as [|[key v] state IH]; intros g Hnd Hpre Hst; simpl.
  - reflexivity.
  - apply NoDup_cons in Hst as [Hkey Hst].
    rewrite fill_slot_spec by assumption. simpl.
    rewrite IH by assumption. do 2 f_equal. apply map_ext. intros n.
    destruct (String.eqb_spec n key) as [->|]; [|reflexivity].
    rewrite assoc_not_In; [reflexivity|].
    intros Hin. apply Hkey. now apply list_elem_of_In.
Qed.

Lemma replicate_as_map (names : list string) (x : json) :
  replicate (length names) x = map (fun _ => x) names.
Proof. induction names; simpl; [reflexivity | now f_equal]. Qed.

Lemma compact_attributes_fold (h : string -> json) names : forall i pre acc,
  NoDup names -> (forall n, In n names -> Py.assoc n acc = None) ->
  length pre = (4 + i)%nat ->
  foldM (fun acc kv =>
           v <- Py.getitem (JArr (pre ++ map h names)) (snd kv) ;;
           Ok (Py.dict_set (fst kv) v acc))
    (slots_from i names) acc
  = Ok (acc ++ map (fun n => (n, h n)) names).
Proof.
  induction names as [|n names IH]; intros i pre acc Hnd Hfresh Hpre; simpl.
  - now rewrite app_nil_r.
  - apply NoDup_cons in Hnd as [Hn Hnd].
    replace (4 + Z.of_nat i) with (Z.of_nat (length pre)) by lia.
    rewrite position_in_range by (rewrite length_app; simpl; lia).
    rewrite list_lookup_middle by reflexivity. cbn [bind].
    rewrite dict_set_fresh by (apply Hfresh; now left).
    specialize (IH (S i) (pre ++ [h n]) (acc ++ [(n, h n)]) Hnd).
    rewrite <- !app_assoc in IH. simpl in IH. apply IH.
    + intros m Hm. rewrite assoc_app_fresh by (apply Hfresh; now right).
      simpl. destruct (String.eqb_spec m n) as [->|]; [|reflexivity].
      exfalso. apply Hn. now apply list_elem_of_In.
    + rewrite length_app. simpl. lia.
Qed.

Lemma path_app a : forall x b, path x (a ++ b) = (y <- path x a ;; path y b).
Proof.
  induction a as [|k a IH]; intros x b; simpl; [reflexivity|].
  destruct (x@[k]); simpl; [apply IH | reflexivity].
Qed.

Lemma get_attribute_names_NoDup set_order self entry_name names :
  (forall l, NoDup (set_order l)) ->
  get_attribute_names set_order self entry_name = Ok names -> NoDup names.
Proof.
  intros Hso H. unfold get_attribute_names in H.
  apply bind_Ok in H as (definition & _ & H).
  destruct (negb (Py.truthy definition)).
  { injection H as <-. constructor. }
  apply bind_Ok in H as (attributes & _ & H).
  destruct (negb (Py.truthy attributes)).
  { injection H as <-. constructor. }
  bind_inv H. injection H as <-. apply Hso.
Qed.

Lemma new_entry_prefix_length entry entry_type kind pre :
  kind = ANNOTATION \/ kind = LINK ->
  new_entry_prefix entry entry_type kind = Ok pre -> length pre = 4%nat.
Proof.
  intros [-> | ->] H; unfold new_entry_prefix in H; cbn [String.eqb] in H;
    simpl in H; bind_inv H; now injection H as <-.
Qed.

(** What [add_compact] does for a type that [fields] does not know. *)
Lemma add_compact_new_type set_order onto_defs pack_json entry type_name kind
    F E rows names pre state :
  kind = ANNOTATION \/ kind = LINK ->
  path pack_json data_store_fields = Ok (JObj F) ->
  Py.assoc type_name F = None ->
  path pack_json data_store_entries = Ok (JObj E) ->
  bucket_rows E type_name rows ->
  get_attribute_names set_order onto_defs (JStr type_name) = Ok names ->
  NoDup names ->
  new_entry_prefix entry (JStr type_name) kind = Ok pre ->
  entry@["py/state"] = Ok (JObj state) ->
  NoDup (map fst state) ->
  exists pack_json',
    add_compact set_order onto_defs pack_json entry (JStr type_name) kind
    = Ok pack_json' /\
    path pack_json' data_store_fields
    = Ok (JObj (F ++ [(type_name, JObj [("attributes", JObj (slots_from 0 names))])])) /\
    path pack_json' data_store_entries
    = Ok (JObj (Py.dict_set type_name
                  (JArr (rows ++ [JArr (pre ++ map (attr_value state) names)])) E)) /\
    forall pack_state, pack_json@["py/state"] = Ok pack_state ->
      exists pack_state', pack_json'@["py/state"] = Ok pack_state' /\
        is_previous_version pack_state' = is_previous_version pack_state.
Proof.
  intros Hkind HF Hnew HE Hrows Hnames Hnd Hpre Hstate Hst.
  set (registry := F ++ [(type_name, JObj [("attributes", JObj (slots_from 0 names))])]).
  set (row := JArr (pre ++ map (attr_value state) names)).
  destruct (set_path_defined _ _ _ (JObj registry) HF) as (pack1 & Hpack1).
  assert (HF1 : path pack1 data_store_fields = Ok (JObj registry))
    by exact (path_set_path _ _ _ _ Hpack1).
  assert (HE1 : path pack1 data_store_entries = Ok (JObj E)).
  { rewrite <- HE.
    exact (set_path_sibling ["py/state"; "_data_store"; "py/state"] "fields" "entries"
             _ _ _ Hpack1 ltac:(discriminate)). }
  set (entries' := Py.dict_set type_name (JArr (rows ++ [row])) E).
  destruct (set_path_defined _ _ _ (JObj entries') HE1) as (pack2 & Hpack2).
  exists pack2. split; [|split; [|split]].
  - unfold add_compact. cbn [Py.as_key bind]. rewrite HF. cbn [bind Py.contains].
    rewrite Hnew. cbn [negb bind]. rewrite Hnames. cbn [bind Py.setitem].
    rewrite (attribute_slots_fresh names Hnd).
    rewrite dict_set_fresh by exact Hnew.
    fold registry. rewrite Hpack1. cbn [bind].
    rewrite path_app, HF1. cbn [bind].
    assert (Hreg : path (JObj registry) [type_name; "attributes"]
                   = Ok (JObj (slots_from 0 names))).
    { unfold registry. cbn [path Py.getitem].
      rewrite (assoc_app_fresh _ _ _ Hnew). simpl. now rewrite String.eqb_refl. }
    rewrite Hreg. cbn [bind]. rewrite Hpre. cbn [bind Py.len].
    rewrite length_slots_from, replicate_as_map.
    rewrite Hstate. cbn [bind Py.items].
    rewrite (fill_slots_spec names pre state (fun _ => JNull) Hnd
               (new_entry_prefix_length _ _ _ _ Hkind Hpre) Hst).
    cbn [bind]. rewrite HE1. cbn [bind Py.contains].
    fold (attr_value state). fold row.
    destruct Hrows as [Hb | [Hb ->]]; rewrite Hb; cbn [negb bind Py.setitem Py.getitem].
    + rewrite Hb. cbn [bind Py.append]. exact Hpack2.
    + rewrite assoc_dict_set_eq. cbn [bind Py.append]. rewrite dict_set_twice.
      exact Hpack2.
  - rewrite <- HF1.
    exact (set_path_sibling ["py/state"; "_data_store"; "py/state"] "entries" "fields"
             _ _ _ Hpack2 ltac:(discriminate)).
  - exact (path_set_path _ _ _ _ Hpack2).
  - intros pack_state Hps.
    destruct (set_path_state_version _ _ _ _ _ Hpack1 ltac:(discriminate))
      as (s0 & s1 & Hs0 & Hs1 & H01).
    destruct (set_path_state_version _ _ _ _ _ Hpack2 ltac:(discriminate))
      as (s1' & s2 & Hs1' & Hs2 & H12).
    rewrite Hps in Hs0. injection Hs0 as <-.
    rewrite Hs1 in Hs1'. injection Hs1' as <-.
    exists s2. split; [exact Hs2 | congruence].
Qed.

Lemma registry_attributes type_name F slots :
  Py.assoc type_name F = None ->
  path (JObj (F ++ [(type_name, JObj [("attributes", slots)])]))
    [type_name; "attributes"] = Ok slots.
Proof.
  intros Hnew. cbn [path Py.getitem].
  rewrite (assoc_app_fresh _ _ _ Hnew). simpl. now rewrite String.eqb_refl.
Qed.

Lemma compact_attributes_new_row type_name F names pre (h : string -> json) :
  Py.assoc type_name F = None -> NoDup names -> length pre = 4%nat ->
  compact_attributes
    (JObj (F ++ [(type_name, JObj [("attributes", JObj (slots_from 0 names))])]))
    type_name (JArr (pre ++ map h names))
  = Ok (JObj (map (fun n => (n, h n)) names)).
Proof.
  intros Hnew Hnd Hpre. unfold compact_attributes.
  rewrite (registry_attributes _ _ _ Hnew). cbn [bind Py.items].
  rewrite (compact_attributes_fold h names 0 pre [] Hnd) by (reflexivity || lia).
  reflexivity.
Qed.

Lemma first_seen_NoDup l : NoDup (first_seen l).
Proof. apply NoDup_remove_dups. Qed.

(** C7 (as stated) fails.  On an [add] to a pack of the new format of an entry
    of a Group type that is absent from [fields] and carries a value for the
    attribute the type declares, nothing is registered and nothing can be
    decoded: the row is built without leading columns, so the write to slot 4
    raises [IndexError]. *)
Lemma add_compact_group_raises :
  add_entry_to_doc default_depth first_seen empty_token_doc chain_entry
    (stored empty_token_doc) = Raise IndexError.
Proof. reflexivity. Qed.

Example decode_after_add_token :
  decode_after_add default_depth first_seen empty_token_doc token_entry
  = Ok (normalized_pack (JStr "hello")
          ([JObj [("span", JObj [("begin", JInt 0); ("end", JInt 2)]);
                  ("id", JStr "7");
                  ("legendId", JStr "Token");
                  ("attributes", JObj [("pos", JNull); ("lemma", JStr "be")])]],
           [], [])
          (JObj [])).
Proof. reflexivity. Qed.

(** ** The mutators on the previous format *)

Lemma mapM_cons_Ok {A B} (f : A -> result B) x l ys :
  mapM f (x :: l) = Ok ys <->
  exists y ys', f x = Ok y /\ mapM f l = Ok ys' /\ ys = y :: ys'.
Proof.
  simpl. split.
  - intros H. apply bind_Ok in H as (y & Hy & H).
    apply bind_Ok in H as (ys' & Hys & H). injection H as <-. eauto.
  - intros (y & ys' & Hy & Hys & ->). rewrite Hy. simpl. now rewrite Hys.
Qed.

Lemma mapM_length {A B} (f : A -> result B) l : forall ys,
  mapM f l = Ok ys -> length ys = length l.
Proof.
  induction l as [|x l IH]; intros ys H.
  - injection H as <-. reflexivity.
  - apply mapM_cons_Ok in H as (y & ys' & _ & Hys & ->). simpl. f_equal. auto.
Qed.

Lemma mapM_snoc {A B} (f : A -> result B) l x ys y :
  mapM f l = Ok ys -> f x = Ok y -> mapM f (l ++ [x]) = Ok (ys ++ [y]).
Proof.
  revert ys. induction l as [|x0 l IH]; intros ys H Hy.
  - injection H as <-. simpl. now rewrite Hy.
  - apply mapM_cons_Ok in H as (y0 & ys' & Hy0 & Hys & ->).
    simpl. rewrite Hy0. simpl. now rewrite (IH _ Hys Hy).
Qed.

Lemma last_index_spec b ids j :
  last_index b ids = Some j ->
  ids !! j = Some b /\ forall j', (j < j')%nat -> ids !! j' <> Some b.
Proof.
  revert j. induction ids as [|a ids IH]; intros j; simpl; [discriminate|].
  destruct (last_index b ids) as [j0|] eqn:E.
  - intros H. injection H as <-. destruct (IH j0 eq_refl) as [Hj Hlast].
    split; [exact Hj|]. intros [|j'] Hlt; [lia|]. simpl. apply Hlast. lia.
  - destruct (String.eqb_spec a b) as [->|]; [|discriminate].
    intros H. injection H as <-. split; [reflexivity|].
    intros [|j'] Hlt; [lia|]. simpl. intros Hj'.
    clear IH. revert j' Hlt Hj'. induction ids as [|a' ids IH']; intros j' Hlt Hj'.
    + discriminate.
    + simpl in E. destruct (last_index b ids) eqn:E'; [discriminate|].
      destruct (String.eqb_spec a' b) as [->|Hne]; [discriminate|].
      destruct j' as [|j']; simpl in Hj'.
      * injection Hj' as ->. contradiction.
      * apply (IH' eq_refl j'); [lia | exact Hj'].
Qed.

Lemma last_index_None b ids : last_index b ids = None -> ~ In b ids.
Proof.
  induction ids as [|a ids IH]; simpl; [tauto|].
  destruct (last_index b ids); [discriminate|].
  destruct (String.eqb_spec a b); [discriminate|].
  intros _ [H | H]; [contradiction | now apply IH].
Qed.

Lemma last_index_snoc b ids : last_index b (ids ++ [b]) = Some (length ids).
Proof.
  induction ids as [|a ids IH]; simpl.
  - now rewrite String.eqb_refl.
  - now rewrite IH.
Qed.

Lemma delete_scan_spec tid_of entry_tid b items : forall ids index delete_index,
  mapM tid_of items = Ok ids -> Py.str entry_tid = Ok b ->
  delete_scan tid_of entry_tid items index delete_index
  = Ok (match last_index b ids with
        | Some j => index + Z.of_nat j
        | None => delete_index
        end).
Proof.
  induction items as [|item items IH]; intros ids index di Hids Hb.
  - injection Hids as <-. reflexivity.
  - apply mapM_cons_Ok in Hids as (a & ids' & Ha & Hids & ->).
    simpl. rewrite Ha, Hb. simpl. rewrite (IH _ _ _ Hids Hb).
    destruct (last_index b ids') as [j|]; [f_equal; lia|].
    destruct (String.eqb a b); [f_equal; lia | reflexivity].
Qed.

Lemma edit_scan_spec entry b : forall rest ids done,
  tagged_tid entry = Ok b -> mapM tagged_tid rest = Ok ids ->
  edit_scan entry rest (length done) (JArr (done ++ rest))
  = Ok (JArr (done ++ replace_matching entry b rest ids)).
Proof.
  induction rest as [|item rest IH]; intros ids done Hb Hids.
  - reflexivity.
  - apply mapM_cons_Ok in Hids as (a & ids' & Ha & Hids & ->).
    simpl. rewrite Ha, Hb. simpl.
    assert (Hstep : forall x, (done ++ x :: rest) = (done ++ [x]) ++ rest)
      by (intros x; now rewrite <- app_assoc).
    replace (S (length done)) with (length (done ++ [item]))
      by (rewrite length_app; simpl; lia).
    destruct (String.eqb a b).
    + unfold store_at, Py.list_setitem. cbn [Py.as_index].
      rewrite position_in_range by (rewrite length_app; simpl; lia).
      cbn [bind]. rewrite insert_app_r_alt by lia.
      replace (length done - length done)%nat with O by lia. cbn [insert list_insert].
      replace (length (done ++ [item])) with (length (done ++ [entry]))
        by (rewrite !length_app; reflexivity).
      rewrite Hstep, (IH ids' (done ++ [entry]) Hb Hids), <- app_assoc. reflexivity.
    + cbn [bind].
      rewrite Hstep, (IH ids' (done ++ [item]) Hb Hids), <- app_assoc. reflexivity.
Qed.

(** The mutators on a pack whose version test has a known outcome. *)
Lemma add_entry_to_doc_branch depth set_order doc entry db onto_defs pack_state
    entry_type kind previous :
  OntoDefinitions_init (project_ontology doc) = Ok onto_defs ->
  entry@["py/object"] = Ok entry_type ->
  get_entry_type depth onto_defs entry_type = Ok kind ->
  (textPack doc)@["py/state"] = Ok pack_state ->
  is_previous_version pack_state = Ok previous ->
  add_entry_to_doc depth set_order doc entry db
  = (pack_json <- (if previous then add_legacy (textPack doc) entry kind
                   else add_compact set_order onto_defs (textPack doc) entry
                          entry_type kind) ;;
     Ok (save doc pack_json db)).
Proof.
  intros Honto Hty Hkind Hps Hver.
  unfold add_entry_to_doc, json_loads, json_dumps, by_version. cbn [bind].
  rewrite Honto. cbn [bind]. rewrite Hty. cbn [bind]. rewrite Hkind. cbn [bind].
  rewrite Hps. cbn [bind]. rewrite Hver. reflexivity.
Qed.

Lemma edit_entry_in_doc_branch depth doc entry db onto_defs pack_state
    entry_type kind previous :
  OntoDefinitions_init (project_ontology doc) = Ok onto_defs ->
  entry@["py/object"] = Ok entry_type ->
  get_entry_type depth onto_defs entry_type = Ok kind ->
  (textPack doc)@["py/state"] = Ok pack_state ->
  is_previous_version pack_state = Ok previous ->
  edit_entry_in_doc depth doc entry db
  = (pack_json <- (if previous then edit_legacy (textPack doc) entry kind
                   else edit_compact (textPack doc) entry entry_type) ;;
     Ok (save doc pack_json db)).
Proof.
  intros Honto Hty Hkind Hps Hver.
  unfold edit_entry_in_doc, json_loads, json_dumps, by_version. cbn [bind].
  rewrite Honto. cbn [bind]. rewrite Hty. cbn [bind]. rewrite Hkind. cbn [bind].
  rewrite Hps. cbn [bind]. rewrite Hver. reflexivity.
Qed.

Lemma delete_entry_from_doc_branch depth doc entry_tid parent_type db onto_defs
    pack_state previous :
  OntoDefinitions_init (project_ontology doc) = Ok onto_defs ->
  (textPack doc)@["py/state"] = Ok pack_state ->
  is_previous_version pack_state = Ok previous ->
  delete_entry_from_doc depth doc entry_tid parent_type db
  = (pack_json <- (if previous
                   then delete_legacy (textPack doc) entry_tid parent_type (-1)
                   else delete_compact depth onto_defs (textPack doc) entry_tid
                          parent_type (-1)) ;;
     Ok (save doc pack_json db)).
Proof.
  intros Honto Hps Hver.
  unfold delete_entry_from_doc, json_loads, json_dumps, by_version. cbn [bind].
  rewrite Honto. cbn [bind]. rewrite Hps. cbn [bind]. rewrite Hver. reflexivity.
Qed.

Lemma delete_legacy_spec pack_json entry_tid kind items ids b :
  kind = ANNOTATION \/ kind = LINK ->
  path pack_json ["py/state"; list_name_of kind] = Ok (JArr items) ->
  mapM tagged_tid items = Ok ids -> Py.str entry_tid = Ok b ->
  delete_legacy pack_json entry_tid kind (-1)
  = match last_index b ids with
    | Some j => set_path pack_json ["py/state"; list_name_of kind] (JArr (delete j items))
    | None => Ok pack_json
    end.
Proof.
  intros Hk Hx Hids Hb. unfold delete_legacy.
  rewrite (list_name_of_cases kind Hk). cbn [negb]. rewrite Hx. cbn [bind Py.iter].
  rewrite (delete_scan_spec tagged_tid entry_tid b items ids 0 (-1) Hids Hb). cbn [bind].
  destruct (last_index b ids) as [j|] eqn:E; [|reflexivity].
  destruct (last_index_spec _ _ _ E) as [Hj _].
  apply lookup_lt_Some in Hj. rewrite (mapM_length _ _ _ Hids) in Hj.
  replace (0 <=? 0 + Z.of_nat j) with true by (symmetry; apply Z.leb_le; lia).
  unfold delete_at, Py.list_delitem. rewrite Z.add_0_l.
  now rewrite position_in_range by exact Hj.
Qed.

(** X1.  On a pack of the previous format, [delete] removes from the list of
    the given kind exactly the entry at the last position whose id is the
    given one and leaves everything else of the pack as it was; when no entry
    of the list has the id the saved pack is the pack that was read. *)
Theorem delete_legacy_last_occurrence depth doc entry_tid kind db onto_defs
    pack_state items ids b :
  OntoDefinitions_init (project_ontology doc) = Ok onto_defs ->
  (textPack doc)@["py/state"] = Ok pack_state ->
  is_previous_version pack_state = Ok true ->
  kind = ANNOTATION \/ kind = LINK ->
  path (textPack doc) ["py/state"; list_name_of kind] = Ok (JArr items) ->
  mapM tagged_tid items = Ok ids ->
  Py.str entry_tid = Ok b ->
  (forall j, last_index b ids = Some j ->
     ids !! j = Some b /\ (forall j', (j < j')%nat -> ids !! j' <> Some b) /\
     exists pack_json',
       set_path (textPack doc) ["py/state"; list_name_of kind] (JArr (delete j items))
       = Ok pack_json' /\
       path pack_json' ["py/state"; list_name_of kind] = Ok (JArr (delete j items)) /\
       delete_entry_from_doc depth doc entry_tid kind db = Ok (save doc pack_json' db)) /\
  (last_index b ids = None ->
     ~ In b ids /\
     delete_entry_from_doc depth doc entry_tid kind db
     = Ok (save doc (textPack doc) db)).
Proof.
  intros Honto Hps Hver Hk Hx Hids Hb.
  rewrite (delete_entry_from_doc_branch _ _ _ _ _ _ _ _ Honto Hps Hver).
  rewrite (delete_legacy_spec _ _ _ _ _ _ Hk Hx Hids Hb).
  split.
  - intros j E. rewrite E. destruct (last_index_spec _ _ _ E) as [Hj Hlast].
    split; [exact Hj | split; [exact Hlast|]].
    destruct (set_path_defined _ _ _ (JArr (delete j items)) Hx) as (pack' & Hpack').
    exists pack'. rewrite Hpack'. split; [reflexivity | split; [|reflexivity]].
    exact (path_set_path _ _ _ _ Hpack').
  - intros E. rewrite E. split; [exact (last_index_None _ _ E) | reflexivity].
Qed.

Lemma delete_legacy_last_occurrence_witness :
  delete_entry_from_doc default_depth duplicate_ids_doc (JStr "1") ANNOTATION
    (stored duplicate_ids_doc)
  = Ok (save duplicate_ids_doc
          (legacy_pack [annotation_entry "Note" 0 1 (JInt 1);
                        annotation_entry "Note" 2 3 (JInt 2)] [])
          (stored duplicate_ids_doc)).
Proof.
  pose (onto_defs := {| _entries :=
    [("Note", JObj [("entry_name", JStr "Note"); ("parent_entry", JStr annotation_root)]);
     ("Coref", JObj [("entry_name", JStr "Coref"); ("parent_entry", JStr group_root);
                     ("member_type", JStr "Note")])] |}).
  destruct (proj1 (delete_legacy_last_occurrence default_depth duplicate_ids_doc
                     (JStr "1") ANNOTATION (stored duplicate_ids_doc) onto_defs _ _
                     ["1"; "2"; "1"] "1" eq_refl eq_refl eq_refl (or_introl eq_refl)
                     eq_refl eq_refl eq_refl) 2%nat eq_refl)
    as (_ & _ & pack' & Hset & _ & Hdelete).
  injection Hset as <-. exact Hdelete.
Defined.

Lemma list_name_of_not_version kind :
  kind = ANNOTATION \/ kind = LINK -> list_name_of kind <> "pack_version".
Proof. intros [-> | ->]; discriminate. Qed.

(** X2.  On a pack of the previous format, [add] of an Annotation or Link
    entry followed by [delete] of its id and kind saves the pack that was
    there before the [add]: the entry list is restored, in the same order,
    and so is everything else. *)
Theorem delete_after_add_legacy depth set_order doc entry entry_tid onto_defs
    pack_state entry_type kind items ids b :
  OntoDefinitions_init (project_ontology doc) = Ok onto_defs ->
  entry@["py/object"] = Ok entry_type ->
  get_entry_type depth onto_defs entry_type = Ok kind ->
  kind = ANNOTATION \/ kind = LINK ->
  (textPack doc)@["py/state"] = Ok pack_state ->
  is_previous_version pack_state = Ok true ->
  path (textPack doc) ["py/state"; list_name_of kind] = Ok (JArr items) ->
  mapM tagged_tid items = Ok ids ->
  tagged_tid entry = Ok b ->
  Py.str entry_tid = Ok b ->
  delete_after_add depth set_order doc entry entry_tid kind
  = Ok (doc, {| row := textPack doc; writes := 2 |}).
Proof.
  intros Honto Hty Hkind Hk Hps Hver Hx Hids Hb Htid.
  unfold delete_after_add.
  rewrite (add_entry_to_doc_branch _ _ _ _ _ _ _ _ _ _ Honto Hty Hkind Hps Hver).
  unfold add_legacy. rewrite (list_name_of_cases kind Hk). cbn [negb].
  rewrite Hx. cbn [bind Py.append].
  destruct (set_path_defined _ _ _ (JArr (items ++ [entry])) Hx) as (pack1 & Hpack1).
  rewrite Hpack1. cbn [bind save fst snd stored writes].
  destruct (set_path_state_version _ _ _ _ _ Hpack1 (list_name_of_not_version _ Hk))
    as (state & state' & Hstate & Hstate' & Hsame).
  rewrite Hps in Hstate. injection Hstate as <-. rewrite Hver in Hsame.
  rewrite (delete_entry_from_doc_branch depth
             {| textPack := pack1; project_ontology := project_ontology doc |}
             entry_tid kind _ onto_defs state' true Honto Hstate' Hsame).
  cbn [textPack].
  rewrite (delete_legacy_spec pack1 entry_tid kind (items ++ [entry]) (ids ++ [b]) b Hk
             (path_set_path _ _ _ _ Hpack1) (mapM_snoc _ _ _ _ _ Hids Hb) Htid).
  rewrite last_index_snoc, (mapM_length _ _ _ Hids).
  rewrite delete_middle, app_nil_r.
  rewrite (set_path_twice _ _ _ (JArr items) _ Hpack1), (set_path_same _ _ _ Hx).
  cbn [bind save project_ontology writes]. destruct doc; reflexivity.
Qed.

Lemma delete_after_add_legacy_witness :
  delete_after_add default_depth first_seen one_note_doc
    (annotation_entry "Note" 6 9 (JInt 2)) (JStr "2") ANNOTATION
  = Ok (one_note_doc, {| row := textPack one_note_doc; writes := 2 |}).
Proof.
  pose (onto_defs := {| _entries :=
    [("Note", JObj [("entry_name", JStr "Note"); ("parent_entry", JStr annotation_root)]);
     ("Coref", JObj [("entry_name", JStr "Coref"); ("parent_entry", JStr group_root);
                     ("member_type", JStr "Note")])] |}).
  exact (delete_after_add_legacy default_depth first_seen one_note_doc
           (annotation_entry "Note" 6 9 (JInt 2)) (JStr "2") onto_defs _ (JStr "Note")
           ANNOTATION _ ["1"] "2" eq_refl eq_refl eq_refl (or_introl eq_refl) eq_refl
           eq_refl eq_refl eq_refl eq_refl eq_refl).
Defined.

Lemma replace_matching_lookup entry b : forall items ids j item a,
  items !! j = Some item -> ids !! j = Some a ->
  replace_matching entry b items ids !! j
  = Some (if String.eqb a b then entry else item).
Proof.
  induction items as [|x items IH]; intros ids j item a Hi Ha; [discriminate|].
  destruct ids as [|a0 ids]; [discriminate|].
  destruct j as [|j]; simpl in *.
  - injection Hi as ->. injection Ha as ->. reflexivity.
  - now apply IH.
Qed.

Lemma replace_matching_length entry b : forall items ids,
  length (replace_matching entry b items ids) = length items.
Proof.
  induction items as [|x items IH]; intros [|a ids]; simpl; try reflexivity.
  now rewrite IH.
Qed.

Lemma edit_legacy_spec pack_json entry kind items ids b :
  kind = ANNOTATION \/ kind = LINK ->
  path pack_json ["py/state"; list_name_of kind] = Ok (JArr items) ->
  mapM tagged_tid items = Ok ids -> tagged_tid entry = Ok b ->
  edit_legacy pack_json entry kind
  = set_path pack_json ["py/state"; list_name_of kind]
      (JArr (replace_matching entry b items ids)).
Proof.
  intros Hk Hx Hids Hb. unfold edit_legacy, edit_at.
  rewrite (list_name_of_cases kind Hk). cbn [negb]. rewrite Hx. cbn [bind Py.iter].
  pose proof (edit_scan_spec entry b items ids [] Hb Hids) as Hscan.
  simpl in Hscan. now rewrite Hscan.
Qed.

(** X3.  On a pack of the previous format, [edit] of an Annotation or Link
    entry puts the entry in the place of every item of the list of its kind
    whose id, as a string, is the entry's; the other items, the length and
    the order of the list stay. *)
Theorem edit_legacy_replaces_matching depth doc entry db onto_defs pack_state
    entry_type kind items ids b :
  OntoDefinitions_init (project_ontology doc) = Ok onto_defs ->
  entry@["py/object"] = Ok entry_type ->
  get_entry_type depth onto_defs entry_type = Ok kind ->
  kind = ANNOTATION \/ kind = LINK ->
  (textPack doc)@["py/state"] = Ok pack_state ->
  is_previous_version pack_state = Ok true ->
  path (textPack doc) ["py/state"; list_name_of kind] = Ok (JArr items) ->
  mapM tagged_tid items = Ok ids ->
  tagged_tid entry = Ok b ->
  exists pack_json' items',
    edit_entry_in_doc depth doc entry db = Ok (save doc pack_json' db) /\
    set_path (textPack doc) ["py/state"; list_name_of kind] (JArr items')
    = Ok pack_json' /\
    path pack_json' ["py/state"; list_name_of kind] = Ok (JArr items') /\
    length items' = length items /\
    forall j item a, items !! j = Some item -> ids !! j = Some a ->
      items' !! j = Some (if String.eqb a b then entry else item).
Proof.
  intros Honto Hty Hkind Hk Hps Hver Hx Hids Hb.
  destruct (set_path_defined _ _ _ (JArr (replace_matching entry b items ids)) Hx)
    as (pack' & Hpack').
  exists pack', (replace_matching entry b items ids).
  split; [|split; [exact Hpack' | split; [exact (path_set_path _ _ _ _ Hpack') | split]]].
  - rewrite (edit_entry_in_doc_branch _ _ _ _ _ _ _ _ _ Honto Hty Hkind Hps Hver).
    rewrite (edit_legacy_spec _ _ _ _ _ _ Hk Hx Hids Hb), Hpack'. reflexivity.
  - apply replace_matching_length.
  - apply replace_matching_lookup.
Qed.

Lemma edit_legacy_replaces_matching_witness :
  let edited := annotation_entry "Note" 7 8 (JStr "1") in
  edit_entry_in_doc default_depth duplicate_ids_doc edited (stored duplicate_ids_doc)
  = Ok (save duplicate_ids_doc
          (legacy_pack [edited; annotation_entry "Note" 2 3 (JInt 2); edited] [])
          (stored duplicate_ids_doc)).
Proof.
  pose (onto_defs := {| _entries :=
    [("Note", JObj [("entry_name", JStr "Note"); ("parent_entry", JStr annotation_root)]);
     ("Coref", JObj [("entry_name", JStr "Coref"); ("parent_entry", JStr group_root);
                     ("member_type", JStr "Note")])] |}).
  destruct (edit_legacy_replaces_matching default_depth duplicate_ids_doc
              (annotation_entry "Note" 7 8 (JStr "1")) (stored duplicate_ids_doc)
              onto_defs _ (JStr "Note") ANNOTATION _ ["1"; "2"; "1"] "1"
              eq_refl eq_refl eq_refl (or_introl eq_refl) eq_refl eq_refl eq_refl
              eq_refl eq_refl)
    as (pack' & items' & Hedit & Hset & _ & Hlen & Hitems).
  pose proof (Hitems 0%nat _ _ eq_refl eq_refl) as H0.
  pose proof (Hitems 1%nat _ _ eq_refl eq_refl) as H1.
  pose proof (Hitems 2%nat _ _ eq_refl eq_refl) as H2.
  destruct items' as [|i0 [|i1 [|i2 [|i3 items']]]]; try discriminate.
  injection H0 as ->. injection H1 as ->. injection H2 as ->.
  injection Hset as <-. exact Hedit.
Defined.

(** ** The mutators on the new format *)

(** X4.  On a pack of the new format, [edit] of an entry whose bucket starts
    with a row (a list) raises [TypeError], whatever the ids are. *)
Theorem edit_compact_row_raises depth doc entry db onto_defs pack_state
    type_name kind E row rows :
  OntoDefinitions_init (project_ontology doc) = Ok onto_defs ->
  entry@["py/object"] = Ok (JStr type_name) ->
  get_entry_type depth onto_defs (JStr type_name) = Ok kind ->
  (textPack doc)@["py/state"] = Ok pack_state ->
  is_previous_version pack_state = Ok false ->
  path (textPack doc) data_store_entries = Ok (JObj E) ->
  Py.assoc type_name E = Some (JArr (JArr row :: rows)) ->
  edit_entry_in_doc depth doc entry db = Raise TypeError.
Proof.
  intros Honto Hty Hkind Hps Hver HE Hbucket.
  rewrite (edit_entry_in_doc_branch _ _ _ _ _ _ _ _ _ Honto Hty Hkind Hps Hver).
  unfold edit_compact, edit_at. rewrite HE. cbn [bind Py.getitem]. rewrite Hbucket.
  cbn [bind Py.as_key]. rewrite path_app, HE. cbn [bind path Py.getitem].
  rewrite Hbucket. reflexivity.
Qed.

Lemma edit_compact_row_raises_witness :
  edit_entry_in_doc default_depth sentence_token_doc
    (annotation_entry "Token" 0 2 (JInt 8)) (stored sentence_token_doc)
  = Raise TypeError.
Proof.
  pose (onto_defs := {| _entries :=
    [("Sentence", JObj [("entry_name", JStr "Sentence");
                        ("parent_entry", JStr annotation_root)]);
     ("Token", JObj [("entry_name", JStr "Token");
                     ("parent_entry", JStr annotation_root)])] |}).
  exact (edit_compact_row_raises default_depth sentence_token_doc
           (annotation_entry "Token" 0 2 (JInt 8)) (stored sentence_token_doc)
           onto_defs _ "Token" ANNOTATION _ _ _
           eq_refl eq_refl eq_refl eq_refl eq_refl eq_refl eq_refl).
Defined.

Lemma delete_bucket_other_kind depth onto_defs entry_tid kind st bucket :
  other_kind depth onto_defs kind bucket ->
  delete_bucket depth onto_defs entry_tid kind st bucket = Ok st.
Proof.
  intros (k & Hk & Hne). destruct st as [entries di], bucket as [name lst].
  unfold delete_bucket. simpl in Hk. rewrite Hk. cbn [bind].
  destruct (String.eqb_spec k kind); [contradiction | reflexivity].
Qed.

Lemma delete_bucket_untouched depth onto_defs entry_tid kind b entries bucket :
  Py.str entry_tid = Ok b ->
  untouched depth onto_defs kind b bucket ->
  delete_bucket depth onto_defs entry_tid kind (entries, -1) bucket
  = Ok (entries, -1).
Proof.
  intros Hb (k & Hk & Hrows). destruct bucket as [name lst].
  unfold delete_bucket. simpl in Hk. rewrite Hk. cbn [bind].
  destruct (String.eqb_spec k kind) as [->|]; [|reflexivity]. cbn [negb].
  destruct (Hrows eq_refl) as (rows & Hiter & Hno). simpl in Hiter.
  rewrite Hiter. cbn [bind].
  now rewrite (delete_scan_no_match row_tid entry_tid b rows 0 (-1) Hb Hno).
Qed.

Lemma delete_buckets_other_kind depth onto_defs entry_tid kind buckets : forall st,
  Forall (other_kind depth onto_defs kind) buckets ->
  foldM (delete_bucket depth onto_defs entry_tid kind) buckets st = Ok st.
Proof.
  induction buckets as [|bucket buckets IH]; intros st H; [reflexivity|].
  inversion H; subst. cbn [foldM].
  rewrite delete_bucket_other_kind by assumption. cbn [bind]. now apply IH.
Qed.

Lemma delete_buckets_untouched depth onto_defs entry_tid kind b entries buckets :
  Py.str entry_tid = Ok b ->
  Forall (untouched depth onto_defs kind b) buckets ->
  foldM (delete_bucket depth onto_defs entry_tid kind) buckets (entries, -1)
  = Ok (entries, -1).
Proof.
  intros Hb. induction buckets as [|bucket buckets IH]; intros H; [reflexivity|].
  inversion H; subst. cbn [foldM].
  rewrite (delete_bucket_untouched _ _ _ _ b) by assumption. cbn [bind]. now apply IH.
Qed.

Lemma foldM_app {A B} (f : A -> B -> result A) l1 l2 acc :
  foldM f (l1 ++ l2) acc = (acc' <- foldM f l1 acc ;; foldM f l2 acc').
Proof.
  revert acc. induction l1 as [|x l1 IH]; intros acc; simpl; [reflexivity|].
  destruct (f acc x); simpl; [apply IH | reflexivity].
Qed.

Lemma dict_set_middle k v old before after :
  ~ In k (map fst before) ->
  Py.dict_set k v (before ++ (k, old) :: after) = before ++ (k, v) :: after.
Proof.
  induction before as [|[k0 v0] before IH]; simpl; intros Hk.
  - now rewrite String.eqb_refl.
  - destruct (String.eqb_spec k k0) as [->|]; [exfalso; auto|].
    rewrite IH by auto. reflexivity.
Qed.

(** X5.  On a pack of the new format in which no row of a bucket of the given
    kind has the given id, [delete] saves the pack that it read. *)
Theorem delete_compact_no_match depth doc entry_tid kind db onto_defs pack_state E b :
  OntoDefinitions_init (project_ontology doc) = Ok onto_defs ->
  (textPack doc)@["py/state"] = Ok pack_state ->
  is_previous_version pack_state = Ok false ->
  path (textPack doc) data_store_entries = Ok (JObj E) ->
  Py.str entry_tid = Ok b ->
  Forall (untouched depth onto_defs kind b) E ->
  delete_entry_from_doc depth doc entry_tid kind db
  = Ok (doc, {| row := textPack doc; writes := S (writes db) |}).
Proof.
  intros Honto Hps Hver HE Hb Huntouched.
  rewrite (delete_entry_from_doc_branch _ _ _ _ _ _ _ _ Honto Hps Hver).
  unfold delete_compact. rewrite HE. cbn [bind Py.items].
  rewrite (delete_buckets_untouched _ _ _ _ b) by assumption. cbn [bind fst].
  rewrite (set_path_same _ _ _ HE). cbn [bind]. now rewrite save_unchanged.
Qed.

Lemma delete_compact_spec depth onto_defs pack_json entry_tid kind
    before name rows after ids b j :
  path pack_json data_store_entries
  = Ok (JObj (before ++ (name, JArr rows) :: after)) ->
  Py.str entry_tid = Ok b ->
  Forall (untouched depth onto_defs kind b) before ->
  ~ In name (map fst before) ->
  get_entry_type depth onto_defs (JStr name) = Ok kind ->
  mapM row_tid rows = Ok ids ->
  last_index b ids = Some j ->
  Forall (other_kind depth onto_defs kind) after ->
  delete_compact depth onto_defs pack_json entry_tid kind (-1)
  = set_path pack_json data_store_entries
      (JObj (before ++ (name, JArr (delete j rows)) :: after)).
Proof.
  intros HE Hb Hbefore Hname Hkind Hids Hlast Hafter.
  unfold delete_compact. rewrite HE. cbn [bind Py.items].
  rewrite foldM_app, (delete_buckets_untouched _ _ _ _ b) by assumption.
  cbn [bind foldM]. unfold delete_bucket at 1. rewrite Hkind. cbn [bind].
  rewrite String.eqb_refl. cbn [negb Py.iter bind].
  rewrite (delete_scan_spec row_tid entry_tid b rows ids 0 (-1) Hids Hb), Hlast.
  cbn [bind]. rewrite Z.add_0_l.
  destruct (last_index_spec _ _ _ Hlast) as [Hj _].
  apply lookup_lt_Some in Hj. rewrite (mapM_length _ _ _ Hids) in Hj.
  replace (0 <=? Z.of_nat j) with true by (symmetry; apply Z.leb_le; lia).
  unfold delete_at, Py.list_delitem. rewrite position_in_range by exact Hj.
  cbn [bind]. rewrite dict_set_middle by exact Hname.
  rewrite delete_buckets_other_kind by assumption. reflexivity.
Qed.

(** X6.  On a pack of the new format, when the given id occurs in one bucket
    of the given kind, no bucket of that kind before it has the id, and no
    bucket after it is of that kind, [delete] removes from that bucket the
    row at the last position whose id is the given one, and nothing else. *)
Theorem delete_compact_last_bucket depth doc entry_tid kind db onto_defs pack_state
    before name rows after ids b j :
  OntoDefinitions_init (project_ontology doc) = Ok onto_defs ->
  (textPack doc)@["py/state"] = Ok pack_state ->
  is_previous_version pack_state = Ok false ->
  path (textPack doc) data_store_entries
  = Ok (JObj (before ++ (name, JArr rows) :: after)) ->
  Py.str entry_tid = Ok b ->
  Forall (untouched depth onto_defs kind b) before ->
  ~ In name (map fst before) ->
  get_entry_type depth onto_defs (JStr name) = Ok kind ->
  mapM row_tid rows = Ok ids ->
  last_index b ids = Some j ->
  Forall (other_kind depth onto_defs kind) after ->
  exists pack_json',
    delete_entry_from_doc depth doc entry_tid kind db = Ok (save doc pack_json' db) /\
    set_path (textPack doc) data_store_entries
      (JObj (before ++ (name, JArr (delete j rows)) :: after)) = Ok pack_json' /\
    path pack_json' data_store_entries
    = Ok (JObj (before ++ (name, JArr (delete j rows)) :: after)).
Proof.
  intros Honto Hps Hver HE Hb Hbefore Hname Hkind Hids Hlast Hafter.
  destruct (set_path_defined _ _ _
              (JObj (before ++ (name, JArr (delete j rows)) :: after)) HE)
    as (pack' & Hpack').
  exists pack'. split; [|split; [exact Hpack' | exact (path_set_path _ _ _ _ Hpack')]].
  rewrite (delete_entry_from_doc_branch _ _ _ _ _ _ _ _ Honto Hps Hver).
  rewrite (delete_compact_spec depth onto_defs (textPack doc) entry_tid kind before
             name rows after ids b j) by assumption.
  now rewrite Hpack'.
Qed.

Lemma sentence_token_onto_defs :
  OntoDefinitions_init sentence_token_ontology
  = Ok {| _entries :=
      [("Sentence", JObj [("entry_name", JStr "Sentence");
                          ("parent_entry", JStr annotation_root)]);
       ("Token", JObj [("entry_name", JStr "Token");
                       ("parent_entry", JStr annotation_root)])] |}.
Proof. reflexivity. Qed.

Lemma delete_compact_no_match_witness :
  delete_entry_from_doc default_depth sentence_token_doc (JStr "99") ANNOTATION
    (stored sentence_token_doc)
  = Ok (sentence_token_doc, {| row := textPack sentence_token_doc; writes := 1 |}).
Proof.
  refine (delete_compact_no_match default_depth sentence_token_doc (JStr "99")
            ANNOTATION (stored sentence_token_doc) _ _ _ "99"
            sentence_token_onto_defs eq_refl eq_refl eq_refl eq_refl _).
  repeat constructor; exists ANNOTATION; (split; [reflexivity|]); intros _;
    eexists; (split; [reflexivity|]);
    repeat constructor; eexists; (split; [reflexivity | discriminate]).
Defined.

Lemma delete_compact_last_bucket_witness :
  delete_entry_from_doc default_depth sentence_token_doc (JStr "9") ANNOTATION
    (stored sentence_token_doc)
  = Ok (save sentence_token_doc
          (compact_pack [("Sentence", no_attributes); ("Token", no_attributes)]
             [("Sentence", JArr [annotation_row "Sentence" 0 5 7]);
              ("Token", JArr [annotation_row "Token" 0 2 8])])
          (stored sentence_token_doc)).
Proof.
  destruct (delete_compact_last_bucket default_depth sentence_token_doc (JStr "9")
              ANNOTATION (stored sentence_token_doc) _ _
              [("Sentence", JArr [annotation_row "Sentence" 0 5 7])] "Token"
              [annotation_row "Token" 0 2 8; annotation_row "Token" 3 5 9] []
              ["8"; "9"] "9" 1%nat
              sentence_token_onto_defs eq_refl eq_refl eq_refl eq_refl)
    as (pack' & Hdelete & Hset & _).
  - repeat constructor. exists ANNOTATION. split; [reflexivity|]. intros _.
    eexists. split; [reflexivity|].
    repeat constructor. eexists. split; [reflexivity | discriminate].
  - simpl. intros [H | []]. discriminate.
  - reflexivity.
  - reflexivity.
  - reflexivity.
  - constructor.
  - injection Hset as <-. exact Hdelete.
Defined.

Lemma transform_pack_branch depth set_order raw_pack raw_ontology pack_json
    onto_defs previous :
  raw_pack@["py/state"] = Ok pack_json ->
  OntoDefinitions_init raw_ontology = Ok onto_defs ->
  is_previous_version pack_json = Ok previous ->
  transform_pack depth set_order raw_pack raw_ontology
  = (lists <- (if previous then transform_legacy depth set_order onto_defs pack_json
               else transform_compact depth onto_defs pack_json) ;;
     transform_return pack_json lists).
Proof.
  intros Hps Honto Hver. unfold transform_pack, by_version.
  rewrite Hps. cbn [bind]. rewrite Honto. cbn [bind]. rewrite Hver. reflexivity.
Qed.



Lemma assoc_None_not_In key d : Py.assoc key d = None -> ~ In key (map fst d).
Proof.
  induction d as [|[k v] d IH]; simpl; [tauto|].
  destruct (String.eqb_spec key k); [discriminate|].
  intros H [Hk | Hin]; [congruence | now apply IH].
Qed.

Lemma new_entry_prefix_tid entry entry_type kind pre b tail :
  kind = ANNOTATION \/ kind = LINK ->
  new_entry_prefix entry entry_type kind = Ok pre ->
  tagged_tid entry = Ok b ->
  row_tid (JArr (pre ++ tail)) = Ok b.
Proof.
  unfold tagged_tid. intros [-> | ->] H Hb; unfold new_entry_prefix in H;
    cbn [String.eqb] in H; simpl in H;
    apply bind_Ok in H as (c0 & _ & H); apply bind_Ok in H as (c1 & _ & H);
    apply bind_Ok in H as (tid & Htid & H); injection H as <-;
    simpl in Hb; rewrite Htid in Hb; simpl in Hb;
    unfold row_tid, Py.getitem; cbn [Py.as_index];
    change 2 with (Z.of_nat 2);
    rewrite position_in_range by (simpl; lia); exact Hb.
Qed.

(** X8.  On a pack of the new format, [add] of an Annotation or Link entry of
    a type that the pack has neither in [fields] nor in [entries], with an id
    that no row of a bucket of its kind has, followed by [delete] of that id
    and kind, leaves the buckets that were there as they were and the bucket
    of the new type empty. *)
Theorem delete_after_add_compact_new_type depth set_order doc entry entry_tid
    onto_defs pack_state type_name kind F E names pre state b :
  (forall l, NoDup (set_order l)) ->
  OntoDefinitions_init (project_ontology doc) = Ok onto_defs ->
  entry@["py/object"] = Ok (JStr type_name) ->
  get_entry_type depth onto_defs (JStr type_name) = Ok kind ->
  kind = ANNOTATION \/ kind = LINK ->
  (textPack doc)@["py/state"] = Ok pack_state ->
  is_previous_version pack_state = Ok false ->
  path (textPack doc) data_store_fields = Ok (JObj F) ->
  Py.assoc type_name F = None ->
  path (textPack doc) data_store_entries = Ok (JObj E) ->
  Py.assoc type_name E = None ->
  get_attribute_names set_order onto_defs (JStr type_name) = Ok names ->
  new_entry_prefix entry (JStr type_name) kind = Ok pre ->
  entry@["py/state"] = Ok (JObj state) ->
  NoDup (map fst state) ->
  tagged_tid entry = Ok b ->
  Py.str entry_tid = Ok b ->
  Forall (untouched depth onto_defs kind b) E ->
  exists doc' db',
    delete_after_add depth set_order doc entry entry_tid kind = Ok (doc', db') /\
    writes db' = 2%nat /\
    path (textPack doc') data_store_entries = Ok (JObj (E ++ [(type_name, JArr [])])).
Proof.
  intros Hso Honto Hty Hk Hkind Hps Hver HF HnewF HE HnewE Hnames Hpre Hstate Hst
         Hb Htid Huntouched.
  pose proof (get_attribute_names_NoDup _ _ _ _ Hso Hnames) as Hnd.
  destruct (add_compact_new_type set_order onto_defs (textPack doc) entry type_name
              kind F E [] names pre state Hkind HF HnewF HE
              (or_intror (conj HnewE eq_refl)) Hnames Hnd Hpre Hstate Hst)
    as (pack1 & Hadd & _ & HE1 & Hversion).
  destruct (Hversion _ Hps) as (state1 & Hps1 & Hver1). rewrite Hver in Hver1.
  rewrite dict_set_fresh in HE1 by exact HnewE. cbn [app] in HE1.
  set (row := JArr (pre ++ map (attr_value state) names)) in *.
  pose (doc1 := {| textPack := pack1; project_ontology := project_ontology doc |}).
  destruct (set_path_defined _ _ _ (JObj (E ++ [(type_name, JArr (delete 0%nat [row]))])) HE1)
    as (pack2 & Hpack2).
  exists {| textPack := pack2; project_ontology := project_ontology doc |},
         {| row := pack2; writes := 2 |}.
  split; [|split; [reflexivity | exact (path_set_path _ _ _ _ Hpack2)]].
  unfold delete_after_add.
  rewrite (add_entry_to_doc_branch _ _ _ _ _ _ _ _ _ _ Honto Hty Hk Hps Hver).
  rewrite Hadd. cbn [bind save fst snd stored writes].
  rewrite (delete_entry_from_doc_branch depth doc1 entry_tid kind _ onto_defs state1
             false Honto Hps1 Hver1).
  subst doc1. cbn [textPack project_ontology].
  rewrite (delete_compact_spec depth onto_defs pack1 entry_tid kind E type_name [row]
             [] [b] b 0%nat HE1 Htid Huntouched (assoc_None_not_In _ _ HnewE) Hk).
  - rewrite Hpack2. reflexivity.
  - cbn [mapM]. unfold row.
    rewrite (new_entry_prefix_tid _ _ _ _ _ _ Hkind Hpre Hb). reflexivity.
  - simpl. now rewrite String.eqb_refl.
  - constructor.
Qed.

Lemma delete_after_add_compact_new_type_witness :
  exists doc' db',
    delete_after_add default_depth first_seen empty_token_doc token_entry (JStr "7")
      ANNOTATION = Ok (doc', db') /\
    writes db' = 2%nat /\
    path (textPack doc') data_store_entries = Ok (JObj [("Token", JArr [])]).
Proof.
  refine (delete_after_add_compact_new_type default_depth first_seen empty_token_doc
            token_entry (JStr "7") _ _ "Token" ANNOTATION [] [] ["pos"; "lemma"]
            [JInt 0; JInt 2; JInt 7; JStr "Token"] _ "7"
            first_seen_NoDup eq_refl eq_refl eq_refl (or_introl eq_refl) eq_refl eq_refl
            eq_refl eq_refl eq_refl eq_refl eq_refl eq_refl eq_refl _ eq_refl eq_refl _).
  - repeat constructor; rewrite ?list_elem_of_In; simpl; intuition discriminate.
  - constructor.
Defined.

(** ** What the mutators leave alone *)

(** Inversion of a chain of binds, as far as the binds are written out. *)
Ltac binds_inv H :=
  repeat match type of H with
         | bind _ _ = Ok _ =>
             let x := fresh "x" in let Hx := fresh "Hx" in
             apply bind_Ok in H as (x & Hx & H)
         end.

Lemma set_path_frame pre k1 k2 rest rest' : forall x v x',
  set_path x (pre ++ k1 :: rest) v = Ok x' -> k1 <> k2 ->
  path x' (pre ++ k2 :: rest') = path x (pre ++ k2 :: rest').
Proof.
  induction pre as [|k pre IH]; intros x v x' H Hne.
  - cbn [app set_path] in H. apply bind_Ok in H as (y & Hy & H).
    apply bind_Ok in H as (y' & _ & H).
    apply getitem_key_Ok in Hy as (d & -> & Hd).
    simpl in H. injection H as <-.
    cbn [app path Py.getitem]. now rewrite (assoc_dict_set_ne _ _ _ _ Hne).
  - cbn [app set_path] in H. apply bind_Ok in H as (y & Hy & H).
    apply bind_Ok in H as (y' & Hy' & H).
    apply getitem_key_Ok in Hy as (d & -> & Hd).
    simpl in H. injection H as <-.
    cbn [app path Py.getitem]. rewrite assoc_dict_set_eq, Hd. cbn [bind].
    now apply (IH _ _ _ Hy').
Qed.

Lemma same_elsewhere_refl keys pack : same_elsewhere keys pack pack.
Proof. split; [|split]; try reflexivity. eauto. Qed.

Lemma same_elsewhere_trans keys p1 p2 p3 :
  same_elsewhere keys p1 p2 -> same_elsewhere keys p2 p3 -> same_elsewhere keys p1 p3.
Proof.
  intros (H1 & H2 & H5) (H3 & H4 & H6). split; [|split].
  - intros k rest Hk. now rewrite H3, H1.
  - intros k rest Hk. now rewrite H4, H2.
  - intros state Hs. destruct (H5 _ Hs) as (state2 & Hs2). eauto.
Qed.

Lemma same_elsewhere_set_path keys k rest v pack pack' :
  In k keys ->
  set_path pack ("py/state" :: k :: rest) v = Ok pack' ->
  same_elsewhere keys pack pack'.
Proof.
  intros Hin H. split; [|split].
  - intros k' rest' Hk'.
    apply (set_path_frame [] "py/state" k' (k :: rest) rest' _ _ _ H). congruence.
  - intros k' rest' Hk'.
    apply (set_path_frame ["py/state"] k k' rest rest' _ _ _ H).
    intros ->. contradiction.
  - intros state _. cbn [set_path] in H.
    apply bind_Ok in H as (y & Hy & H). apply bind_Ok in H as (y' & _ & H).
    apply getitem_key_Ok in Hy as (d & -> & Hd). simpl in H. injection H as <-.
    exists y'. simpl. now rewrite assoc_dict_set_eq.
Qed.

Lemma list_name_of_In kind :
  String.eqb (list_name_of kind) "" = false ->
  In (list_name_of kind) ["annotations"; "links"].
Proof.
  unfold list_name_of.
  destruct (String.eqb kind ANNOTATION); [simpl; auto|].
  destruct (String.eqb kind LINK); [simpl; auto | discriminate].
Qed.

Lemma add_legacy_frame pack_json entry kind pack_json' :
  add_legacy pack_json entry kind = Ok pack_json' ->
  same_elsewhere ["annotations"; "links"] pack_json pack_json'.
Proof.
  unfold add_legacy. destruct (String.eqb (list_name_of kind) "") eqn:E; cbn [negb].
  - intros H. injection H as <-. apply same_elsewhere_refl.
  - intros H. apply bind_Ok in H as (l & _ & H). apply bind_Ok in H as (l' & _ & H).
    exact (same_elsewhere_set_path _ _ _ _ _ _ (list_name_of_In _ E) H).
Qed.

Lemma edit_legacy_frame pack_json entry kind pack_json' :
  edit_legacy pack_json entry kind = Ok pack_json' ->
  same_elsewhere ["annotations"; "links"] pack_json pack_json'.
Proof.
  unfold edit_legacy, edit_at.
  destruct (String.eqb (list_name_of kind) "") eqn:E; cbn [negb].
  - intros H. injection H as <-. apply same_elsewhere_refl.
  - intros H. apply bind_Ok in H as (x & _ & H). apply bind_Ok in H as (items & _ & H).
    apply bind_Ok in H as (x' & _ & H).
    exact (same_elsewhere_set_path _ _ _ _ _ _ (list_name_of_In _ E) H).
Qed.

Lemma delete_legacy_frame pack_json entry_tid kind delete_index pack_json' :
  delete_legacy pack_json entry_tid kind delete_index = Ok pack_json' ->
  same_elsewhere ["annotations"; "links"] pack_json pack_json'.
Proof.
  unfold delete_legacy.
  destruct (String.eqb (list_name_of kind) "") eqn:E; cbn [negb].
  - intros H. injection H as <-. apply same_elsewhere_refl.
  - intros H. apply bind_Ok in H as (x & _ & H). apply bind_Ok in H as (items & _ & H).
    apply bind_Ok in H as (di & _ & H).
    destruct (0 <=? di).
    + apply bind_Ok in H as (x' & _ & H).
      exact (same_elsewhere_set_path _ _ _ _ _ _ (list_name_of_In _ E) H).
    + injection H as <-. apply same_elsewhere_refl.
Qed.

Lemma data_store_In : In "_data_store" ["_data_store"].
Proof. simpl. auto. Qed.

Lemma same_elsewhere_weaken keys keys' pack pack' :
  incl keys keys' -> same_elsewhere keys pack pack' -> same_elsewhere keys' pack pack'.
Proof.
  intros Hincl (H1 & H2 & H3). split; [exact H1 | split; [|exact H3]].
  intros k rest Hk. apply H2. intros Hin. apply Hk. now apply Hincl.
Qed.

(** The keys of the pack state that a mutator of the given format may
    change. *)
Lemma format_keys_incl (previous : bool) :
  incl (if previous then ["annotations"; "links"] else ["_data_store"])
       ["annotations"; "links"; "_data_store"].
Proof. destruct previous; intros k; simpl; tauto. Qed.

Lemma add_compact_frame set_order onto_defs pack_json entry entry_type kind pack_json' :
  add_compact set_order onto_defs pack_json entry entry_type kind = Ok pack_json' ->
  same_elsewhere ["_data_store"] pack_json pack_json'.
Proof.
  unfold add_compact. intros H.
  apply bind_Ok in H as (type_name & _ & H).
  apply bind_Ok in H as (fields & _ & H).
  apply bind_Ok in H as (known & _ & H).
  apply bind_Ok in H as (pack1 & Hpack1 & H).
  assert (H1 : same_elsewhere ["_data_store"] pack_json pack1).
  { destruct (negb known).
    - apply bind_Ok in Hpack1 as (names & _ & Hpack1).
      apply bind_Ok in Hpack1 as (fields' & _ & Hpack1).
      exact (same_elsewhere_set_path _ _ _ _ _ _ data_store_In Hpack1).
    - injection Hpack1 as <-. apply same_elsewhere_refl. }
  binds_inv H.
  exact (same_elsewhere_trans _ _ _ _ H1
           (same_elsewhere_set_path _ _ _ _ _ _ data_store_In H)).
Qed.

Lemma edit_compact_frame pack_json entry entry_type pack_json' :
  edit_compact pack_json entry entry_type = Ok pack_json' ->
  same_elsewhere ["_data_store"] pack_json pack_json'.
Proof.
  unfold edit_compact, edit_at. intros H. binds_inv H.
  exact (same_elsewhere_set_path _ _ _ _ _ _ data_store_In H).
Qed.

Lemma delete_compact_frame depth onto_defs pack_json entry_tid kind delete_index
    pack_json' :
  delete_compact depth onto_defs pack_json entry_tid kind delete_index = Ok pack_json' ->
  same_elsewhere ["_data_store"] pack_json pack_json'.
Proof.
  unfold delete_compact. intros H. binds_inv H.
  exact (same_elsewhere_set_path _ _ _ _ _ _ data_store_In H).
Qed.

Lemma bind_ret {A} (m : result A) : bind m Ok = m.
Proof. destruct m; reflexivity. Qed.

Lemma path_under_state pack state k rest :
  pack@["py/state"] = Ok state ->
  path pack ("py/state" :: k :: rest) = path state (k :: rest).
Proof. intros H. cbn [path]. now rewrite H. Qed.

Lemma same_elsewhere_state keys pack pack' state state' k rest :
  same_elsewhere keys pack pack' -> ~ In k keys ->
  pack@["py/state"] = Ok state -> pack'@["py/state"] = Ok state' ->
  path state' (k :: rest) = path state (k :: rest).
Proof.
  intros (_ & H & _) Hk Hs Hs'.
  rewrite <- (path_under_state _ _ _ _ Hs), <- (path_under_state _ _ _ _ Hs').
  now apply H.
Qed.

Lemma getitem_same_assoc x k d :
  x@[k] = (JObj d)@[k] -> exists d', x = JObj d' /\ Py.assoc k d' = Py.assoc k d.
Proof.
  destruct x as [| | | |l|d']; simpl; destruct (Py.assoc k d) eqn:E;
    try discriminate.
  - destruct (Py.assoc k d') eqn:E'; [|discriminate].
    intros H. injection H as ->. eauto.
  - destruct (Py.assoc k d') eqn:E'; [discriminate|]. eauto.
Qed.

Lemma is_previous_version_dict state b :
  is_previous_version state = Ok b -> exists d, state = JObj d.
Proof.
  unfold is_previous_version. intros H. apply bind_Ok in H as (v & Hv & _).
  destruct state; try discriminate. eauto.
Qed.

Lemma same_elsewhere_version keys pack pack' state b :
  same_elsewhere keys pack pack' -> ~ In "pack_version" keys ->
  pack@["py/state"] = Ok state -> is_previous_version state = Ok b ->
  exists state', pack'@["py/state"] = Ok state' /\ is_previous_version state' = Ok b.
Proof.
  intros Hsame Hk Hs Hb. destruct (proj2 (proj2 Hsame) _ Hs) as (state' & Hs').
  exists state'. split; [exact Hs'|].
  pose proof (same_elsewhere_state _ _ _ _ _ _ [] Hsame Hk Hs Hs') as E.
  destruct (is_previous_version_dict _ _ Hb) as (d & ->).
  cbn [path] in E. rewrite !bind_ret in E.
  apply getitem_same_assoc in E as (d' & -> & E).
  rewrite <- Hb. unfold is_previous_version, Py.get. now rewrite E.
Qed.

Lemma by_version_Ok {A} state (previous new : result A) a :
  by_version state previous new = Ok a ->
  exists b, is_previous_version state = Ok b /\ (if b then previous else new) = Ok a.
Proof. unfold by_version. intros H. apply bind_Ok in H. exact H. Qed.

Lemma add_entry_to_doc_frame depth set_order doc entry db doc' db' :
  add_entry_to_doc depth set_order doc entry db = Ok (doc', db') ->
  exists state b,
    (textPack doc)@["py/state"] = Ok state /\ is_previous_version state = Ok b /\
    same_elsewhere (if b then ["annotations"; "links"] else ["_data_store"])
      (textPack doc) (textPack doc').
Proof.
  unfold add_entry_to_doc, json_loads, json_dumps. intros H. binds_inv H.
  injection Hx as <-. apply save_spec in H as (<- & _).
  apply by_version_Ok in Hx4 as (b & Hb & Hx4). exists x3, b. split; [assumption | split; [exact Hb|]].
  destruct b; [exact (add_legacy_frame _ _ _ _ Hx4) | exact (add_compact_frame _ _ _ _ _ _ _ Hx4)].
Qed.

Lemma edit_entry_in_doc_frame depth doc entry db doc' db' :
  edit_entry_in_doc depth doc entry db = Ok (doc', db') ->
  exists state b,
    (textPack doc)@["py/state"] = Ok state /\ is_previous_version state = Ok b /\
    same_elsewhere (if b then ["annotations"; "links"] else ["_data_store"])
      (textPack doc) (textPack doc').
Proof.
  unfold edit_entry_in_doc, json_loads, json_dumps. intros H. binds_inv H.
  injection Hx as <-. apply save_spec in H as (<- & _).
  apply by_version_Ok in Hx4 as (b & Hb & Hx4). exists x3, b. split; [assumption | split; [exact Hb|]].
  destruct b; [exact (edit_legacy_frame _ _ _ _ Hx4) | exact (edit_compact_frame _ _ _ _ Hx4)].
Qed.

Lemma delete_entry_from_doc_frame depth doc entry_tid kind db doc' db' :
  delete_entry_from_doc depth doc entry_tid kind db = Ok (doc', db') ->
  exists state b,
    (textPack doc)@["py/state"] = Ok state /\ is_previous_version state = Ok b /\
    same_elsewhere (if b then ["annotations"; "links"] else ["_data_store"])
      (textPack doc) (textPack doc').
Proof.
  unfold delete_entry_from_doc, json_loads, json_dumps. intros H. binds_inv H.
  injection Hx as <-. apply save_spec in H as (<- & _).
  apply by_version_Ok in Hx2 as (b & Hb & Hx2). exists x1, b. split; [assumption | split; [exact Hb|]].
  destruct b; [exact (delete_legacy_frame _ _ _ _ _ Hx2)
              | exact (delete_compact_frame _ _ _ _ _ _ _ Hx2)].
Qed.

Lemma mutators_save_ontology depth set_order doc db :
  (forall entry doc' db',
     add_entry_to_doc depth set_order doc entry db = Ok (doc', db') ->
     project_ontology doc' = project_ontology doc) /\
  (forall entry doc' db',
     edit_entry_in_doc depth doc entry db = Ok (doc', db') ->
     project_ontology doc' = project_ontology doc) /\
  (forall entry_tid parent_type doc' db',
     delete_entry_from_doc depth doc entry_tid parent_type db = Ok (doc', db') ->
     project_ontology doc' = project_ontology doc).
Proof.
  split; [|split].
  - intros entry doc' db' H. unfold add_entry_to_doc in H. binds_inv H.
    apply save_spec in H. tauto.
  - intros entry doc' db' H. unfold edit_entry_in_doc in H. binds_inv H.
    apply save_spec in H. tauto.
  - intros entry_tid parent_type doc' db' H. unfold delete_entry_from_doc in H.
    binds_inv H. apply save_spec in H. tauto.
Qed.

Lemma mutated_frame depth set_order doc db doc' db' :
  mutated depth set_order doc db doc' db' ->
  (exists state b,
     (textPack doc)@["py/state"] = Ok state /\ is_previous_version state = Ok b /\
     same_elsewhere (if b then ["annotations"; "links"] else ["_data_store"])
       (textPack doc) (textPack doc')) /\
  project_ontology doc' = project_ontology doc.
Proof.
  intros [(entry & H) | [(entry & H) | (entry_tid & kind & H)]].
  - split; [exact (add_entry_to_doc_frame _ _ _ _ _ _ _ H)|].
    now apply (proj1 (mutators_save_ontology depth set_order doc db) entry doc' db').
  - split; [exact (edit_entry_in_doc_frame _ _ _ _ _ _ H)|].
    now apply (proj1 (proj2 (mutators_save_ontology depth set_order doc db)) entry doc' db').
  - split; [exact (delete_entry_from_doc_frame _ _ _ _ _ _ _ H)|].
    now apply (proj2 (proj2 (mutators_save_ontology depth set_order doc db))
                 entry_tid kind doc' db').
Qed.

(** X9.  A mutator that returns has changed nothing of the pack outside the
    part of its format: on a pack of the previous format only the lists
    [annotations] and [links] can differ, on a pack of the new format only the
    data store.  The text, the version, [meta], [_meta], [groups] and every
    other key are as they were, the ontology of the document is the same, and
    the version test of the saved pack has the outcome it had before, so a
    pack never changes its format. *)
Theorem mutation_keeps_rest depth set_order doc db doc' db' :
  mutated depth set_order doc db doc' db' ->
  project_ontology doc' = project_ontology doc /\
  exists state state' b,
    (textPack doc)@["py/state"] = Ok state /\
    (textPack doc')@["py/state"] = Ok state' /\
    is_previous_version state = Ok b /\ is_previous_version state' = Ok b /\
    same_elsewhere (if b then ["annotations"; "links"] else ["_data_store"])
      (textPack doc) (textPack doc') /\
    state'@["_text"] = state@["_text"] /\
    state'@["groups"] = state@["groups"] /\
    path state' ["meta"; "py/state"] = path state ["meta"; "py/state"] /\
    path state' ["_meta"; "py/state"] = path state ["_meta"; "py/state"].
Proof.
  intros H. destruct (mutated_frame _ _ _ _ _ _ H) as ((state & b & Hs & Hb & Hfine) & Ho).
  split; [exact Ho|].
  pose proof (same_elsewhere_weaken _ _ _ _ (format_keys_incl b) Hfine) as Hsame.
  destruct (same_elsewhere_version _ _ _ _ _ Hsame ltac:(simpl; intuition discriminate)
              Hs Hb) as (state' & Hs' & Hb').
  exists state, state', b.
  assert (Hkey : forall k rest, ~ In k ["annotations"; "links"; "_data_store"] ->
                 path state' (k :: rest) = path state (k :: rest)).
  { intros k rest Hk. exact (same_elsewhere_state _ _ _ _ _ _ _ Hsame Hk Hs Hs'). }
  repeat split; try assumption; try apply Hfine.
  - specialize (Hkey "_text" [] ltac:(simpl; intuition discriminate)).
    cbn [path] in Hkey. now rewrite !bind_ret in Hkey.
  - specialize (Hkey "groups" [] ltac:(simpl; intuition discriminate)).
    cbn [path] in Hkey. now rewrite !bind_ret in Hkey.
  - apply Hkey. simpl; intuition discriminate.
  - apply Hkey. simpl; intuition discriminate.
Qed.

Lemma mutation_keeps_rest_witness :
  exists doc' db',
    add_entry_to_doc default_depth first_seen one_note_doc second_note
      (stored one_note_doc) = Ok (doc', db') /\
    path (textPack doc') ["py/state"; "_text"] = Ok (JStr "hello") /\
    project_ontology doc' = note_coref_ontology.
Proof.
  eexists _, _. split; [reflexivity|].
  destruct (mutation_keeps_rest default_depth first_seen one_note_doc
              (stored one_note_doc) _ _
              (or_introl (ex_intro _ second_note eq_refl)))
    as (Ho & state & state' & b & Hs & Hs' & _ & _ & _ & Htext & _).
  split; [|exact Ho].
  cbn [path]. rewrite Hs'. cbn [bind]. rewrite Htext.
  injection Hs as <-. reflexivity.
Defined.

Lemma transform_pack_Ok depth set_order raw_pack raw_ontology out :
  transform_pack depth set_order raw_pack raw_ontology = Ok out ->
  exists d lists text attributes,
    raw_pack@["py/state"] = Ok (JObj d) /\
    (JObj d)@["_text"] = Ok text /\
    global_attributes (JObj d) = Ok attributes /\
    out = normalized_pack text lists attributes.
Proof.
  unfold transform_pack. intros H.
  apply bind_Ok in H as (pack_json & Hps & H).
  apply bind_Ok in H as (onto_defs & _ & H).
  apply bind_Ok in H as (lists & Hlists & H).
  apply by_version_Ok in Hlists as (b & Hb & _).
  destruct (is_previous_version_dict _ _ Hb) as (d & ->).
  rewrite transform_return_eq in H.
  apply bind_Ok in H as (text & Ht & H).
  apply bind_Ok in H as (has_meta & Hm & H).
  apply bind_Ok in H as (attributes & Ha & H). injection H as <-.
  exists d, lists, text, attributes. repeat split; try assumption.
  unfold global_attributes. rewrite Hm. exact Ha.
Qed.

Lemma global_attributes_same d d' :
  (JObj d')@["meta"] = (JObj d)@["meta"] ->
  path (JObj d') ["meta"; "py/state"] = path (JObj d) ["meta"; "py/state"] ->
  path (JObj d') ["_meta"; "py/state"] = path (JObj d) ["_meta"; "py/state"] ->
  global_attributes (JObj d') = global_attributes (JObj d).
Proof.
  intros Hm Hmeta Humeta. apply getitem_same_assoc in Hm as (d0 & E0 & Hm).
  injection E0 as <-. unfold global_attributes, Py.contains. rewrite Hm.
  destruct (Py.assoc "meta" d); cbn [bind]; assumption.
Qed.

(** X10.  When a pack decodes before and after a mutation, the decoded text
    and the decoded global attributes are the same: no mutator changes them. *)
Theorem mutation_keeps_text_and_attributes depth set_order doc db doc' db' out out' :
  mutated depth set_order doc db doc' db' ->
  transform_pack depth set_order (textPack doc) (project_ontology doc) = Ok out ->
  transform_pack depth set_order (textPack doc') (project_ontology doc') = Ok out' ->
  out'@["text"] = out@["text"] /\ out'@["attributes"] = out@["attributes"].
Proof.
  intros Hmut Hout Hout'.
  destruct (mutated_frame _ _ _ _ _ _ Hmut) as ((state & b & _ & _ & Hfine) & _).
  pose proof (same_elsewhere_weaken _ _ _ _ (format_keys_incl b) Hfine) as Hsame.
  apply transform_pack_Ok in Hout as (d & lists & text & attrs & Hs & Ht & Ha & ->).
  apply transform_pack_Ok in Hout' as (d' & lists' & text' & attrs' & Hs' & Ht' & Ha' & ->).
  assert (Hkey : forall k rest, ~ In k ["annotations"; "links"; "_data_store"] ->
                 path (JObj d') (k :: rest) = path (JObj d) (k :: rest)).
  { intros k rest Hk. exact (same_elsewhere_state _ _ _ _ _ _ _ Hsame Hk Hs Hs'). }
  assert (Htext : (JObj d')@["_text"] = (JObj d)@["_text"]).
  { specialize (Hkey "_text" [] ltac:(simpl; intuition discriminate)).
    cbn [path] in Hkey. now rewrite !bind_ret in Hkey. }
  assert (Hmeta : (JObj d')@["meta"] = (JObj d)@["meta"]).
  { specialize (Hkey "meta" [] ltac:(simpl; intuition discriminate)).
    cbn [path] in Hkey. now rewrite !bind_ret in Hkey. }
  rewrite (global_attributes_same d d' Hmeta
             (Hkey "meta" ["py/state"] ltac:(simpl; intuition discriminate))
             (Hkey "_meta" ["py/state"] ltac:(simpl; intuition discriminate))) in Ha'.
  rewrite Htext, Ht in Ht'. injection Ht' as ->.
  rewrite Ha in Ha'. injection Ha' as ->.
  split; reflexivity.
Qed.

Lemma mutation_keeps_text_and_attributes_witness :
  (normalized_pack (JStr "hello")
     ([JObj [("span", JObj [("begin", JInt 0); ("end", JInt 5)]);
             ("id", JStr "1"); ("legendId", JStr "Note"); ("attributes", JObj [])];
       JObj [("span", JObj [("begin", JInt 6); ("end", JInt 9)]);
             ("id", JStr "2"); ("legendId", JStr "Note"); ("attributes", JObj [])]],
      [], []) (JObj []))@["text"] = Ok (JStr "hello").
Proof.
  refine (proj1 (mutation_keeps_text_and_attributes default_depth first_seen
                   one_note_doc (stored one_note_doc) _ _
                   (normalized_pack (JStr "hello")
                      ([JObj [("span", JObj [("begin", JInt 0); ("end", JInt 5)]);
                              ("id", JStr "1"); ("legendId", JStr "Note");
                              ("attributes", JObj [])]], [], []) (JObj []))
                   _ (or_introl (ex_intro _ second_note eq_refl)) eq_refl eq_refl)).
Defined.

(** ** The registry of slots is stable *)

Lemma add_compact_fields set_order onto_defs pack_json entry entry_type kind
    pack_json' F :
  add_compact set_order onto_defs pack_json entry entry_type kind = Ok pack_json' ->
  path pack_json data_store_fields = Ok (JObj F) ->
  exists F', path pack_json' data_store_fields = Ok (JObj F') /\
    (F' = F \/
     exists type_name names,
       entry_type = JStr type_name /\ Py.assoc type_name F = None /\
       get_attribute_names set_order onto_defs entry_type = Ok names /\
       F' = F ++ [(type_name, JObj [("attributes", JObj (attribute_slots 0 names []))])]).
Proof.
  unfold add_compact. intros H HF.
  apply bind_Ok in H as (type_name & Hty & H).
  apply bind_Ok in H as (fields & Hfields & H).
  apply bind_Ok in H as (known & Hknown & H).
  apply bind_Ok in H as (pack1 & Hpack1 & H).
  rewrite HF in Hfields. injection Hfields as <-.
  assert (H1 : exists F', path pack1 data_store_fields = Ok (JObj F') /\
    (F' = F \/
     exists type_name names,
       entry_type = JStr type_name /\ Py.assoc type_name F = None /\
       get_attribute_names set_order onto_defs entry_type = Ok names /\
       F' = F ++ [(type_name, JObj [("attributes", JObj (attribute_slots 0 names []))])])).
  { simpl in Hknown. injection Hknown as <-.
    destruct (Py.assoc type_name F) eqn:E; cbn [negb] in Hpack1.
    - injection Hpack1 as <-. eauto.
    - apply bind_Ok in Hpack1 as (names & Hnames & Hpack1).
      cbn [Py.setitem bind] in Hpack1.
      rewrite dict_set_fresh in Hpack1 by exact E.
      eexists. split; [exact (path_set_path _ _ _ _ Hpack1)|].
      right. exists type_name, names. repeat split; try assumption.
      destruct entry_type; try discriminate. simpl in Hty. now injection Hty as ->. }
  destruct H1 as (F' & HF' & Hcases). exists F'. split; [|exact Hcases].
  binds_inv H. rewrite <- HF'.
  exact (set_path_sibling ["py/state"; "_data_store"; "py/state"] "entries" "fields"
           _ _ _ H ltac:(discriminate)).
Qed.

Lemma legacy_frame_fields pack_json pack_json' :
  same_elsewhere ["annotations"; "links"] pack_json pack_json' ->
  path pack_json' data_store_fields = path pack_json data_store_fields.
Proof.
  intros (_ & H & _). apply H. simpl. intuition discriminate.
Qed.

(** X11.  A mutator that returns leaves every slot map of the registry
    [fields] as it was: [edit] and [delete] do not change [fields] at all, and
    [add] either leaves it or appends one entry, for a type that was not in
    it, while the entries that were there stay, in their order. *)
Theorem registry_is_stable depth set_order doc db doc' db' F :
  mutated depth set_order doc db doc' db' ->
  path (textPack doc) data_store_fields = Ok (JObj F) ->
  exists F',
    path (textPack doc') data_store_fields = Ok (JObj F') /\
    (forall t v, Py.assoc t F = Some v -> Py.assoc t F' = Some v) /\
    (F' = F \/
     exists type_name reg, Py.assoc type_name F = None /\ F' = F ++ [(type_name, reg)]) /\
    ((exists entry, edit_entry_in_doc depth doc entry db = Ok (doc', db')) \/
     (exists entry_tid parent_type,
        delete_entry_from_doc depth doc entry_tid parent_type db = Ok (doc', db')) ->
     F' = F).
Proof.
  intros Hmut HF.
  assert (Hsame : forall pack', path pack' data_store_fields = Ok (JObj F) ->
            exists F', path pack' data_store_fields = Ok (JObj F') /\
              (forall t v, Py.assoc t F = Some v -> Py.assoc t F' = Some v) /\
              (F' = F \/ exists type_name reg,
                  Py.assoc type_name F = None /\ F' = F ++ [(type_name, reg)]) /\ F' = F).
  { intros pack' H. exists F. auto 6. }
  assert (Hedit : forall entry, edit_entry_in_doc depth doc entry db = Ok (doc', db') ->
                  path (textPack doc') data_store_fields = Ok (JObj F)).
  { intros entry H. unfold edit_entry_in_doc, json_loads, json_dumps in H. binds_inv H.
    injection Hx as <-. apply save_spec in H as (<- & _).
    apply by_version_Ok in Hx4 as ([] & _ & Hx4).
    - rewrite (legacy_frame_fields _ _ (edit_legacy_frame _ _ _ _ Hx4)). exact HF.
    - unfold edit_compact, edit_at in Hx4. binds_inv Hx4. rewrite <- HF.
      exact (set_path_frame ["py/state"; "_data_store"; "py/state"] "entries" "fields"
               _ [] _ _ _ Hx4 ltac:(discriminate)). }
  assert (Hdelete : forall entry_tid kind,
            delete_entry_from_doc depth doc entry_tid kind db = Ok (doc', db') ->
            path (textPack doc') data_store_fields = Ok (JObj F)).
  { intros entry_tid kind H.
    unfold delete_entry_from_doc, json_loads, json_dumps in H. binds_inv H.
    injection Hx as <-. apply save_spec in H as (<- & _).
    apply by_version_Ok in Hx2 as ([] & _ & Hx2).
    - rewrite (legacy_frame_fields _ _ (delete_legacy_frame _ _ _ _ _ Hx2)). exact HF.
    - unfold delete_compact in Hx2. binds_inv Hx2. rewrite <- HF.
      exact (set_path_sibling ["py/state"; "_data_store"; "py/state"] "entries" "fields"
               _ _ _ Hx2 ltac:(discriminate)). }
  assert (Hstay : (exists entry, edit_entry_in_doc depth doc entry db = Ok (doc', db')) \/
                  (exists entry_tid parent_type,
                     delete_entry_from_doc depth doc entry_tid parent_type db
                     = Ok (doc', db')) ->
                  path (textPack doc') data_store_fields = Ok (JObj F)).
  { intros [(entry & H) | (entry_tid & kind & H)]; eauto. }
  destruct Hmut as [(entry & H) | Hother].
  - unfold add_entry_to_doc, json_loads, json_dumps in H. binds_inv H.
    injection Hx as <-. apply save_spec in H as (<- & _).
    apply by_version_Ok in Hx4 as ([] & _ & Hx4).
    + destruct (Hsame (textPack doc')) as (F' & H1 & H2 & H3 & H4).
      { rewrite (legacy_frame_fields _ _ (add_legacy_frame _ _ _ _ Hx4)). exact HF. }
      exists F'. repeat split; try assumption. intros _. exact H4.
    + destruct (add_compact_fields _ _ _ _ _ _ _ _ Hx4 HF) as (F' & HF' & Hcases).
      exists F'. split; [exact HF'|].
      assert (HF'eq : (exists entry, edit_entry_in_doc depth doc entry db = Ok (doc', db')) \/
                      (exists entry_tid parent_type,
                         delete_entry_from_doc depth doc entry_tid parent_type db
                         = Ok (doc', db')) ->
                      F' = F).
      { intros Hother. specialize (Hstay Hother). rewrite HF' in Hstay.
        now injection Hstay. }
      destruct Hcases as [-> | (ty & names & _ & Hnone & _ & ->)].
      * repeat split; auto.
      * repeat split; [intros t v; apply assoc_app_found | right; eauto | exact HF'eq].
  - destruct (Hsame (textPack doc') (Hstay Hother))
      as (F' & H1 & H2 & H3 & H4).
    exists F'. repeat split; try assumption. intros _. exact H4.
Qed.

Lemma registry_is_stable_witness :
  exists doc' db' F',
    add_entry_to_doc default_depth first_seen
      {| textPack := compact_pack [("Sentence", no_attributes)] [];
         project_ontology := token_ontology |}
      token_entry
      (stored {| textPack := compact_pack [("Sentence", no_attributes)] [];
                 project_ontology := token_ontology |}) = Ok (doc', db') /\
    path (textPack doc') data_store_fields = Ok (JObj F') /\
    Py.assoc "Sentence" F' = Some no_attributes.
Proof.
  destruct (registry_is_stable default_depth first_seen
              {| textPack := compact_pack [("Sentence", no_attributes)] [];
                 project_ontology := token_ontology |}
              (stored {| textPack := compact_pack [("Sentence", no_attributes)] [];
                         project_ontology := token_ontology |}) _ _
              [("Sentence", no_attributes)]
              (or_introl (ex_intro _ token_entry eq_refl)) eq_refl)
    as (F' & HF' & Hkeep & _).
  eexists _, _, F'.
  split; [reflexivity | split; [exact HF' | exact (Hkeep "Sentence" _ eq_refl)]].
Defined.

(** ** Decoding what [add] saved *)

Lemma set_path_two k1 k2 v pack pack' :
  set_path pack [k1; k2] v = Ok pack' ->
  exists top d old,
    pack = JObj top /\ Py.assoc k1 top = Some (JObj d) /\ Py.assoc k2 d = Some old /\
    pack' = JObj (Py.dict_set k1 (JObj (Py.dict_set k2 v d)) top).
Proof.
  cbn [set_path]. intros H.
  apply bind_Ok in H as (state & Hstate & H).
  apply bind_Ok in H as (state' & Hstate' & H).
  apply bind_Ok in Hstate' as (old & Hold & Hset).
  apply getitem_key_Ok in Hstate as (top & -> & Htop).
  apply getitem_key_Ok in Hold as (d & -> & Hd).
  simpl in Hset. injection Hset as <-. simpl in H. injection H as <-.
  exists top, d, old. auto.
Qed.

Lemma transform_return_Ok pack_json lists out :
  transform_return pack_json lists = Ok out <->
  exists text attributes,
    pack_json@["_text"] = Ok text /\ global_attributes pack_json = Ok attributes /\
    out = normalized_pack text lists attributes.
Proof.
  rewrite transform_return_eq. unfold global_attributes. split.
  - intros H. apply bind_Ok in H as (text & Ht & H).
    apply bind_Ok in H as (has_meta & Hm & H).
    apply bind_Ok in H as (attributes & Ha & H). injection H as <-.
    exists text, attributes. rewrite Hm. auto.
  - intros (text & attributes & Ht & Ha & ->). rewrite Ht. cbn [bind].
    apply bind_Ok in Ha as (has_meta & Hm & Ha). rewrite Hm. cbn [bind].
    now rewrite Ha.
Qed.

Lemma transform_return_dict_set d k v lists :
  k <> "_text" -> k <> "meta" -> k <> "_meta" ->
  transform_return (JObj (Py.dict_set k v d)) lists = transform_return (JObj d) lists.
Proof.
  intros H1 H2 H3. rewrite !transform_return_eq.
  cbn [Py.getitem Py.contains path].
  now rewrite !(assoc_dict_set_ne k _ v d) by assumption.
Qed.

Lemma is_previous_version_dict_set d k v :
  k <> "pack_version" ->
  is_previous_version (JObj (Py.dict_set k v d)) = is_previous_version (JObj d).
Proof.
  intros H. unfold is_previous_version, Py.get. now rewrite assoc_dict_set_ne by exact H.
Qed.

Lemma normalized_pack_inj text lists attributes text' lists' attributes' :
  normalized_pack text lists attributes = normalized_pack text' lists' attributes' ->
  text = text' /\ lists = lists' /\ attributes = attributes'.
Proof.
  destruct lists as [[a l] g], lists' as [[a' l'] g']. unfold normalized_pack. simpl.
  intros H. injection H as -> -> -> -> ->. auto.
Qed.

Lemma transform_legacy_add_annotation depth set_order onto_defs d items entry a l g r :
  Py.assoc "annotations" d = Some (JArr items) ->
  transform_legacy depth set_order onto_defs (JObj d) = Ok (a, l, g) ->
  legacy_annotation set_order onto_defs entry = Ok r ->
  transform_legacy depth set_order onto_defs
    (JObj (Py.dict_set "annotations" (JArr (items ++ [entry])) d))
  = Ok (a ++ match r with Some x => [x] | None => [] end, l, g).
Proof.
  intros Hitems H Hr. unfold transform_legacy in *. cbn [Py.getitem] in *.
  rewrite assoc_dict_set_eq.
  rewrite !(assoc_dict_set_ne "annotations" _ _ d) by discriminate.
  rewrite Hitems in H. cbn [bind Py.iter] in *.
  apply bind_Ok in H as (a0 & Ha & H).
  rewrite foldM_app, Ha. cbn [bind foldM]. unfold append_unless_skipped at 1.
  rewrite Hr. cbn [bind].
  apply bind_Ok in H as (ll & Hll & H). rewrite Hll. cbn [bind].
  apply bind_Ok in H as (l0 & Hl & H). rewrite Hl. cbn [bind].
  apply bind_Ok in H as (lg & Hlg & H). rewrite Hlg. cbn [bind].
  apply bind_Ok in H as (g0 & Hg & H). rewrite Hg. cbn [bind].
  injection H as <- <- <-. destruct r; [reflexivity | now rewrite app_nil_r].
Qed.

Lemma transform_legacy_add_link depth set_order onto_defs d items entry a l g r :
  Py.assoc "links" d = Some (JArr items) ->
  transform_legacy depth set_order onto_defs (JObj d) = Ok (a, l, g) ->
  legacy_link set_order onto_defs entry = Ok r ->
  transform_legacy depth set_order onto_defs
    (JObj (Py.dict_set "links" (JArr (items ++ [entry])) d))
  = Ok (a, l ++ match r with Some x => [x] | None => [] end, g).
Proof.
  intros Hitems H Hr. unfold transform_legacy in *. cbn [Py.getitem] in *.
  rewrite assoc_dict_set_eq.
  rewrite !(assoc_dict_set_ne "links" _ _ d) by discriminate.
  rewrite Hitems in H. cbn [bind Py.iter] in *.
  apply bind_Ok in H as (la & Hla & H). rewrite Hla. cbn [bind].
  apply bind_Ok in H as (a0 & Ha & H). rewrite Ha. cbn [bind].
  apply bind_Ok in H as (l0 & Hl & H).
  rewrite foldM_app, Hl. cbn [bind foldM]. unfold append_unless_skipped at 1.
  rewrite Hr. cbn [bind].
  apply bind_Ok in H as (lg & Hlg & H). rewrite Hlg. cbn [bind].
  apply bind_Ok in H as (g0 & Hg & H). rewrite Hg. cbn [bind].
  injection H as <- <- <-. destruct r; [reflexivity | now rewrite app_nil_r].
Qed.

Lemma transform_pack_legacy_inv depth set_order raw_pack raw_ontology onto_defs
    pack_state text lists attributes :
  raw_pack@["py/state"] = Ok pack_state ->
  OntoDefinitions_init raw_ontology = Ok onto_defs ->
  is_previous_version pack_state = Ok true ->
  transform_pack depth set_order raw_pack raw_ontology
  = Ok (normalized_pack text lists attributes) ->
  transform_legacy depth set_order onto_defs pack_state = Ok lists /\
  pack_state@["_text"] = Ok text /\ global_attributes pack_state = Ok attributes.
Proof.
  intros Hps Honto Hver H.
  rewrite (transform_pack_branch _ _ _ _ _ _ _ Hps Honto Hver) in H.
  apply bind_Ok in H as (lists0 & Hl & Hr).
  apply transform_return_Ok in Hr as (text0 & attrs0 & Ht & Ha & E).
  apply normalized_pack_inj in E as (-> & -> & ->). auto.
Qed.

Lemma transform_pack_legacy_update depth set_order raw_ontology onto_defs top d k v
    text lists attributes :
  OntoDefinitions_init raw_ontology = Ok onto_defs ->
  is_previous_version (JObj d) = Ok true ->
  k <> "_text" -> k <> "meta" -> k <> "_meta" -> k <> "pack_version" ->
  (JObj d)@["_text"] = Ok text -> global_attributes (JObj d) = Ok attributes ->
  transform_legacy depth set_order onto_defs (JObj (Py.dict_set k v d)) = Ok lists ->
  transform_pack depth set_order
    (JObj (Py.dict_set "py/state" (JObj (Py.dict_set k v d)) top)) raw_ontology
  = Ok (normalized_pack text lists attributes).
Proof.
  intros Honto Hver H1 H2 H3 H4 Ht Ha Hl.
  rewrite (transform_pack_branch depth set_order _ raw_ontology
             (JObj (Py.dict_set k v d)) onto_defs true).
  - rewrite Hl. cbn [bind]. rewrite transform_return_dict_set by assumption.
    apply transform_return_Ok. eauto.
  - simpl. now rewrite assoc_dict_set_eq.
  - exact Honto.
  - now rewrite is_previous_version_dict_set.
Qed.

(** X12.  On a pack of the previous format that decodes, [add] followed by
    a decode gives the decoded pack with one change: the decoded form of the
    added entry is appended to the annotations, for an entry classified
    Annotation, or to the links, for an entry classified Link (nothing is
    appended when the entry has no state, and there is no check for an id
    that is present already); for an entry of any other kind the decoded
    pack is the same. *)
Theorem decode_after_add_legacy depth set_order doc entry onto_defs entry_type kind
    pack_state text a l g attributes :
  OntoDefinitions_init (project_ontology doc) = Ok onto_defs ->
  entry@["py/object"] = Ok entry_type ->
  get_entry_type depth onto_defs entry_type = Ok kind ->
  (textPack doc)@["py/state"] = Ok pack_state ->
  is_previous_version pack_state = Ok true ->
  transform_pack depth set_order (textPack doc) (project_ontology doc)
  = Ok (normalized_pack text (a, l, g) attributes) ->
  (kind = ANNOTATION ->
   forall items r,
     path (textPack doc) ["py/state"; "annotations"] = Ok (JArr items) ->
     legacy_annotation set_order onto_defs entry = Ok r ->
     decode_after_add depth set_order doc entry
     = Ok (normalized_pack text
             (a ++ match r with Some x => [x] | None => [] end, l, g) attributes)) /\
  (kind = LINK ->
   forall items r,
     path (textPack doc) ["py/state"; "links"] = Ok (JArr items) ->
     legacy_link set_order onto_defs entry = Ok r ->
     decode_after_add depth set_order doc entry
     = Ok (normalized_pack text
             (a, l ++ match r with Some x => [x] | None => [] end, g) attributes)) /\
  (kind <> ANNOTATION -> kind <> LINK ->
   decode_after_add depth set_order doc entry
   = Ok (normalized_pack text (a, l, g) attributes)).
Proof.
  intros Honto Hty Hkind Hps Hver Hdec.
  destruct (transform_pack_legacy_inv _ _ _ _ _ _ _ _ _ Hps Honto Hver Hdec)
    as (Hl & Ht & Ha).
  assert (Hadd : forall name items,
            list_name_of kind = name -> name <> "" ->
            path (textPack doc) ["py/state"; name] = Ok (JArr items) ->
            exists top d,
              pack_state = JObj d /\ Py.assoc name d = Some (JArr items) /\
              add_entry_to_doc depth set_order doc entry (stored doc)
              = Ok (save doc (JObj (Py.dict_set "py/state"
                                     (JObj (Py.dict_set name (JArr (items ++ [entry])) d))
                                     top)) (stored doc))).
  { intros name items Hname Hne Hx.
    destruct (set_path_defined _ _ _ (JArr (items ++ [entry])) Hx) as (pack' & Hpack').
    destruct (set_path_two _ _ _ _ _ Hpack') as (top & d & old & Epack & Htop & Hold & ->).
    rewrite Epack in Hps, Hx. simpl in Hps. rewrite Htop in Hps. injection Hps as <-.
    simpl in Hx. rewrite Htop in Hx. simpl in Hx. rewrite Hold in Hx.
    simpl in Hx. injection Hx as ->.
    exists top, d. split; [reflexivity | split; [exact Hold|]].
    rewrite (add_entry_to_doc_branch depth set_order doc entry (stored doc) onto_defs
               (JObj d) entry_type kind true Honto Hty Hkind); [|now rewrite Epack; simpl; rewrite Htop | exact Hver].
    unfold add_legacy. rewrite Hname.
    destruct (String.eqb_spec name ""); [contradiction|]. cbn [negb].
    rewrite Epack. cbn [path Py.getitem]. rewrite Htop. cbn [bind Py.getitem].
    rewrite Hold. cbn [bind Py.append]. rewrite <- Epack, Hpack'. reflexivity. }
  split; [|split].
  - intros -> items r Hx Hr.
    destruct (Hadd "annotations" items eq_refl ltac:(discriminate) Hx)
      as (top & d & -> & Hitems & Hadd').
    unfold decode_after_add. rewrite Hadd'. cbn [bind save fst textPack project_ontology].
    apply (transform_pack_legacy_update depth set_order _ onto_defs top d);
      try assumption; try discriminate.
    now apply transform_legacy_add_annotation.
  - intros -> items r Hx Hr.
    destruct (Hadd "links" items eq_refl ltac:(discriminate) Hx)
      as (top & d & -> & Hitems & Hadd').
    unfold decode_after_add. rewrite Hadd'. cbn [bind save fst textPack project_ontology].
    apply (transform_pack_legacy_update depth set_order _ onto_defs top d);
      try assumption; try discriminate.
    now apply transform_legacy_add_link.
  - intros Hna Hnl. unfold decode_after_add.
    rewrite (add_entry_to_doc_branch depth set_order doc entry (stored doc) onto_defs
               pack_state entry_type kind true Honto Hty Hkind Hps Hver).
    unfold add_legacy, list_name_of.
    destruct (String.eqb_spec kind ANNOTATION); [contradiction|].
    destruct (String.eqb_spec kind LINK); [contradiction|].
    cbn [String.eqb negb bind save fst textPack project_ontology]. exact Hdec.
Qed.

Lemma decode_after_add_legacy_witness :
  decode_after_add default_depth first_seen one_note_doc second_note
  = Ok (normalized_pack (JStr "hello")
          ([JObj [("span", JObj [("begin", JInt 0); ("end", JInt 5)]);
                  ("id", JStr "1"); ("legendId", JStr "Note"); ("attributes", JObj [])];
            JObj [("span", JObj [("begin", JInt 6); ("end", JInt 9)]);
                  ("id", JStr "2"); ("legendId", JStr "Note"); ("attributes", JObj [])]],
           [], []) (JObj [])).
Proof.
  pose (onto_defs := {| _entries :=
    [("Note", JObj [("entry_name", JStr "Note"); ("parent_entry", JStr annotation_root)]);
     ("Coref", JObj [("entry_name", JStr "Coref"); ("parent_entry", JStr group_root);
                     ("member_type", JStr "Note")])] |}).
  exact (proj1 (decode_after_add_legacy default_depth first_seen one_note_doc second_note
                  onto_defs (JStr "Note") ANNOTATION _ (JStr "hello")
                  [JObj [("span", JObj [("begin", JInt 0); ("end", JInt 5)]);
                         ("id", JStr "1"); ("legendId", JStr "Note");
                         ("attributes", JObj [])]] [] [] (JObj [])
                  eq_refl eq_refl eq_refl eq_refl eq_refl eq_refl)
           eq_refl _ _ eq_refl eq_refl).
Defined.

Lemma getitem_index l n v : l !! n = Some v -> (JArr l)#[Z.of_nat n] = Ok v.
Proof.
  intros H. unfold Py.getitem. cbn [Py.as_index].
  rewrite position_in_range by (apply lookup_lt_Some in H; exact H).
  now rewrite H.
Qed.

Lemma compact_entry_annotation depth onto_defs fields type_name a l g c0 c1 tid legend
    tail id attributes :
  compact_attributes fields type_name (JArr (c0 :: c1 :: tid :: legend :: tail))
  = Ok attributes ->
  Py.str tid = Ok id ->
  compact_entry depth onto_defs fields type_name ANNOTATION (a, l, g)
    (JArr (c0 :: c1 :: tid :: legend :: tail))
  = Ok (a ++ [decoded_annotation c0 c1 id legend attributes], l, g).
Proof.
  intros Hattrs Hid. unfold compact_entry. rewrite Hattrs. cbn [bind].
  change (String.eqb ANNOTATION ANNOTATION) with true. cbv iota.
  pose proof (getitem_index (c0 :: c1 :: tid :: legend :: tail) 0 c0 eq_refl) as H0.
  pose proof (getitem_index (c0 :: c1 :: tid :: legend :: tail) 1 c1 eq_refl) as H1.
  pose proof (getitem_index (c0 :: c1 :: tid :: legend :: tail) 2 tid eq_refl) as H2.
  pose proof (getitem_index (c0 :: c1 :: tid :: legend :: tail) 3 legend eq_refl) as H3.
  change (Z.of_nat 0) with 0 in H0. change (Z.of_nat 1) with 1 in H1.
  change (Z.of_nat 2) with 2 in H2. change (Z.of_nat 3) with 3 in H3.
  rewrite H0, H1, H2, H3.
  cbn [bind]. now rewrite Hid.
Qed.

Lemma compact_entry_link depth onto_defs fields type_name a l g c0 c1 tid legend
    tail id from_id to_id attributes :
  compact_attributes fields type_name (JArr (c0 :: c1 :: tid :: legend :: tail))
  = Ok attributes ->
  Py.str tid = Ok id -> Py.str c0 = Ok from_id -> Py.str c1 = Ok to_id ->
  compact_entry depth onto_defs fields type_name LINK (a, l, g)
    (JArr (c0 :: c1 :: tid :: legend :: tail))
  = Ok (a, l ++ [decoded_link id from_id to_id legend attributes], g).
Proof.
  intros Hattrs Hid Hfrom Hto. unfold compact_entry. rewrite Hattrs. cbn [bind].
  change (String.eqb LINK ANNOTATION) with false.
  change (String.eqb LINK LINK) with true. cbv iota.
  pose proof (getitem_index (c0 :: c1 :: tid :: legend :: tail) 0 c0 eq_refl) as H0.
  pose proof (getitem_index (c0 :: c1 :: tid :: legend :: tail) 1 c1 eq_refl) as H1.
  pose proof (getitem_index (c0 :: c1 :: tid :: legend :: tail) 2 tid eq_refl) as H2.
  pose proof (getitem_index (c0 :: c1 :: tid :: legend :: tail) 3 legend eq_refl) as H3.
  change (Z.of_nat 0) with 0 in H0. change (Z.of_nat 1) with 1 in H1.
  change (Z.of_nat 2) with 2 in H2. change (Z.of_nat 3) with 3 in H3.
  rewrite H0, H1, H2, H3.
  cbn [bind]. now rewrite Hid, Hfrom, Hto.
Qed.

Lemma foldM_ext {A B} (f g : A -> B -> result A) l :
  (forall acc x, In x l -> f acc x = g acc x) ->
  forall acc, foldM f l acc = foldM g l acc.
Proof.
  induction l as [|x l IH]; intros H acc; [reflexivity|]. cbn [foldM].
  rewrite (H acc x) by now left.
  destruct (g acc x); cbn [bind]; [|reflexivity].
  apply IH. intros acc' y Hy. apply H. now right.
Qed.

Lemma compact_attributes_registry_ext F type_name reg t row :
  t <> type_name ->
  compact_attributes (JObj (F ++ [(type_name, reg)])) t row
  = compact_attributes (JObj F) t row.
Proof.
  intros Hne. unfold compact_attributes. cbn [path Py.getitem].
  destruct (Py.assoc t F) as [v|] eqn:E.
  - now rewrite (assoc_app_found _ _ _ _ E).
  - rewrite (assoc_app_fresh _ _ _ E). simpl.
    destruct (String.eqb_spec t type_name); [contradiction | reflexivity].
Qed.

Lemma compact_bucket_registry_ext depth onto_defs F type_name reg acc bucket :
  fst bucket <> type_name ->
  compact_bucket depth onto_defs (JObj (F ++ [(type_name, reg)])) acc bucket
  = compact_bucket depth onto_defs (JObj F) acc bucket.
Proof.
  intros Hne. destruct bucket as [t lst]. unfold compact_bucket.
  destruct (get_entry_type depth onto_defs (JStr t)) as [kind|]; cbn [bind]; [|reflexivity].
  destruct (negb _); [reflexivity|].
  destruct (Py.iter lst) as [rows|]; cbn [bind]; [|reflexivity].
  apply foldM_ext. intros [[a l] g] row _. unfold compact_entry.
  now rewrite compact_attributes_registry_ext by exact Hne.
Qed.

Lemma compact_buckets_registry_ext depth onto_defs F type_name reg buckets acc :
  ~ In type_name (map fst buckets) ->
  foldM (compact_bucket depth onto_defs (JObj (F ++ [(type_name, reg)]))) buckets acc
  = foldM (compact_bucket depth onto_defs (JObj F)) buckets acc.
Proof.
  intros Hnew. apply foldM_ext. intros acc' bucket Hin.
  apply compact_bucket_registry_ext. intros E. apply Hnew. rewrite <- E.
  now apply in_map.
Qed.

Lemma transform_pack_compact_inv depth set_order raw_pack raw_ontology onto_defs
    pack_state text lists attributes :
  raw_pack@["py/state"] = Ok pack_state ->
  OntoDefinitions_init raw_ontology = Ok onto_defs ->
  is_previous_version pack_state = Ok false ->
  transform_pack depth set_order raw_pack raw_ontology
  = Ok (normalized_pack text lists attributes) ->
  transform_compact depth onto_defs pack_state = Ok lists /\
  pack_state@["_text"] = Ok text /\ global_attributes pack_state = Ok attributes.
Proof.
  intros Hps Honto Hver H.
  rewrite (transform_pack_branch _ _ _ _ _ _ _ Hps Honto Hver) in H.
  apply bind_Ok in H as (lists0 & Hl & Hr).
  apply transform_return_Ok in Hr as (text0 & attrs0 & Ht & Ha & E).
  apply normalized_pack_inj in E as (-> & -> & ->). auto.
Qed.

Lemma same_elsewhere_return keys pack pack' state state' text attributes :
  same_elsewhere keys pack pack' ->
  ~ In "_text" keys -> ~ In "meta" keys -> ~ In "_meta" keys ->
  pack@["py/state"] = Ok state -> pack'@["py/state"] = Ok state' ->
  (exists d, state = JObj d) -> (exists d', state' = JObj d') ->
  state@["_text"] = Ok text -> global_attributes state = Ok attributes ->
  forall lists, transform_return state' lists = Ok (normalized_pack text lists attributes).
Proof.
  intros Hsame H1 H2 H3 Hs Hs' (d & ->) (d' & ->) Ht Ha lists.
  apply transform_return_Ok. exists text, attributes. split; [|split; [|reflexivity]].
  - pose proof (same_elsewhere_state _ _ _ _ _ _ [] Hsame H1 Hs Hs') as E.
    cbn [path] in E. rewrite !bind_ret in E. congruence.
  - rewrite <- Ha. apply global_attributes_same.
    + pose proof (same_elsewhere_state _ _ _ _ _ _ [] Hsame H2 Hs Hs') as E.
      cbn [path] in E. now rewrite !bind_ret in E.
    + exact (same_elsewhere_state _ _ _ _ _ _ ["py/state"] Hsame H2 Hs Hs').
    + exact (same_elsewhere_state _ _ _ _ _ _ ["py/state"] Hsame H3 Hs Hs').
Qed.

(** The decode of a pack of the new format whose registry and buckets are
    those of another pack with one type, of one row, added at the end. *)
Lemma transform_compact_new_bucket depth onto_defs state state' F E type_name reg row
    kind acc :
  path state ["_data_store"; "py/state"; "fields"] = Ok (JObj F) ->
  path state ["_data_store"; "py/state"; "entries"] = Ok (JObj E) ->
  path state' ["_data_store"; "py/state"; "fields"]
  = Ok (JObj (F ++ [(type_name, reg)])) ->
  path state' ["_data_store"; "py/state"; "entries"]
  = Ok (JObj (E ++ [(type_name, JArr [row])])) ->
  Py.assoc type_name E = None ->
  get_entry_type depth onto_defs (JStr type_name) = Ok kind ->
  kind = ANNOTATION \/ kind = LINK ->
  transform_compact depth onto_defs state = Ok acc ->
  transform_compact depth onto_defs state'
  = compact_entry depth onto_defs (JObj (F ++ [(type_name, reg)])) type_name kind acc row.
Proof.
  intros HF HE HF' HE' Hnew Hk Hkind Hdec.
  unfold transform_compact in *. rewrite HF, HE in Hdec. rewrite HF', HE'.
  cbn [bind Py.items] in *. rewrite foldM_app.
  rewrite compact_buckets_registry_ext by now apply assoc_None_not_In.
  rewrite Hdec. cbn [bind foldM]. unfold compact_bucket. rewrite Hk. cbn [bind].
  destruct Hkind as [-> | ->]; cbn [String.eqb]; simpl negb; cbv iota;
    cbn [Py.iter bind foldM];
    now destruct (compact_entry _ _ _ _ _ _ _).
Qed.

(** X13.  On a pack of the new format that decodes, [add] of an Annotation
    or Link entry of a type that the pack has neither in [fields] nor in
    [entries], followed by a decode, gives the decoded pack with one record
    appended, to the annotations or to the links by the kind of the type.
    The record has the id of the entry as text and the type as legend; its
    span, or its two ends as text, are the leading columns of the row; and
    its attributes give each attribute name of the type, in the enumeration
    order of [get_attribute_names], the entry's value for it, null where the
    entry has none. *)
Theorem decode_after_add_compact_new_type depth set_order doc entry onto_defs
    pack_state type_name kind F E names c0 c1 tid state id text a l g attributes :
  (forall l, NoDup (set_order l)) ->
  OntoDefinitions_init (project_ontology doc) = Ok onto_defs ->
  entry@["py/object"] = Ok (JStr type_name) ->
  get_entry_type depth onto_defs (JStr type_name) = Ok kind ->
  (textPack doc)@["py/state"] = Ok pack_state ->
  is_previous_version pack_state = Ok false ->
  path (textPack doc) data_store_fields = Ok (JObj F) ->
  Py.assoc type_name F = None ->
  path (textPack doc) data_store_entries = Ok (JObj E) ->
  Py.assoc type_name E = None ->
  get_attribute_names set_order onto_defs (JStr type_name) = Ok names ->
  new_entry_prefix entry (JStr type_name) kind = Ok [c0; c1; tid; JStr type_name] ->
  entry@["py/state"] = Ok (JObj state) ->
  NoDup (map fst state) ->
  Py.str tid = Ok id ->
  transform_pack depth set_order (textPack doc) (project_ontology doc)
  = Ok (normalized_pack text (a, l, g) attributes) ->
  (kind = ANNOTATION ->
   decode_after_add depth set_order doc entry
   = Ok (normalized_pack text
           (a ++ [decoded_annotation c0 c1 id (JStr type_name)
                    (JObj (map (fun n => (n, attr_value state n)) names))], l, g)
           attributes)) /\
  (kind = LINK ->
   forall from_id to_id,
     Py.str c0 = Ok from_id -> Py.str c1 = Ok to_id ->
     decode_after_add depth set_order doc entry
     = Ok (normalized_pack text
             (a, l ++ [decoded_link id from_id to_id (JStr type_name)
                         (JObj (map (fun n => (n, attr_value state n)) names))], g)
             attributes)).
Proof.
  intros Hso Honto Hty Hk Hps Hver HF HnewF HE HnewE Hnames Hpre Hstate Hst Hid Hdec.
  pose proof (get_attribute_names_NoDup _ _ _ _ Hso Hnames) as Hnd.
  destruct (transform_pack_compact_inv _ _ _ _ _ _ _ _ _ Hps Honto Hver Hdec)
    as (Hl & Ht & Ha).
  assert (Hboth : kind = ANNOTATION \/ kind = LINK ->
            exists pack1 state1,
              add_entry_to_doc depth set_order doc entry (stored doc)
              = Ok (save doc pack1 (stored doc)) /\
              pack1@["py/state"] = Ok state1 /\
              is_previous_version state1 = Ok false /\
              (forall lists, transform_return state1 lists
                             = Ok (normalized_pack text lists attributes)) /\
              transform_compact depth onto_defs state1
              = compact_entry depth onto_defs
                  (JObj (F ++ [(type_name,
                                JObj [("attributes", JObj (slots_from 0 names))])]))
                  type_name kind (a, l, g)
                  (JArr ([c0; c1; tid; JStr type_name] ++ map (attr_value state) names))).
  { intros Hkind.
    destruct (add_compact_new_type set_order onto_defs (textPack doc) entry type_name
                kind F E [] names _ state Hkind HF HnewF HE
                (or_intror (conj HnewE eq_refl)) Hnames Hnd Hpre Hstate Hst)
      as (pack1 & Hadd & HF1 & HE1 & Hversion).
    destruct (Hversion _ Hps) as (state1 & Hps1 & Hver1). rewrite Hver in Hver1.
    rewrite dict_set_fresh in HE1 by exact HnewE. cbn [app] in HE1.
    exists pack1, state1. split; [|split; [exact Hps1 | split; [exact Hver1 | split]]].
    - rewrite (add_entry_to_doc_branch _ _ _ _ _ _ _ _ _ _ Honto Hty Hk Hps Hver).
      now rewrite Hadd.
    - apply (same_elsewhere_return ["_data_store"] (textPack doc) pack1 pack_state);
        try assumption;
        try (simpl; intuition discriminate);
        eauto using add_compact_frame, is_previous_version_dict.
    - unfold data_store_fields, data_store_entries in *.
      rewrite (path_under_state _ _ _ _ Hps) in HF.
      rewrite (path_under_state _ _ _ _ Hps) in HE.
      rewrite (path_under_state _ _ _ _ Hps1) in HF1.
      rewrite (path_under_state _ _ _ _ Hps1) in HE1.
      exact (transform_compact_new_bucket depth onto_defs pack_state state1 F E
               type_name _ _ kind (a, l, g) HF HE HF1 HE1 HnewE Hk Hkind Hl). }
  split.
  - intros ->.
    destruct (Hboth (or_introl eq_refl)) as (pack1 & state1 & Hadd & Hps1 & Hver1 & Hr & Hc).
    unfold decode_after_add. rewrite Hadd.
    cbn [bind save fst textPack project_ontology].
    rewrite (transform_pack_branch _ _ _ _ _ _ _ Hps1 Honto Hver1), Hc.
    cbn [app].
    rewrite (compact_entry_annotation depth onto_defs _ type_name a l g c0 c1 tid
               (JStr type_name) _ id (JObj (map (fun n => (n, attr_value state n)) names))).
    + cbn [bind]. apply Hr.
    + exact (compact_attributes_new_row type_name F names [c0; c1; tid; JStr type_name]
               (attr_value state) HnewF Hnd eq_refl).
    + exact Hid.
  - intros -> from_id to_id Hfrom Hto.
    destruct (Hboth (or_intror eq_refl)) as (pack1 & state1 & Hadd & Hps1 & Hver1 & Hr & Hc).
    unfold decode_after_add. rewrite Hadd.
    cbn [bind save fst textPack project_ontology].
    rewrite (transform_pack_branch _ _ _ _ _ _ _ Hps1 Honto Hver1), Hc.
    cbn [app].
    rewrite (compact_entry_link depth onto_defs _ type_name a l g c0 c1 tid
               (JStr type_name) _ id from_id to_id
               (JObj (map (fun n => (n, attr_value state n)) names))).
    + cbn [bind]. apply Hr.
    + exact (compact_attributes_new_row type_name F names [c0; c1; tid; JStr type_name]
               (attr_value state) HnewF Hnd eq_refl).
    + exact Hid.
    + exact Hfrom.
    + exact Hto.
Qed.

Lemma decode_after_add_compact_new_type_witness :
  decode_after_add default_depth first_seen root_row_doc token_entry
  = Ok (normalized_pack (JStr "hello")
          ([decoded_annotation (JInt 0) (JInt 5) "1" (JStr annotation_root) (JObj []);
            decoded_annotation (JInt 0) (JInt 2) "7" (JStr "Token")
              (JObj [("pos", JNull); ("lemma", JStr "be")])], [], [])
          (JObj [])).
Proof.
  refine (proj1 (decode_after_add_compact_new_type default_depth first_seen root_row_doc
                   token_entry _ _ "Token" ANNOTATION _ _ ["pos"; "lemma"]
                   (JInt 0) (JInt 2) (JInt 7) _ "7" (JStr "hello")
                   [decoded_annotation (JInt 0) (JInt 5) "1" (JStr annotation_root)
                      (JObj [])] [] [] (JObj [])
                   first_seen_NoDup eq_refl eq_refl eq_refl eq_refl eq_refl eq_refl
                   eq_refl eq_refl eq_refl eq_refl eq_refl eq_refl _ eq_refl eq_refl)
            eq_refl).
  repeat constructor; rewrite ?list_elem_of_In; simpl; intuition discriminate.
Defined.

(** ** The shape of a decoded pack *)

Lemma foldM_invariant {A B} (I : A -> Prop) (f : A -> B -> result A) l :
  (forall acc x acc', I acc -> f acc x = Ok acc' -> I acc') ->
  forall acc r, I acc -> foldM f l acc = Ok r -> I r.
Proof.
  intros Hstep. induction l as [|x l IH]; intros acc r Hacc H; cbn [foldM] in H.
  - injection H as <-. exact Hacc.
  - apply bind_Ok in H as (acc' & Hx & H). eauto.
Qed.

Lemma get_group_type_range depth self entry_name v :
  get_group_type depth self entry_name = Ok v ->
  v = JStr "annotation" \/ v = JStr "link".
Proof.
  unfold get_group_type. intros H.
  apply bind_Ok in H as (definition & _ & H).
  apply bind_Ok in H as (member_type & _ & H).
  apply bind_Ok in H as (entry_type & _ & H).
  destruct (String.eqb entry_type ANNOTATION); [injection H as <-; now left|].
  destruct (String.eqb entry_type LINK); [injection H as <-; now right|].
  discriminate.
Qed.

Lemma append_unless_skipped_invariant (P : json -> Prop) f :
  (forall x y, f x = Ok (Some y) -> P y) ->
  forall l acc r, Forall P acc ->
    foldM (append_unless_skipped f) l acc = Ok r -> Forall P r.
Proof.
  intros Hf l. apply foldM_invariant. intros acc x acc' Hacc H.
  unfold append_unless_skipped in H. apply bind_Ok in H as ([y|] & Hy & H);
    injection H as <-; [|exact Hacc].
  apply Forall_app. split; [exact Hacc|]. constructor; [eauto | constructor].
Qed.

Lemma legacy_annotation_id set_order onto_defs annotation y :
  legacy_annotation set_order onto_defs annotation = Ok (Some y) -> has_text_id y.
Proof.
  unfold legacy_annotation. intros H.
  apply bind_Ok in H as (entry_data & _ & H).
  destruct (negb (Py.truthy entry_data)); [discriminate|].
  binds_inv H. injection H as <-. eexists. reflexivity.
Qed.

Lemma legacy_link_id set_order onto_defs link y :
  legacy_link set_order onto_defs link = Ok (Some y) -> has_text_id y.
Proof.
  unfold legacy_link. intros H.
  apply bind_Ok in H as (entry_data & _ & H).
  destruct (negb (Py.truthy entry_data)); [discriminate|].
  binds_inv H. injection H as <-. eexists. reflexivity.
Qed.

Lemma legacy_group_shape depth set_order onto_defs group y :
  legacy_group depth set_order onto_defs group = Ok (Some y) ->
  has_text_id y /\ member_type_ok y.
Proof.
  unfold legacy_group. intros H.
  apply bind_Ok in H as (entry_data & _ & H).
  destruct (negb (Py.truthy entry_data)); [discriminate|].
  apply bind_Ok in H as (tid & _ & H).
  apply bind_Ok in H as (id & _ & H).
  apply bind_Ok in H as (members_set & _ & H).
  apply bind_Ok in H as (members & _ & H).
  apply bind_Ok in H as (object & _ & H).
  apply bind_Ok in H as (member_type & Hm & H).
  apply bind_Ok in H as (legend & _ & H).
  apply bind_Ok in H as (attributes & _ & H). injection H as <-.
  split; [eexists; reflexivity|].
  destruct (get_group_type_range _ _ _ _ Hm) as [-> | ->]; [now left | now right].
Qed.

Lemma transform_legacy_shape depth set_order onto_defs pack_json lists :
  transform_legacy depth set_order onto_defs pack_json = Ok lists ->
  decoded_lists_ok lists.
Proof.
  unfold transform_legacy. intros H.
  apply bind_Ok in H as (la & _ & H).
  apply bind_Ok in H as (annotations & Ha & H).
  apply bind_Ok in H as (ll & _ & H).
  apply bind_Ok in H as (links & Hl & H).
  apply bind_Ok in H as (lg & _ & H).
  apply bind_Ok in H as (groups & Hg & H). injection H as <-.
  split; [|split]; cbn [fst snd].
  - eapply append_unless_skipped_invariant; [|constructor|exact Ha].
    intros x y. apply legacy_annotation_id.
  - eapply append_unless_skipped_invariant; [|constructor|exact Hl].
    intros x y. apply legacy_link_id.
  - eapply append_unless_skipped_invariant; [|constructor|exact Hg].
    intros x y. apply legacy_group_shape.
Qed.

Lemma compact_entry_shape depth onto_defs fields entry_type parent_type acc row acc' :
  decoded_lists_ok acc ->
  compact_entry depth onto_defs fields entry_type parent_type acc row = Ok acc' ->
  decoded_lists_ok acc'.
Proof.
  destruct acc as [[a l] g]. intros (Ha & Hl & Hg) H. cbn [fst snd] in *.
  unfold compact_entry in H.
  apply bind_Ok in H as (attributes & _ & H).
  destruct (String.eqb parent_type ANNOTATION).
  { binds_inv H. injection H as <-. split; [|split]; cbn [fst snd]; try assumption.
    apply Forall_app. split; [exact Ha|]. repeat constructor. eexists. reflexivity. }
  destruct (String.eqb parent_type LINK).
  { binds_inv H. injection H as <-. split; [|split]; cbn [fst snd]; try assumption.
    apply Forall_app. split; [exact Hl|]. repeat constructor. eexists. reflexivity. }
  destruct (String.eqb parent_type GROUP).
  - apply bind_Ok in H as (tid & _ & H).
    apply bind_Ok in H as (id & _ & H).
    apply bind_Ok in H as (members_list & _ & H).
    apply bind_Ok in H as (members & _ & H).
    apply bind_Ok in H as (object & _ & H).
    apply bind_Ok in H as (member_type & Hm & H).
    apply bind_Ok in H as (legend & _ & H). injection H as <-.
    split; [|split]; cbn [fst snd]; try assumption.
    apply Forall_app. split; [exact Hg|]. constructor; [|constructor].
    split; [eexists; reflexivity|].
    destruct (get_group_type_range _ _ _ _ Hm) as [-> | ->]; [now left | now right].
  - injection H as <-. now split.
Qed.

Lemma transform_compact_shape depth onto_defs pack_json lists :
  transform_compact depth onto_defs pack_json = Ok lists -> decoded_lists_ok lists.
Proof.
  unfold transform_compact. intros H.
  apply bind_Ok in H as (fields & _ & H).
  apply bind_Ok in H as (buckets & _ & H).
  revert H. apply foldM_invariant; [|repeat split; constructor].
  intros acc [entry_type entry_list] acc' Hacc H. unfold compact_bucket in H.
  apply bind_Ok in H as (parent_type & _ & H).
  destruct (negb _); [injection H as <-; exact Hacc|].
  apply bind_Ok in H as (rows & _ & H).
  revert H. apply foldM_invariant; [|exact Hacc].
  intros acc0 row acc1. apply compact_entry_shape.
Qed.

Lemma bind_raises {A B} (m : result A) (k : A -> result B) :
  (forall a, m = Ok a -> exists e, k a = Raise e) -> exists e, bind m k = Raise e.
Proof. destruct m as [a|e]; cbn [bind]; eauto. Qed.

Lemma foldM_raises {A B} (f : A -> B -> result A) l x :
  In x l -> (forall acc, exists e, f acc x = Raise e) ->
  forall acc, exists e, foldM f l acc = Raise e.
Proof.
  intros Hin Hx. induction l as [|y l IH]; [destruct Hin|]. intros acc.
  cbn [foldM]. destruct Hin as [-> | Hin].
  - destruct (Hx acc) as (e & ->). cbn [bind]. eauto.
  - apply bind_raises. intros acc' _. now apply IH.
Qed.

Lemma get_group_type_other depth self object definition member_type kind :
  entries_get self object (JObj []) = Ok definition ->
  Py.get definition "member_type" JNull = Ok member_type ->
  get_entry_type depth self member_type = Ok kind ->
  kind <> ANNOTATION -> kind <> LINK ->
  get_group_type depth self object = Raise ValueError.
Proof.
  intros Hd Hm Hk Hna Hnl. unfold get_group_type.
  rewrite Hd. cbn [bind]. rewrite Hm. cbn [bind]. rewrite Hk. cbn [bind].
  destruct (String.eqb_spec kind ANNOTATION); [contradiction|].
  destruct (String.eqb_spec kind LINK); [contradiction | reflexivity].
Qed.

Lemma legacy_group_raises depth set_order onto_defs group entry_data object e :
  Py.get group "py/state" JNull = Ok entry_data -> Py.truthy entry_data = true ->
  Py.get group "py/object" JNull = Ok object ->
  get_group_type depth onto_defs object = Raise e ->
  exists e', legacy_group depth set_order onto_defs group = Raise e'.
Proof.
  intros Hs Ht Ho He. unfold legacy_group. rewrite Hs. cbn [bind]. rewrite Ht.
  cbn [negb]. do 4 (apply bind_raises; intros ? _).
  rewrite Ho. cbn [bind]. rewrite He. cbn [bind]. eauto.
Qed.

Lemma transform_legacy_raises depth set_order onto_defs pack_state groups group
    entry_data object e :
  pack_state@["groups"] = Ok (JArr groups) -> In group groups ->
  Py.get group "py/state" JNull = Ok entry_data -> Py.truthy entry_data = true ->
  Py.get group "py/object" JNull = Ok object ->
  get_group_type depth onto_defs object = Raise e ->
  exists e', transform_legacy depth set_order onto_defs pack_state = Raise e'.
Proof.
  intros Hg Hin Hs Ht Ho He. unfold transform_legacy.
  do 4 (apply bind_raises; intros ? _).
  rewrite Hg. cbn [bind Py.iter]. apply bind_raises. intros ? Hfold. exfalso.
  destruct (foldM_raises
              (append_unless_skipped (legacy_group depth set_order onto_defs))
              groups group Hin) with (acc := @nil json) as (e' & E).
  - intros acc. unfold append_unless_skipped.
    destruct (legacy_group_raises depth set_order onto_defs group _ _ _ Hs Ht Ho He)
      as (e' & ->).
    cbn [bind]. eauto.
  - congruence.
Qed.

Lemma transform_compact_raises depth onto_defs pack_state entries type_name rows
    row object e :
  path pack_state ["_data_store"; "py/state"; "entries"] = Ok (JObj entries) ->
  In (type_name, JArr rows) entries ->
  get_entry_type depth onto_defs (JStr type_name) = Ok GROUP ->
  In row rows -> row#[3] = Ok object ->
  get_group_type depth onto_defs object = Raise e ->
  exists e', transform_compact depth onto_defs pack_state = Raise e'.
Proof.
  intros HE Hin Hk Hrow Ho He. unfold transform_compact.
  apply bind_raises. intros fields _. rewrite HE. cbn [bind Py.items].
  apply (foldM_raises _ entries (type_name, JArr rows) Hin).
  intros acc. unfold compact_bucket. rewrite Hk. cbn [bind].
  change (negb _) with false. cbv iota. cbn [bind Py.iter].
  apply (foldM_raises _ rows row Hrow).
  intros [[a l] g]. unfold compact_entry.
  apply bind_raises. intros attributes _.
  change (String.eqb GROUP ANNOTATION) with false.
  change (String.eqb GROUP LINK) with false.
  change (String.eqb GROUP GROUP) with true. cbv iota.
  do 4 (apply bind_raises; intros ? _).
  rewrite Ho. cbn [bind]. rewrite He. cbn [bind]. eauto.
Qed.

(** X14.  Whatever the pack and the ontology, when [transform_pack] returns,
    every annotation, link and group of the result carries its id as text,
    and every group has [memberType] "annotation" or "link".  A pack with a
    group for which [get_group_type] raises does not decode at all: on the
    previous format a group of the list [groups] that has a state, on the
    new format a row of a bucket of a Group type.  [get_group_type] raises
    [ValueError] when the member type of the group's type is classified
    neither Annotation nor Link (a group of groups, a member type that is
    undefined or not declared). *)
Theorem decoded_records_shape depth set_order raw_pack raw_ontology :
  (forall out,
     transform_pack depth set_order raw_pack raw_ontology = Ok out ->
     exists text lists attributes,
       out = normalized_pack text lists attributes /\ decoded_lists_ok lists) /\
  (forall pack_state onto_defs,
     raw_pack@["py/state"] = Ok pack_state ->
     OntoDefinitions_init raw_ontology = Ok onto_defs ->
     (forall groups group entry_data object e,
        is_previous_version pack_state = Ok true ->
        pack_state@["groups"] = Ok (JArr groups) -> In group groups ->
        Py.get group "py/state" JNull = Ok entry_data -> Py.truthy entry_data = true ->
        Py.get group "py/object" JNull = Ok object ->
        get_group_type depth onto_defs object = Raise e ->
        exists e', transform_pack depth set_order raw_pack raw_ontology = Raise e') /\
     (forall entries type_name rows row object e,
        is_previous_version pack_state = Ok false ->
        path pack_state ["_data_store"; "py/state"; "entries"] = Ok (JObj entries) ->
        In (type_name, JArr rows) entries ->
        get_entry_type depth onto_defs (JStr type_name) = Ok GROUP ->
        In row rows -> row#[3] = Ok object ->
        get_group_type depth onto_defs object = Raise e ->
        exists e', transform_pack depth set_order raw_pack raw_ontology = Raise e') /\
     (forall object definition member_type kind,
        entries_get onto_defs object (JObj []) = Ok definition ->
        Py.get definition "member_type" JNull = Ok member_type ->
        get_entry_type depth onto_defs member_type = Ok kind ->
        kind <> ANNOTATION -> kind <> LINK ->
        get_group_type depth onto_defs object = Raise ValueError)).
Proof.
  split.
  - intros out H. unfold transform_pack in H.
    apply bind_Ok in H as (pack_json & _ & H).
    apply bind_Ok in H as (onto_defs & _ & H).
    apply bind_Ok in H as (lists & Hlists & H).
    apply transform_return_Ok in H as (text & attributes & _ & _ & ->).
    exists text, lists, attributes. split; [reflexivity|].
    apply by_version_Ok in Hlists as ([|] & _ & Hl).
    + exact (transform_legacy_shape _ _ _ _ _ Hl).
    + exact (transform_compact_shape _ _ _ _ Hl).
  - intros pack_state onto_defs Hps Honto. split; [|split].
    + intros groups group entry_data object e Hver Hg Hin Hs Ht Ho He.
      rewrite (transform_pack_branch _ _ _ _ _ _ _ Hps Honto Hver).
      destruct (transform_legacy_raises depth set_order onto_defs pack_state groups
                  group entry_data object e Hg Hin Hs Ht Ho He) as (e' & ->).
      cbn [bind]. eauto.
    + intros entries type_name rows row object e Hver HE Hin Hk Hrow Ho He.
      rewrite (transform_pack_branch _ _ _ _ _ _ _ Hps Honto Hver).
      destruct (transform_compact_raises depth onto_defs pack_state entries type_name
                  rows row object e HE Hin Hk Hrow Ho He) as (e' & ->).
      cbn [bind]. eauto.
    + intros object definition member_type kind. apply get_group_type_other.
Qed.

Lemma decoded_records_shape_witness :
  (exists out,
     transform_pack default_depth first_seen (textPack chain_doc)
       (project_ontology chain_doc) = Ok out /\
     exists text lists attributes,
       out = normalized_pack text lists attributes /\ decoded_lists_ok lists) /\
  (exists e,
     transform_pack default_depth first_seen (textPack group_of_groups_doc)
       (project_ontology group_of_groups_doc) = Raise e) /\
  (exists e,
     transform_pack default_depth first_seen (textPack undefined_group_doc)
       (project_ontology undefined_group_doc) = Raise e).
Proof.
  split; [|split].
  - eexists. split; [reflexivity|].
    exact (proj1 (decoded_records_shape default_depth first_seen (textPack chain_doc)
                    (project_ontology chain_doc)) _ eq_refl).
  - refine (proj1 (proj2 (proj2 (decoded_records_shape default_depth first_seen
                                   (textPack group_of_groups_doc)
                                   (project_ontology group_of_groups_doc))
                            _ _ eq_refl eq_refl))
              _ "Chains" _ (JArr [JStr "Chain"; JArr [JInt 9]; JInt 11; JStr "Chains"])
              (JStr "Chains") ValueError eq_refl eq_refl _ eq_refl _ eq_refl eq_refl);
      apply in_eq.
  - destruct (proj2 (decoded_records_shape default_depth first_seen
                       (textPack undefined_group_doc)
                       (project_ontology undefined_group_doc))
                _ _ eq_refl eq_refl) as (Hlegacy & _ & Hvalue).
    refine (Hlegacy _ _ _ (JStr "Nope") ValueError eq_refl eq_refl (in_eq _ _)
              eq_refl eq_refl eq_refl _).
    exact (Hvalue (JStr "Nope") (JObj []) JNull UNKNOWN eq_refl eq_refl eq_refl
             ltac:(discriminate) ltac:(discriminate)).
Defined.

(** ** Results and the recursion limit *)

Lemma returns_also_refl {A} (m : result A) : returns_also m m.
Proof. intros a H. exact H. Qed.

Lemma returns_also_bind {A B} (m m' : result A) (k k' : A -> result B) :
  returns_also m m' -> (forall a, returns_also (k a) (k' a)) ->
  returns_also (bind m k) (bind m' k').
Proof.
  intros Hm Hk b H. apply bind_Ok in H as (a & Ha & Hb).
  rewrite (Hm _ Ha). cbn [bind]. now apply Hk.
Qed.

Lemma returns_also_foldM {A B} (f g : A -> B -> result A) l :
  (forall acc x, returns_also (f acc x) (g acc x)) ->
  forall acc, returns_also (foldM f l acc) (foldM g l acc).
Proof.
  intros Hfg. induction l as [|x l IH]; intros acc; cbn [foldM].
  - apply returns_also_refl.
  - apply returns_also_bind; [apply Hfg | exact IH].
Qed.

(** Splits a goal [returns_also m m'] along the binds and branches that the
    two sides share. *)
Ltac returns_also_step :=
  match goal with
  | |- returns_also ?m ?m => apply returns_also_refl
  | |- returns_also (bind _ _) (bind _ _) => apply returns_also_bind; [|intros ?]
  | |- returns_also (if ?c then _ else _) _ => destruct c
  | |- returns_also (foldM _ _ _) (foldM _ _ _) =>
      apply returns_also_foldM; intros ? ?
  | |- returns_also (match ?x with pair _ _ => _ end) _ => destruct x
  end.

Lemma _is_parent_match_mono depth depth' self entry_name match_name :
  (depth <= depth')%nat ->
  returns_also (_is_parent_match depth self entry_name match_name)
               (_is_parent_match depth' self entry_name match_name).
Proof.
  revert depth' entry_name. induction depth as [|depth IH]; intros depth' entry_name Hle;
    rewrite !_is_parent_match_eq.
  - repeat returns_also_step. discriminate.
  - destruct depth' as [|depth']; [lia|].
    repeat returns_also_step. apply IH. lia.
Qed.

Lemma get_entry_type_mono depth depth' self entry_name :
  (depth <= depth')%nat ->
  returns_also (get_entry_type depth self entry_name)
               (get_entry_type depth' self entry_name).
Proof.
  intros Hle. unfold get_entry_type.
  repeat (returns_also_step || now apply _is_parent_match_mono).
Qed.

Lemma get_group_type_mono depth depth' self entry_name :
  (depth <= depth')%nat ->
  returns_also (get_group_type depth self entry_name)
               (get_group_type depth' self entry_name).
Proof.
  intros Hle. unfold get_group_type.
  repeat (returns_also_step || now apply get_entry_type_mono).
Qed.

Lemma transform_legacy_mono depth depth' set_order onto_defs pack_json :
  (depth <= depth')%nat ->
  returns_also (transform_legacy depth set_order onto_defs pack_json)
               (transform_legacy depth' set_order onto_defs pack_json).
Proof.
  intros Hle. unfold transform_legacy, append_unless_skipped, legacy_group.
  repeat (returns_also_step || now apply get_group_type_mono).
Qed.

Lemma transform_compact_mono depth depth' onto_defs pack_json :
  (depth <= depth')%nat ->
  returns_also (transform_compact depth onto_defs pack_json)
               (transform_compact depth' onto_defs pack_json).
Proof.
  intros Hle. unfold transform_compact, compact_bucket, compact_entry.
  repeat (returns_also_step || now apply get_group_type_mono
          || now apply get_entry_type_mono).
Qed.

(** X15.  A result does not depend on the recursion limit once the limit
    suffices: what [transform_pack] or a mutator returns under one limit it
    returns under every higher one. *)
Theorem results_outlive_recursion_limit depth depth' set_order :
  (depth <= depth')%nat ->
  (forall raw_pack raw_ontology,
     returns_also (transform_pack depth set_order raw_pack raw_ontology)
                  (transform_pack depth' set_order raw_pack raw_ontology)) /\
  (forall doc entry db,
     returns_also (add_entry_to_doc depth set_order doc entry db)
                  (add_entry_to_doc depth' set_order doc entry db)) /\
  (forall doc entry db,
     returns_also (edit_entry_in_doc depth doc entry db)
                  (edit_entry_in_doc depth' doc entry db)) /\
  (forall doc entry_tid parent_type db,
     returns_also (delete_entry_from_doc depth doc entry_tid parent_type db)
                  (delete_entry_from_doc depth' doc entry_tid parent_type db)).
Proof.
  intros Hle. split; [|split; [|split]].
  - intros raw_pack raw_ontology. unfold transform_pack, by_version.
    repeat (returns_also_step || now apply transform_legacy_mono
            || now apply transform_compact_mono).
  - intros doc entry db. unfold add_entry_to_doc.
    repeat (returns_also_step || now apply get_entry_type_mono).
  - intros doc entry db. unfold edit_entry_in_doc.
    repeat (returns_also_step || now apply get_entry_type_mono).
  - intros doc entry_tid parent_type db.
    unfold delete_entry_from_doc, by_version, delete_compact, delete_bucket.
    repeat (returns_also_step || now apply get_entry_type_mono).
Qed.

Lemma results_outlive_recursion_limit_witness :
  transform_pack default_depth first_seen (textPack chain_doc)
    (project_ontology chain_doc)
  = transform_pack 1 first_seen (textPack chain_doc) (project_ontology chain_doc).
Proof.
  refine (proj1 (results_outlive_recursion_limit 1 default_depth first_seen _)
            (textPack chain_doc) (project_ontology chain_doc) _ eq_refl).
  unfold default_depth. lia.
Defined.

(** ** The attributes of a decoded entry *)

Lemma select_declared names kvs :
  NoDup (map fst kvs) ->
  forall acc, (forall k, In k (map fst kvs) -> ~ In k (map fst acc)) ->
    fold_left (fun acc kv =>
                 if existsb (String.eqb (fst kv)) names
                 then Py.dict_set (fst kv) (snd kv) acc else acc) kvs acc
    = acc ++ List.filter (declared names) kvs.
Proof.
  induction kvs as [|[k v] kvs IH]; intros Hnd acc Hfresh; cbn [fold_left List.filter].
  - now rewrite app_nil_r.
  - cbn [map fst] in Hnd. inversion Hnd as [|? ? Hk Hnd']; subst.
    unfold declared at 1. cbn [fst snd].
    destruct (existsb (String.eqb k) names).
    + rewrite dict_set_fresh by (apply assoc_not_In, Hfresh; now left).
      rewrite IH; [now rewrite <- app_assoc | exact Hnd' |].
      intros k' Hin. rewrite map_app, in_app_iff. cbn [map fst In].
      intros [H | [E | []]].
      * revert H. apply Hfresh. now right.
      * subst k'. apply Hk. now apply list_elem_of_In.
    + apply IH; [exact Hnd'|]. intros k' Hin. apply Hfresh. now right.
Qed.

(** X16.  The attributes that the decoder of the previous format gives an
    entry are the items of the entry's state whose key is an attribute name
    of the entry's type, in the order of the state and with their values as
    stored; the other items of the state ([_tid], [_span], ...) are left
    out, and an attribute that the state lacks is not made up. *)
Theorem get_attributes_selects_declared set_order onto_defs entry entry_name names state :
  entry@["py/object"] = Ok entry_name ->
  get_attribute_names set_order onto_defs entry_name = Ok names ->
  entry@["py/state"] = Ok (JObj state) ->
  NoDup (map fst state) ->
  get_attributes set_order onto_defs entry
  = Ok (JObj (List.filter (declared names) state)).
Proof.
  intros Hty Hnames Hstate Hnd. unfold get_attributes.
  rewrite Hty. cbn [bind]. rewrite Hnames. cbn [bind]. rewrite Hstate.
  cbn [bind Py.items]. rewrite (select_declared names state Hnd []); [reflexivity|].
  intros k _ [].
Qed.

Lemma get_attributes_selects_declared_witness :
  get_attributes first_seen token_registry token_entry
  = Ok (JObj [("lemma", JStr "be")]).
Proof.
  refine (get_attributes_selects_declared first_seen token_registry token_entry
            (JStr "Token")
            ["pos"; "lemma"] _ eq_refl eq_refl eq_refl _).
  repeat constructor; rewrite ?list_elem_of_In; simpl; intuition discriminate.
Defined.

(** ** The registry of an ontology *)

Lemma find_snoc {A} (p : A -> bool) l x :
  List.find p (l ++ [x])
  = match List.find p l with Some y => Some y | None => if p x then Some x else None end.
Proof.
  induction l as [|y l IH]; cbn [app List.find]; [reflexivity|].
  now destruct (p y).
Qed.

Lemma registry_fold name definitions :
  forall acc es,
    foldM (fun acc definition =>
             name <- definition@["entry_name"] ;;
             k <- Py.as_key name ;;
             Ok (Py.dict_set k definition acc)) definitions acc = Ok es ->
    Py.assoc name es
    = match last_definition name definitions with
      | Some d => Some d
      | None => Py.assoc name acc
      end.
Proof.
  unfold last_definition.
  induction definitions as [|d rest IH]; intros acc es H; cbn [foldM] in H.
  - injection H as <-. reflexivity.
  - apply bind_Ok in H as (acc1 & Hd & H).
    apply bind_Ok in Hd as (n & Hn & Hd).
    apply bind_Ok in Hd as (k & Hk & Hd). injection Hd as <-.
    rewrite (IH _ _ H). cbn [rev]. rewrite find_snoc.
    destruct (List.find (names_entry name) (rev rest)); [reflexivity|].
    unfold names_entry. rewrite Hn.
    destruct n; try discriminate. injection Hk as ->.
    destruct (String.eqb_spec k name) as [->|Hne].
    + apply assoc_dict_set_eq.
    + now apply assoc_dict_set_ne.
Qed.

(** X17.  The registry that [OntoDefinitions] builds maps a name to the last
    of the ontology's definitions that carries it as [entry_name], and has
    no entry for a name that no definition carries; an ontology without
    [definitions] gives the empty registry. *)
Theorem registry_last_definition_wins raw_ontology onto_defs definitions :
  OntoDefinitions_init raw_ontology = Ok onto_defs ->
  Py.get raw_ontology "definitions" (JArr []) = Ok (JArr definitions) ->
  (forall name,
     Py.assoc name (_entries onto_defs) = last_definition name definitions) /\
  (definitions = [] -> _entries onto_defs = []).
Proof.
  unfold OntoDefinitions_init. intros H Hdefs. rewrite Hdefs in H.
  cbn [bind Py.iter] in H. apply bind_Ok in H as (es & Hes & H). injection H as <-.
  cbn [_entries]. split.
  - intros name. rewrite (registry_fold name definitions [] es Hes).
    now destruct (last_definition name definitions).
  - intros ->. cbn [foldM] in Hes. now injection Hes as <-.
Qed.

Lemma registry_last_definition_wins_witness :
  exists onto_defs,
    OntoDefinitions_init redefined_ontology = Ok onto_defs /\
    Py.assoc "Note" (_entries onto_defs)
    = Some (JObj [("entry_name", JStr "Note"); ("parent_entry", JStr annotation_root)]) /\
    get_entry_type default_depth onto_defs (JStr "Note") = Ok ANNOTATION.
Proof.
  eexists. split; [reflexivity|]. split; [|reflexivity].
  exact (proj1 (registry_last_definition_wins redefined_ontology _ _ eq_refl eq_refl)
           "Note").
Defined.

(** ** Items without state *)

Lemma delete_scan_raises tid_of entry_tid items item e :
  In item items -> tid_of item = Raise e ->
  forall index delete_index,
    exists e', delete_scan tid_of entry_tid items index delete_index = Raise e'.
Proof.
  intros Hin He. induction items as [|x items IH]; [contradiction|].
  intros index delete_index. cbn [delete_scan].
  destruct Hin as [-> | Hin].
  - rewrite He. cbn [bind]. eauto.
  - destruct (tid_of x); cbn [bind]; [|eauto].
    destruct (Py.str entry_tid); cbn [bind]; [|eauto].
    now apply IH.
Qed.

Lemma edit_scan_raises entry items item e :
  In item items -> tagged_tid item = Raise e ->
  forall index x, exists e', edit_scan entry items index x = Raise e'.
Proof.
  intros Hin He. induction items as [|y items IH]; [contradiction|].
  intros index x. cbn [edit_scan].
  destruct Hin as [-> | Hin].
  - rewrite He. cbn [bind]. eauto.
  - destruct (tagged_tid y); cbn [bind]; [|eauto].
    destruct (tagged_tid entry); cbn [bind]; [|eauto].
    destruct (if String.eqb _ _ then _ else _); cbn [bind]; [|eauto].
    now apply IH.
Qed.

Lemma tagged_tid_stateless d :
  Py.assoc "py/state" d = None -> tagged_tid (JObj d) = Raise KeyError.
Proof. intros H. unfold tagged_tid. cbn [path Py.getitem]. now rewrite H. Qed.

(** X18.  An item of a list of the previous format that has no [py/state]
    is skipped by the decoder, yet it makes every [delete] on the list, and
    every [edit] of an entry of the list's kind, raise, whatever the id
    asked for: the scans of the two read the state of every item. *)
Theorem stateless_item_blocks_mutation depth doc onto_defs pack_state kind items d :
  OntoDefinitions_init (project_ontology doc) = Ok onto_defs ->
  (textPack doc)@["py/state"] = Ok pack_state ->
  is_previous_version pack_state = Ok true ->
  kind = ANNOTATION \/ kind = LINK ->
  path (textPack doc) ["py/state"; list_name_of kind] = Ok (JArr items) ->
  In (JObj d) items ->
  Py.assoc "py/state" d = None ->
  (forall set_order,
     legacy_annotation set_order onto_defs (JObj d) = Ok None /\
     legacy_link set_order onto_defs (JObj d) = Ok None) /\
  (forall entry_tid db,
     exists e, delete_entry_from_doc depth doc entry_tid kind db = Raise e) /\
  (forall entry entry_type db,
     entry@["py/object"] = Ok entry_type ->
     get_entry_type depth onto_defs entry_type = Ok kind ->
     exists e, edit_entry_in_doc depth doc entry db = Raise e).
Proof.
  intros Honto Hps Hver Hkind Hitems Hin Hd.
  pose proof (tagged_tid_stateless d Hd) as Htid.
  assert (Hname : negb (String.eqb (list_name_of kind) "") = true)
    by (destruct Hkind as [-> | ->]; reflexivity).
  split; [|split].
  - intros set_order. unfold legacy_annotation, legacy_link, Py.get.
    rewrite Hd. split; reflexivity.
  - intros entry_tid db.
    rewrite (delete_entry_from_doc_branch _ _ _ _ _ _ _ _ Honto Hps Hver).
    unfold delete_legacy. rewrite Hname, Hitems. cbn [bind Py.iter].
    destruct (delete_scan_raises tagged_tid entry_tid items _ _ Hin Htid 0 (-1))
      as (e & ->).
    cbn [bind]. eauto.
  - intros entry entry_type db Hty Hk.
    rewrite (edit_entry_in_doc_branch _ _ _ _ _ _ _ _ _ Honto Hty Hk Hps Hver).
    unfold edit_legacy, edit_at. rewrite Hname, Hitems. cbn [bind Py.iter].
    destruct (edit_scan_raises entry items _ _ Hin Htid 0%nat (JArr items)) as (e & ->).
    cbn [bind]. eauto.
Qed.

Lemma stateless_item_blocks_mutation_witness :
  transform_pack default_depth first_seen (textPack stateless_item_doc)
    (project_ontology stateless_item_doc)
  = transform_pack default_depth first_seen (textPack one_note_doc)
      (project_ontology one_note_doc) /\
  exists e, delete_entry_from_doc default_depth stateless_item_doc (JInt 1) ANNOTATION
              (stored stateless_item_doc) = Raise e.
Proof.
  split; [reflexivity|].
  refine (proj1 (proj2 (stateless_item_blocks_mutation default_depth stateless_item_doc
                          _ _ ANNOTATION _ [("py/object", JStr "Note")]
                          eq_refl eq_refl eq_refl (or_introl eq_refl) eq_refl _ eq_refl))
            (JInt 1) (stored stateless_item_doc)).
  right. left. reflexivity.
Defined.

(** ** Access to documents and projects *)

Import Access.

Lemma get_object_or_404_Returns {A} (pk_of : A -> nat) table id r :
  get_object_or_404 pk_of table id = Returns r -> In r table /\ pk_of r = id.
Proof.
  unfold get_object_or_404.
  destruct (List.find _ table) as [r'|] eqn:E; [|discriminate].
  intros H. injection H as ->. apply find_some in E as (Hin & Hpk).
  split; [exact Hin | now apply Nat.eqb_eq].
Qed.

Lemma get_object_or_404_Raises {A} (pk_of : A -> nat) table id e :
  get_object_or_404 pk_of table id = Raises e <->
  e = Http404 /\ forall r, In r table -> pk_of r <> id.
Proof.
  unfold get_object_or_404.
  destruct (List.find _ table) as [r'|] eqn:E; split.
  - discriminate.
  - intros (_ & Hnone). apply find_some in E as (Hin & Hpk).
    apply Nat.eqb_eq in Hpk. now destruct (Hnone _ Hin).
  - intros H. injection H as <-. split; [reflexivity|].
    intros r Hin Hpk. pose proof (find_none _ _ E r Hin) as Hne. cbv beta in Hne.
    apply Nat.eqb_neq in Hne. contradiction.
  - now intros (-> & _).
Qed.

(** X19.  [fetch_doc_check_perm] and [fetch_project_check_perm] answer
    "not found" exactly when no row has the id, whoever asks and whatever
    the permission; the owner of the project is never refused, whatever the
    permission backend says; a row that is returned has the id asked for
    and a project that the user owns or has the permission on; and a
    refusal tells that a row of that id exists. *)
Theorem fetch_check_perm_outcomes {User} (user_eqb : User -> User -> bool) has_perm
    documents projects id user perm :
  let of_doc := fetch_doc_check_perm user_eqb has_perm documents id user perm in
  let of_project := fetch_project_check_perm user_eqb has_perm projects id user perm in
  let allowed project :=
    has_perm user perm project = true \/ user_eqb user (project_user project) = true in
  (of_doc = Raises Http404 <-> forall doc, In doc documents -> document_pk doc <> id) /\
  (of_project = Raises Http404 <->
   forall project, In project projects -> project_pk project <> id) /\
  (forall doc, get_object_or_404 document_pk documents id = Returns doc ->
     user_eqb user (project_user (document_project doc)) = true ->
     of_doc = Returns doc) /\
  (forall project, get_object_or_404 project_pk projects id = Returns project ->
     user_eqb user (project_user project) = true -> of_project = Returns project) /\
  (forall doc, of_doc = Returns doc ->
     In doc documents /\ document_pk doc = id /\ allowed (document_project doc)) /\
  (forall project, of_project = Returns project ->
     In project projects /\ project_pk project = id /\ allowed project) /\
  (of_doc = Raises PermissionDenied ->
   exists doc, In doc documents /\ document_pk doc = id /\
               ~ allowed (document_project doc)) /\
  (of_project = Raises PermissionDenied ->
   exists project, In project projects /\ project_pk project = id /\ ~ allowed project).
Proof.
  cbv zeta. unfold fetch_doc_check_perm, fetch_project_check_perm, check_perm_project.
  split; [|split; [|split; [|split; [|split; [|split; [|split]]]]]].
  - destruct (get_object_or_404 document_pk documents id) as [doc|e] eqn:E.
    + apply get_object_or_404_Returns in E as (Hin & Hpk).
      split; [destruct (_ && _); discriminate | intros H; now destruct (H _ Hin)].
    + apply get_object_or_404_Raises in E as (-> & Hnone). tauto.
  - destruct (get_object_or_404 project_pk projects id) as [project|e] eqn:E.
    + apply get_object_or_404_Returns in E as (Hin & Hpk).
      split; [destruct (_ && _); discriminate | intros H; now destruct (H _ Hin)].
    + apply get_object_or_404_Raises in E as (-> & Hnone). tauto.
  - intros doc -> ->. now rewrite andb_false_r.
  - intros project -> ->. now rewrite andb_false_r.
  - intros doc.
    destruct (get_object_or_404 document_pk documents id) as [doc'|e] eqn:E;
      [|discriminate].
    apply get_object_or_404_Returns in E as (Hin & Hpk).
    destruct (has_perm user perm (document_project doc')) eqn:Hp;
      [intros H; injection H as <-; tauto|].
    destruct (user_eqb user (project_user (document_project doc'))) eqn:Hu;
      [intros H; injection H as <-; tauto | discriminate].
  - intros project.
    destruct (get_object_or_404 project_pk projects id) as [project'|e] eqn:E;
      [|discriminate].
    apply get_object_or_404_Returns in E as (Hin & Hpk).
    destruct (has_perm user perm project') eqn:Hp;
      [intros H; injection H as <-; tauto|].
    destruct (user_eqb user (project_user project')) eqn:Hu;
      [intros H; injection H as <-; tauto | discriminate].
  - destruct (get_object_or_404 document_pk documents id) as [doc|e] eqn:E.
    + destruct (has_perm user perm (document_project doc)) eqn:Hp; [discriminate|].
      destruct (user_eqb user (project_user (document_project doc))) eqn:Hu;
        [discriminate|].
      intros _. exists doc. apply get_object_or_404_Returns in E as (Hin & Hpk).
      split; [exact Hin | split; [exact Hpk|]]. intros [H | H]; congruence.
    + intros H. injection H as ->. apply get_object_or_404_Raises in E as (E & _).
      discriminate.
  - destruct (get_object_or_404 project_pk projects id) as [project|e] eqn:E.
    + destruct (has_perm user perm project) eqn:Hp; [discriminate|].
      destruct (user_eqb user (project_user project)) eqn:Hu; [discriminate|].
      intros _. exists project. apply get_object_or_404_Returns in E as (Hin & Hpk).
      split; [exact Hin | split; [exact Hpk|]]. intros [H | H]; congruence.
    + intros H. injection H as ->. apply get_object_or_404_Raises in E as (E & _).
      discriminate.
Qed.

(** ** Repeating an [edit] *)

Lemma replace_matching_ids entry b : forall items ids,
  tagged_tid entry = Ok b -> mapM tagged_tid items = Ok ids ->
  mapM tagged_tid (replace_matching entry b items ids) = Ok ids.
Proof.
  intros items ids Hb. revert ids.
  induction items as [|item items IH]; intros ids H.
  - injection H as <-. reflexivity.
  - apply mapM_cons_Ok in H as (a & ids' & Ha & Hids & ->).
    cbn [replace_matching]. apply mapM_cons_Ok. exists a, ids'.
    split; [|split; [now apply IH | reflexivity]].
    destruct (String.eqb_spec a b) as [->|]; assumption.
Qed.

Lemma replace_matching_twice entry b : forall items ids,
  replace_matching entry b (replace_matching entry b items ids) ids
  = replace_matching entry b items ids.
Proof.
  induction items as [|item items IH]; intros [|a ids]; cbn [replace_matching];
    try reflexivity.
  rewrite IH. now destruct (String.eqb a b).
Qed.

(** X21.  On a pack of the previous format, an [edit] of an Annotation or
    Link entry that is repeated changes nothing more: the second call saves
    the pack that the first one saved. *)
Theorem edit_legacy_twice depth doc entry db onto_defs pack_state entry_type kind
    items ids b :
  OntoDefinitions_init (project_ontology doc) = Ok onto_defs ->
  entry@["py/object"] = Ok entry_type ->
  get_entry_type depth onto_defs entry_type = Ok kind ->
  kind = ANNOTATION \/ kind = LINK ->
  (textPack doc)@["py/state"] = Ok pack_state ->
  is_previous_version pack_state = Ok true ->
  path (textPack doc) ["py/state"; list_name_of kind] = Ok (JArr items) ->
  mapM tagged_tid items = Ok ids ->
  tagged_tid entry = Ok b ->
  exists doc' db',
    edit_entry_in_doc depth doc entry db = Ok (doc', db') /\
    edit_entry_in_doc depth doc' entry db'
    = Ok (doc', {| row := textPack doc'; writes := S (S (writes db)) |}).
Proof.
  intros Honto Hty Hkind Hk Hps Hver Hx Hids Hb.
  destruct (set_path_defined _ _ _ (JArr (replace_matching entry b items ids)) Hx)
    as (pack1 & Hpack1).
  pose proof (path_set_path _ _ _ _ Hpack1) as Hx1.
  destruct (set_path_state_version _ _ _ _ _ Hpack1 (list_name_of_not_version _ Hk))
    as (s0 & state1 & Hs0 & Hps1 & Hver1).
  rewrite Hps in Hs0. injection Hs0 as <-. rewrite Hver in Hver1.
  pose (doc1 := {| textPack := pack1; project_ontology := project_ontology doc |}).
  exists doc1, {| row := pack1; writes := S (writes db) |}. split.
  - rewrite (edit_entry_in_doc_branch _ _ _ _ _ _ _ _ _ Honto Hty Hkind Hps Hver).
    now rewrite (edit_legacy_spec _ _ _ _ _ _ Hk Hx Hids Hb), Hpack1.
  - rewrite (edit_entry_in_doc_branch depth doc1 entry _ onto_defs state1 entry_type
               kind true Honto Hty Hkind Hps1 Hver1).
    subst doc1. cbn [textPack project_ontology].
    rewrite (edit_legacy_spec _ _ _ _ _ _ Hk Hx1
               (replace_matching_ids entry b items ids Hb Hids) Hb).
    rewrite replace_matching_twice, (set_path_same _ _ _ Hx1). reflexivity.
Qed.

Lemma edit_legacy_twice_witness :
  exists doc' db',
    edit_entry_in_doc default_depth duplicate_ids_doc
      (annotation_entry "Note" 7 8 (JStr "1")) (stored duplicate_ids_doc)
    = Ok (doc', db') /\
    edit_entry_in_doc default_depth doc' (annotation_entry "Note" 7 8 (JStr "1")) db'
    = Ok (doc', {| row := textPack doc';
                   writes := S (S (writes (stored duplicate_ids_doc))) |}).
Proof.
  pose (onto_defs := {| _entries :=
    [("Note", JObj [("entry_name", JStr "Note"); ("parent_entry", JStr annotation_root)]);
     ("Coref", JObj [("entry_name", JStr "Coref"); ("parent_entry", JStr group_root);
                     ("member_type", JStr "Note")])] |}).
  exact (edit_legacy_twice default_depth duplicate_ids_doc
           (annotation_entry "Note" 7 8 (JStr "1")) (stored duplicate_ids_doc)
           onto_defs _ (JStr "Note") ANNOTATION _ ["1"; "2"; "1"] "1"
           eq_refl eq_refl eq_refl (or_introl eq_refl) eq_refl eq_refl eq_refl
           eq_refl eq_refl).
Defined.

(** ** A new type in the registry *)

(** A slot beyond the row cannot be filled. *)
Lemma fill_slots_beyond names state k v i : forall new_entry,
  In (k, v) state -> index_of k names = Some i ->
  (length new_entry <= 4 + i)%nat ->
  foldM (fill_slot (JObj (slots_from 0 names))) state new_entry = Raise IndexError.
Proof.
  induction state as [|[k0 v0] state IH]; intros new_entry Hin Hi Hlen; [destruct Hin|].
  cbn [foldM]. unfold fill_slot at 1, Py.contains, Py.getitem. cbn [fst snd].
  rewrite assoc_slots_from.
  destruct (index_of k0 names) as [j|] eqn:Hj; cbn [bind].
  - unfold Py.list_setitem, Py.position. cbn [Py.as_index].
    replace (0 <=? 4 + Z.of_nat (0 + j)) with true by (symmetry; apply Z.leb_le; lia).
    destruct (Z.ltb_spec (4 + Z.of_nat (0 + j)) (Z.of_nat (length new_entry)));
      cbn [bind]; [|reflexivity].
    apply IH; [|exact Hi | rewrite length_insert; exact Hlen].
    destruct Hin as [E | Hin]; [|exact Hin].
    injection E as -> ->. rewrite Hi in Hj. injection Hj as <-. lia.
  - apply IH; [|exact Hi | exact Hlen].
    destruct Hin as [E | Hin]; [|exact Hin].
    injection E as -> ->. congruence.
Qed.

(** What [add_compact] does for a type that [fields] does not know and
    that is neither an Annotation nor a Link, when the entry carries an
    attribute whose slot lies beyond the padding. *)
Lemma add_compact_other_kind set_order onto_defs pack_json entry type_name kind
    F names state k v i :
  kind <> ANNOTATION -> kind <> LINK ->
  path pack_json data_store_fields = Ok (JObj F) ->
  Py.assoc type_name F = None ->
  get_attribute_names set_order onto_defs (JStr type_name) = Ok names ->
  NoDup names ->
  entry@["py/state"] = Ok (JObj state) ->
  In (k, v) state -> index_of k names = Some i -> (length names <= 4 + i)%nat ->
  add_compact set_order onto_defs pack_json entry (JStr type_name) kind
  = Raise IndexError.
Proof.
  intros Hna Hnl HF Hnew Hnames Hnd Hstate Hin Hi Hlen.
  set (registry := F ++ [(type_name, JObj [("attributes", JObj (slots_from 0 names))])]).
  destruct (set_path_defined _ _ _ (JObj registry) HF) as (pack1 & Hpack1).
  assert (HF1 : path pack1 data_store_fields = Ok (JObj registry))
    by exact (path_set_path _ _ _ _ Hpack1).
  unfold add_compact. cbn [Py.as_key bind]. rewrite HF. cbn [bind Py.contains].
  rewrite Hnew. cbn [negb bind]. rewrite Hnames. cbn [bind Py.setitem].
  rewrite (attribute_slots_fresh names Hnd).
  rewrite dict_set_fresh by exact Hnew.
  fold registry. rewrite Hpack1. cbn [bind].
  rewrite path_app, HF1. cbn [bind].
  unfold registry. rewrite (registry_attributes _ _ _ Hnew). cbn [bind].
  unfold new_entry_prefix.
  destruct (String.eqb_spec kind ANNOTATION); [contradiction|].
  destruct (String.eqb_spec kind LINK); [contradiction|].
  cbn [bind Py.len]. rewrite length_slots_from.
  rewrite Hstate. cbn [bind Py.items app].
  rewrite (fill_slots_beyond names state k v i _ Hin Hi)
    by (rewrite length_replicate; exact Hlen).
  reflexivity.
Qed.

(** C7 (as amended).  On an [add] to a pack of the new format of an entry
    whose type is absent from [fields]:
    - when the type is classified Annotation or Link, the saved pack has a
      registry entry that gives the attribute names of the type the slots
      4, 5, ... in the order in which [get_attribute_names] enumerates them,
      and the row appended to the bucket of the type holds, after its four
      leading columns, the entry's value for each attribute in that order
      (null where the entry has none); when the type is absent from
      [entries] as well and the pack decoded before, [transform_pack] of the
      saved pack is the pack decoded before with one record more, whose
      attributes give each attribute name that value;
    - when the type is classified otherwise (Group, Unknown), the row is
      built without leading columns, one null for each attribute, and a slot
      that lies beyond it cannot be filled: if the entry carries an
      attribute with such a slot, as every attribute of a type with at most
      four is, the call raises [IndexError] and saves nothing. *)
Theorem add_compact_registers_slots depth set_order doc entry db
    onto_defs pack_state type_name kind F E names state :
  (forall l, NoDup (set_order l)) ->
  OntoDefinitions_init (project_ontology doc) = Ok onto_defs ->
  entry@["py/object"] = Ok (JStr type_name) ->
  get_entry_type depth onto_defs (JStr type_name) = Ok kind ->
  (textPack doc)@["py/state"] = Ok pack_state ->
  is_previous_version pack_state = Ok false ->
  path (textPack doc) data_store_fields = Ok (JObj F) ->
  Py.assoc type_name F = None ->
  path (textPack doc) data_store_entries = Ok (JObj E) ->
  get_attribute_names set_order onto_defs (JStr type_name) = Ok names ->
  entry@["py/state"] = Ok (JObj state) ->
  NoDup (map fst state) ->
  let registry :=
    F ++ [(type_name, JObj [("attributes", JObj (slots_from 0 names))])] in
  let attributes := JObj (map (fun n => (n, attr_value state n)) names) in
  (kind = ANNOTATION \/ kind = LINK ->
   forall rows c0 c1 tid,
     bucket_rows E type_name rows ->
     new_entry_prefix entry (JStr type_name) kind = Ok [c0; c1; tid; JStr type_name] ->
     let row := JArr ([c0; c1; tid; JStr type_name] ++ map (attr_value state) names) in
     exists doc' db',
       add_entry_to_doc depth set_order doc entry db = Ok (doc', db') /\
       path (textPack doc') data_store_fields = Ok (JObj registry) /\
       path (textPack doc') data_store_entries
       = Ok (JObj (Py.dict_set type_name (JArr (rows ++ [row])) E)) /\
       compact_attributes (JObj registry) type_name row = Ok attributes /\
       (Py.assoc type_name E = None ->
        forall id text a l g global,
          Py.str tid = Ok id ->
          transform_pack depth set_order (textPack doc) (project_ontology doc)
          = Ok (normalized_pack text (a, l, g) global) ->
          (kind = ANNOTATION ->
           transform_pack depth set_order (textPack doc') (project_ontology doc')
           = Ok (normalized_pack text
                   (a ++ [decoded_annotation c0 c1 id (JStr type_name) attributes], l, g)
                   global)) /\
          (kind = LINK ->
           forall from_id to_id,
             Py.str c0 = Ok from_id -> Py.str c1 = Ok to_id ->
             transform_pack depth set_order (textPack doc') (project_ontology doc')
             = Ok (normalized_pack text
                     (a, l ++ [decoded_link id from_id to_id (JStr type_name) attributes],
                      g)
                     global)))) /\
  (kind <> ANNOTATION -> kind <> LINK ->
   forall k v i,
     In (k, v) state -> index_of k names = Some i -> (length names <= 4 + i)%nat ->
     add_entry_to_doc depth set_order doc entry db = Raise IndexError).
Proof.
  intros Hso Honto Hty Hk Hps Hver HF Hnew HE Hnames Hstate Hst registry attributes.
  pose proof (get_attribute_names_NoDup _ _ _ _ Hso Hnames) as Hnd.
  split.
  - intros Hkind rows c0 c1 tid Hrows Hpre row.
    destruct (add_compact_new_type set_order onto_defs (textPack doc) entry type_name
                kind F E rows names _ state Hkind HF Hnew HE Hrows Hnames Hnd Hpre
                Hstate Hst) as (pack' & Hadd & HF' & HE' & Hversion).
    exists {| textPack := pack'; project_ontology := project_ontology doc |},
           {| row := pack'; writes := S (writes db) |}.
    assert (Hattributes : compact_attributes (JObj registry) type_name row
                          = Ok attributes)
      by exact (compact_attributes_new_row type_name F names
                  [c0; c1; tid; JStr type_name] (attr_value state) Hnew Hnd eq_refl).
    split; [|split; [exact HF' | split; [exact HE' | split; [exact Hattributes|]]]].
    { rewrite (add_entry_to_doc_branch _ _ _ _ _ _ _ _ _ _ Honto Hty Hk Hps Hver).
      now rewrite Hadd. }
    intros HnewE id text a l g global Hid Hdec. cbn [textPack project_ontology].
    destruct Hrows as [Hsome | [_ ->]]; [congruence|].
    rewrite dict_set_fresh in HE' by exact HnewE. cbn [app] in HE'.
    destruct (Hversion _ Hps) as (state' & Hps' & Hver'). rewrite Hver in Hver'.
    destruct (transform_pack_compact_inv _ _ _ _ _ _ _ _ _ Hps Honto Hver Hdec)
      as (Hl & Ht & Ha).
    assert (Hreturn : forall lists, transform_return state' lists
                                    = Ok (normalized_pack text lists global)).
    { apply (same_elsewhere_return ["_data_store"] (textPack doc) pack' pack_state);
        try assumption;
        try (simpl; intuition discriminate);
        eauto using add_compact_frame, is_previous_version_dict. }
    assert (Hcompact : transform_compact depth onto_defs state'
                       = compact_entry depth onto_defs (JObj registry) type_name kind
                           (a, l, g) row).
    { unfold data_store_fields, data_store_entries in *.
      rewrite (path_under_state _ _ _ _ Hps) in HF.
      rewrite (path_under_state _ _ _ _ Hps) in HE.
      rewrite (path_under_state _ _ _ _ Hps') in HF'.
      rewrite (path_under_state _ _ _ _ Hps') in HE'.
      exact (transform_compact_new_bucket depth onto_defs pack_state state' F E
               type_name _ _ kind (a, l, g) HF HE HF' HE' HnewE Hk Hkind Hl). }
    rewrite (transform_pack_branch _ _ _ _ _ _ _ Hps' Honto Hver'), Hcompact.
    subst row. cbn [app]. cbn [app] in Hattributes. split.
    + intros ->.
      rewrite (compact_entry_annotation depth onto_defs _ type_name a l g c0 c1 tid
                 (JStr type_name) _ id attributes Hattributes Hid).
      cbn [bind]. apply Hreturn.
    + intros -> from_id to_id Hfrom Hto.
      rewrite (compact_entry_link depth onto_defs _ type_name a l g c0 c1 tid
                 (JStr type_name) _ id from_id to_id attributes Hattributes Hid
                 Hfrom Hto).
      cbn [bind]. apply Hreturn.
  - intros Hna Hnl k v i Hin Hi Hlen.
    rewrite (add_entry_to_doc_branch _ _ _ _ _ _ _ _ _ _ Honto Hty Hk Hps Hver).
    now rewrite (add_compact_other_kind set_order onto_defs (textPack doc) entry
                   type_name kind F names state k v i Hna Hnl HF Hnew Hnames Hnd
                   Hstate Hin Hi Hlen).
Qed.

Lemma add_compact_registers_slots_witness :
  (exists doc' db',
     add_entry_to_doc default_depth first_seen empty_token_doc token_entry
       (stored empty_token_doc) = Ok (doc', db') /\
     path (textPack doc') data_store_fields
     = Ok (JObj [("Token",
                  JObj [("attributes", JObj [("pos", JInt 4); ("lemma", JInt 5)])])]) /\
     path (textPack doc') data_store_entries
     = Ok (JObj [("Token",
                  JArr [JArr [JInt 0; JInt 2; JInt 7; JStr "Token"; JNull;
                              JStr "be"]])]) /\
     transform_pack default_depth first_seen (textPack doc') (project_ontology doc')
     = Ok (normalized_pack (JStr "hello")
             ([decoded_annotation (JInt 0) (JInt 2) "7" (JStr "Token")
                 (JObj [("pos", JNull); ("lemma", JStr "be")])], [], [])
             (JObj []))) /\
  add_entry_to_doc default_depth first_seen empty_token_doc chain_entry
    (stored empty_token_doc) = Raise IndexError.
Proof.
  split.
  - destruct (proj1 (add_compact_registers_slots default_depth first_seen
                       empty_token_doc token_entry (stored empty_token_doc) _ _ "Token"
                       ANNOTATION [] [] ["pos"; "lemma"] _
                       first_seen_NoDup eq_refl eq_refl eq_refl eq_refl eq_refl eq_refl
                       eq_refl eq_refl eq_refl eq_refl
                       ltac:(repeat constructor; rewrite ?list_elem_of_In; simpl;
                             intuition discriminate))
                (or_introl eq_refl) [] (JInt 0) (JInt 2) (JInt 7)
                (or_intror (conj eq_refl eq_refl)) eq_refl)
      as (doc' & db' & Hadd & Hfields & Hentries & _ & Hdecode).
    exists doc', db'. split; [exact Hadd | split; [exact Hfields | split; [exact Hentries|]]].
    exact (proj1 (Hdecode eq_refl "7" (JStr "hello") [] [] [] (JObj []) eq_refl eq_refl)
             eq_refl).
  - exact (proj2 (add_compact_registers_slots default_depth first_seen
                    empty_token_doc chain_entry (stored empty_token_doc) _ _ "Chain"
                    GROUP [] [] ["label"] _
                    first_seen_NoDup eq_refl eq_refl eq_refl eq_refl eq_refl eq_refl
                    eq_refl eq_refl eq_refl eq_refl
                    ltac:(repeat constructor; rewrite ?list_elem_of_In; simpl;
                          intuition discriminate))
             ltac:(discriminate) ltac:(discriminate) "label" (JStr "x") 0%nat
             ltac:(simpl; tauto) eq_refl ltac:(simpl; lia)).
Defined.
